(** * GetTimeSinceProcessStart: a shallow embedding and its properties

    The single function of [GetTimeSinceProcessStart.h] is embedded one
    preprocessor branch at a time.  Calls into the operating system and the C
    library are answered by a record of oracles ([OS]); every call and every
    diagnostic is appended to a trace, so that statements about what was (not)
    called, logged, opened or closed are statements about that trace.

    The C type [double] is IEEE 754 binary64, taken from the Standard
    Library's executable specification ([SpecFloat], precision 53, [emax]
    1024, round to nearest even).  Statements that quantify over all inputs
    (signs of differences) are proved through the real value of a float and
    a relational description of rounding, developed below for exactly the
    operations the function uses: integer conversion, division, addition
    and subtraction. *)

From Stdlib Require Import ZArith Zpower List String Ascii Bool Lia.
From Stdlib Require Import SpecFloat Reals Lra.
Import ListNotations.
Open Scope Z_scope.

(** ** binary64 *)

Module Double.

Definition prec : Z := 53.
Definition emax : Z := 1024.

Definition double : Type := spec_float.

Definition add : double -> double -> double := SFadd prec emax.
Definition sub : double -> double -> double := SFsub prec emax.
Definition div : double -> double -> double := SFdiv prec emax.

(** Conversion of an integer, [(double)n]. *)
Definition of_Z (n : Z) : double := binary_normalize prec emax n 0 false.

(** The literal [0.0]. *)
Definition zero : double := S754_zero false.

Definition leb : double -> double -> bool := SFleb.
Definition ltb : double -> double -> bool := SFltb.
Definition eqb : double -> double -> bool := SFeqb.

Definition valid (x : double) : bool := valid_binary prec emax x.

Definition is_finite (x : double) : bool :=
  match x with
  | S754_zero _ | S754_finite _ _ _ => true
  | _ => false
  end.

Definition is_nan (x : double) : bool :=
  match x with
  | S754_nan => true
  | _ => false
  end.

(** The smallest exponent and the exponent function of the format. *)
Definition emin : Z := SpecFloat.emin prec emax.
Definition fexp (d : Z) : Z := SpecFloat.fexp prec emax d.

(** *** Real values *)

Definition bpow (e : Z) : R := powerRZ 2 e.

(** The real number [m * 2^e]. *)
Definition F2R (m e : Z) : R := (IZR m * bpow e)%R.

(** The real value of a finite float; [0] for the others. *)
Definition B2R (z : spec_float) : R :=
  match z with
  | S754_finite s m e => F2R (cond_Zopp s (Zpos m)) e
  | _ => 0%R
  end.

(** *** Rounding, as a relation *)

(** [locate X m l]: [X] lies in the unit cell that starts at the integer [m],
    at the position [l] tells (on [m], below, at or above the midpoint). *)
Definition locate (X : R) (m : Z) (l : location) : Prop :=
  match l with
  | loc_Exact => X = IZR m
  | loc_Inexact Lt => (IZR m < X < IZR m + / 2)%R
  | loc_Inexact Eq => X = (IZR m + / 2)%R
  | loc_Inexact Gt => (IZR m + / 2 < X < IZR m + 1)%R
  end.

(** The same in units of [2^e]. *)
Definition Loc (x : R) (m e : Z) (l : location) : Prop :=
  locate (x * bpow (- e)) m l.

(** [d] fixes the exponent at which [x] is rounded: [x] is below [2^d], and
    either at least [2^(d-1)] or so small that the exponent is [emin]
    anyway. *)
Definition cexp_of (x : R) (d : Z) : Prop :=
  (x < bpow d)%R /\ ((bpow (d - 1) <= x)%R \/ d <= emin + prec).

(** [RNE x r]: the positive real [x] rounds to [r], to nearest with ties to
    even, in the format without an upper bound on the exponent. *)
Definition RNE (x r : R) : Prop :=
  (0 < x)%R /\
  exists d m l,
    cexp_of x d /\ Loc x m (fexp d) l /\
    r = F2R (round_nearest_even m l) (fexp d).

(** The same for reals of any sign. *)
Definition Rnd (x r : R) : Prop :=
  (x = 0 /\ r = 0)%R \/ RNE x r \/ RNE (- x) (- r).

(** What [binary_round_aux] returns for sign [s] when the magnitude rounds
    to [r]. *)
Definition Result (s : bool) (r : R) (z : spec_float) : Prop :=
  match z with
  | S754_zero s' => s' = s /\ r = 0%R
  | S754_finite s' m e =>
      s' = s /\ r = F2R (Zpos m) e /\ valid_binary prec emax z = true
  | S754_infinity s' => s' = s /\ (bpow emax <= r)%R
  | S754_nan => False
  end.

(** [Rounded x z]: the float [z] is the correctly rounded [x]: a valid
    float whose value is the rounding of [x], or the infinity of the right
    sign when that rounding is out of range. *)
Definition Rounded (x : R) (z : spec_float) : Prop :=
  valid_binary prec emax z = true /\
  match z with
  | S754_zero _ => Rnd x 0
  | S754_finite _ _ _ => Rnd x (B2R z)
  | S754_infinity s =>
      exists r, Rnd x r /\ if s then (r <= - bpow emax)%R else (bpow emax <= r)%R
  | S754_nan => False
  end.

(** What a result of [SFcompare] says about two reals. *)
Definition ordered (c : option comparison) (a b : R) : Prop :=
  match c with
  | Some Lt => (a < b)%R
  | Some Eq => a = b
  | Some Gt => (b < a)%R
  | None => False
  end.

End Double.

Import Double.

(** ** Machine integers *)

Definition wrap_unsigned (w z : Z) : Z := z mod 2 ^ w.
Definition wrap_signed (w z : Z) : Z := (z + 2 ^ (w - 1)) mod 2 ^ w - 2 ^ (w - 1).

(** ** Data of the platform interfaces *)

(** [FILETIME]: two [DWORD]s. *)
Record FILETIME := { dwLowDateTime : Z; dwHighDateTime : Z }.

(** [ULARGE_INTEGER]: a union of two [DWORD]s and one [ULONGLONG]. *)
Record ULARGE_INTEGER := { LowPart : Z; HighPart : Z }.

Definition QuadPart (c : ULARGE_INTEGER) : Z :=
  Z.lor (Z.shiftl (wrap_unsigned 32 (HighPart c)) 32) (wrap_unsigned 32 (LowPart c)).

(** [struct timeval]: [time_t tv_sec] (64-bit signed) and
    [suseconds_t tv_usec] (32-bit signed). *)
Record timeval := { tv_sec : Z; tv_usec : Z }.

(** The two fields of [struct proc_bsdinfo] the function reads, both
    [uint64_t]. *)
Record proc_bsdinfo := { pbi_start_tvsec : Z; pbi_start_tvusec : Z }.

(** A [FILE*] that is not [NULL]. *)
Definition FILE : Type := Z.

(** ** The environment *)

Record OS := {
  (** [BOOL] result and [lpCreationTime]. *)
  GetProcessTimes : Z * FILETIME;
  GetSystemTimeAsFileTime : FILETIME;
  (** [None] is [NULL]. *)
  fopen : string -> option FILE;
  (** The scan of [/proc/self/stat] up to its 22nd field: the number of
      items assigned and the [uint64_t] stored. *)
  fscanf_stat : FILE -> Z * Z;
  (** The scan with ["%lf"]: the number of items assigned and the
      [double] stored. *)
  fscanf_lf : FILE -> Z * double;
  fclose : FILE -> Z;
  (** [sysconf(_SC_CLK_TCK)], a [long]. *)
  sysconf_SC_CLK_TCK : Z;
  getpid : Z;
  (** [proc_pidinfo(pid, PROC_PIDTBSDINFO, ...)]: its [int] result and the
      structure it filled. *)
  proc_pidinfo : Z -> Z * proc_bsdinfo;
  (** [None]: the call failed and left its buffer as it was. *)
  gettimeofday : option timeval
}.

(** ** Compile-time configuration: which macros are defined *)

Record Config := {
  _WIN32 : bool;
  linux : bool;
  __linux__ : bool;
  __LINUX__ : bool;
  __APPLE__ : bool;
  MACOSX : bool;
  __MACOSX__ : bool;
  GTSPS_DONT_LOG_ERRORS : bool;
  (** The includer supplied a [GTSPS_LOG_ERROR] of its own. *)
  GTSPS_LOG_ERROR_defined : bool
}.

(** ** Traces *)

Inductive Event : Type :=
| Call_GetCurrentProcess
| Call_GetProcessTimes
| Call_GetSystemTimeAsFileTime
| Call_fopen (path : string) (result : option FILE)
| Call_fscanf (file : FILE)
| Call_fclose (file : FILE)
| Call_sysconf
| Call_getpid
| Call_proc_pidinfo
| Call_gettimeofday
| Log_stderr (str : string)
| Log_custom (str : string).

Definition Trace : Type := list Event.

(** ** Function bodies: a trace and an early [return] *)

Inductive Flow (A : Type) : Type :=
| Next (a : A)
| Returned (r : double).

Arguments Next {A} a.
Arguments Returned {A} r.

Definition Body (A : Type) : Type := Trace -> Flow A * Trace.

Definition ret {A} (a : A) : Body A := fun t => (Next a, t).

Definition bind {A B} (m : Body A) (k : A -> Body B) : Body B :=
  fun t =>
    match m t with
    | (Next a, t') => k a t'
    | (Returned r, t') => (Returned r, t')
    end.

(** The C statement [return r;]. *)
Definition return_ {A} (r : double) : Body A := fun t => (Returned r, t).

Definition emit (e : Event) : Body unit := fun t => (Next tt, t ++ [e]).

Notation "x <- m ;; k" := (bind m (fun x => k))
  (at level 61, m at next level, right associativity).
Notation "' p <- m ;; k" := (bind m (fun x => let p := x in k))
  (at level 61, p pattern, m at next level, right associativity).
Notation "m ;;; k" := (bind m (fun _ => k))
  (at level 61, right associativity).

Definition run (b : Body double) : double * Trace :=
  match b [] with
  | (Next r, t) => (r, t)
  | (Returned r, t) => (r, t)
  end.

(** ** Calls *)

Section Calls.
Variable os : OS.

Definition c_GetCurrentProcess : Body unit := emit Call_GetCurrentProcess.

Definition c_GetProcessTimes : Body (Z * FILETIME) :=
  emit Call_GetProcessTimes ;;; ret (GetProcessTimes os).

Definition c_GetSystemTimeAsFileTime : Body FILETIME :=
  emit Call_GetSystemTimeAsFileTime ;;; ret (GetSystemTimeAsFileTime os).

Definition c_fopen (path : string) : Body (option FILE) :=
  emit (Call_fopen path (fopen os path)) ;;; ret (fopen os path).

Definition c_fscanf_stat (file : FILE) : Body (Z * Z) :=
  emit (Call_fscanf file) ;;; ret (fscanf_stat os file).

Definition c_fscanf_lf (file : FILE) : Body (Z * double) :=
  emit (Call_fscanf file) ;;; ret (fscanf_lf os file).

Definition c_fclose (file : FILE) : Body Z :=
  emit (Call_fclose file) ;;; ret (fclose os file).

Definition c_sysconf : Body Z :=
  emit Call_sysconf ;;; ret (sysconf_SC_CLK_TCK os).

Definition c_getpid : Body Z := emit Call_getpid ;;; ret (getpid os).

Definition c_proc_pidinfo (pid : Z) : Body (Z * proc_bsdinfo) :=
  emit Call_proc_pidinfo ;;; ret (proc_pidinfo os pid).

Definition c_gettimeofday : Body (option timeval) :=
  emit Call_gettimeofday ;;; ret (gettimeofday os).
End Calls.

(** ** The diagnostics *)

Definition newline : string := String (ascii_of_nat 10) EmptyString.

Definition msg_GetProcessTimes : string :=
  "Error: Failed to call GetProcessTimes" ++ newline.
Definition msg_open_stat : string :=
  "Error: Failed to open /proc/self/stat." ++ newline.
Definition msg_decode_stat : string :=
  "Error: Failed decoding /proc/self/stat." ++ newline.
Definition msg_open_uptime : string :=
  "Error: Failed to open /proc/uptime." ++ newline.
Definition msg_decode_uptime : string :=
  "Error: Failed decoding /proc/uptime." ++ newline.
Definition msg_proc_pidinfo : string := "Error: proc_pidinfo failed".

(** The macro [GTSPS_LOG_ERROR(str)]: empty under [GTSPS_DONT_LOG_ERRORS],
    the includer's own when it defined one, [fprintf(stderr, str)]
    otherwise. *)
Definition GTSPS_LOG_ERROR (cfg : Config) (str : string) : Body unit :=
  if GTSPS_DONT_LOG_ERRORS cfg then ret tt
  else if GTSPS_LOG_ERROR_defined cfg then emit (Log_custom str)
  else emit (Log_stderr str).

(** ** The three platform branches *)

Section Branches.
Variable cfg : Config.
Variable os : OS.

(** [#if defined(_WIN32)] *)
Definition body_WIN32 : Body double :=
  startTime <-
    (c_GetCurrentProcess ;;;
     '(ok, creationTime) <- c_GetProcessTimes os ;;
     if ok =? 0 then
       GTSPS_LOG_ERROR cfg msg_GetProcessTimes ;;; return_ zero
     else
       let converter := {| LowPart := dwLowDateTime creationTime;
                           HighPart := dwHighDateTime creationTime |} in
       ret (div (of_Z (QuadPart converter)) (of_Z 10000000))) ;;
  currentTime <-
    (systemTime <- c_GetSystemTimeAsFileTime os ;;
     let converter := {| LowPart := dwLowDateTime systemTime;
                         HighPart := dwHighDateTime systemTime |} in
     ret (div (of_Z (QuadPart converter)) (of_Z 10000000))) ;;
  let timeInSeconds := sub currentTime startTime in
  ret timeInSeconds.

(** [#elif defined(linux) || defined(__linux__) || defined(__LINUX__)] *)
Definition body_linux : Body double :=
  processStartTimeInSeconds <-
    (file <- c_fopen os "/proc/self/stat" ;;
     match file with
     | Some file =>
         '(decoded, startTime) <- c_fscanf_stat os file ;;
         c_fclose os file ;;;
         if negb (decoded =? 1) then
           GTSPS_LOG_ERROR cfg msg_decode_stat ;;; return_ zero
         else
           clk <- c_sysconf os ;;
           let clockTicksPerSecond := of_Z clk in
           ret (div (of_Z startTime) clockTicksPerSecond)
     | None =>
         GTSPS_LOG_ERROR cfg msg_open_stat ;;; return_ zero
     end) ;;
  kernelUpTimeInSeconds <-
    (file <- c_fopen os "/proc/uptime" ;;
     match file with
     | Some file =>
         '(decoded, kernelUpTimeInSeconds) <- c_fscanf_lf os file ;;
         c_fclose os file ;;;
         if negb (decoded =? 1) then
           GTSPS_LOG_ERROR cfg msg_decode_uptime ;;; return_ zero
         else ret kernelUpTimeInSeconds
     | None =>
         GTSPS_LOG_ERROR cfg msg_open_uptime ;;; return_ zero
     end) ;;
  let timeInSeconds := sub kernelUpTimeInSeconds processStartTimeInSeconds in
  ret timeInSeconds.

(** [#elif defined(__APPLE__) || defined(MACOSX) || defined(__MACOSX__)] *)
Definition body_APPLE : Body double :=
  startTime <-
    (pid <- c_getpid os ;;
     '(status, task_info) <- c_proc_pidinfo os pid ;;
     if status <=? 0 then
       GTSPS_LOG_ERROR cfg msg_proc_pidinfo ;;; return_ zero
     else
       ret {| tv_sec := wrap_signed 64 (pbi_start_tvsec task_info);
              tv_usec := wrap_signed 32 (pbi_start_tvusec task_info) |}) ;;
  currentTime <-
    (written <- c_gettimeofday os ;;
     ret match written with
         | Some tv => tv
         | None => {| tv_sec := 0; tv_usec := 0 |}
         end) ;;
  let timeInSeconds :=
    add (of_Z (wrap_signed 64 (tv_sec currentTime - tv_sec startTime)))
        (div (of_Z (wrap_signed 32 (tv_usec currentTime - tv_usec startTime)))
             (of_Z 1000000)) in
  ret timeInSeconds.

(** [#else]: unsupported platform. *)
Definition body_unsupported : Body double := return_ zero.
End Branches.

(** ** Platform detection and the function itself *)

Inductive Platform : Type := Windows | Linux | Apple | Unsupported.

Definition platform (cfg : Config) : Platform :=
  if _WIN32 cfg then Windows
  else if linux cfg || __linux__ cfg || __LINUX__ cfg then Linux
  else if __APPLE__ cfg || MACOSX cfg || __MACOSX__ cfg then Apple
  else Unsupported.

Definition body (cfg : Config) (os : OS) : Body double :=
  match platform cfg with
  | Windows => body_WIN32 cfg os
  | Linux => body_linux cfg os
  | Apple => body_APPLE cfg os
  | Unsupported => body_unsupported
  end.

Definition GetTimeSinceProcessStart (cfg : Config) (os : OS) : double * Trace :=
  run (body cfg os).

(** ** Reading traces *)

(** What one use of [GTSPS_LOG_ERROR(str)] appends to the trace. *)
Definition logged (cfg : Config) (str : string) : Trace :=
  if GTSPS_DONT_LOG_ERRORS cfg then []
  else if GTSPS_LOG_ERROR_defined cfg then [Log_custom str]
  else [Log_stderr str].

(** The diagnostic messages of a trace, in order. *)
Fixpoint diagnostics (t : Trace) : list string :=
  match t with
  | [] => []
  | Log_stderr s :: t' => s :: diagnostics t'
  | Log_custom s :: t' => s :: diagnostics t'
  | _ :: t' => diagnostics t'
  end.

Fixpoint remove_first (f : FILE) (l : list FILE) : list FILE :=
  match l with
  | [] => []
  | g :: l' => if f =? g then l' else g :: remove_first f l'
  end.

(** The streams that are open after a trace, given those open before it. *)
Fixpoint open_after (held : list FILE) (t : Trace) : list FILE :=
  match t with
  | [] => held
  | Call_fopen _ (Some f) :: t' => open_after (f :: held) t'
  | Call_fclose f :: t' => open_after (remove_first f held) t'
  | _ :: t' => open_after held t'
  end.

Definition open_files (t : Trace) : list FILE := open_after [] t.

(** The calls that sample the current time: the system time on Windows, the
    kernel uptime file on Linux, the time of day on Apple. *)
Definition current_time_probe (e : Event) : bool :=
  match e with
  | Call_GetSystemTimeAsFileTime => true
  | Call_fopen path _ => String.eqb path "/proc/uptime"
  | Call_gettimeofday => true
  | _ => false
  end.

(** The calls that sample the creation time. *)
Definition creation_time_probe (e : Event) : bool :=
  match e with
  | Call_GetProcessTimes => true
  | Call_fopen path _ => String.eqb path "/proc/self/stat"
  | Call_proc_pidinfo => true
  | _ => false
  end.

Definition is_call (e : Event) : bool :=
  match e with
  | Log_stderr _ | Log_custom _ => false
  | _ => true
  end.

Definition stat_path : string := "/proc/self/stat".
Definition uptime_path : string := "/proc/uptime".

(** The Windows branch. *)
Definition outcome_WIN32 (cfg : Config) (os : OS) : double * Trace :=
  let '(ok, creationTime) := GetProcessTimes os in
  if ok =? 0 then
    (zero, [Call_GetCurrentProcess; Call_GetProcessTimes]
             ++ logged cfg msg_GetProcessTimes)
  else
    let systemTime := GetSystemTimeAsFileTime os in
    (sub (div (of_Z (QuadPart {| LowPart := dwLowDateTime systemTime;
                                 HighPart := dwHighDateTime systemTime |}))
              (of_Z 10000000))
         (div (of_Z (QuadPart {| LowPart := dwLowDateTime creationTime;
                                 HighPart := dwHighDateTime creationTime |}))
              (of_Z 10000000)),
     [Call_GetCurrentProcess; Call_GetProcessTimes;
      Call_GetSystemTimeAsFileTime]).

(** The Linux branch. *)
Definition outcome_linux (cfg : Config) (os : OS) : double * Trace :=
  match fopen os stat_path with
  | None => (zero, [Call_fopen stat_path None] ++ logged cfg msg_open_stat)
  | Some f1 =>
      let '(decoded1, startTime) := fscanf_stat os f1 in
      let t1 := [Call_fopen stat_path (Some f1); Call_fscanf f1; Call_fclose f1] in
      if negb (decoded1 =? 1) then (zero, t1 ++ logged cfg msg_decode_stat)
      else
        let t2 := t1 ++ [Call_sysconf] in
        match fopen os uptime_path with
        | None =>
            (zero, t2 ++ [Call_fopen uptime_path None]
                      ++ logged cfg msg_open_uptime)
        | Some f2 =>
            let '(decoded2, kernelUpTimeInSeconds) := fscanf_lf os f2 in
            let t3 := t2 ++ [Call_fopen uptime_path (Some f2); Call_fscanf f2;
                             Call_fclose f2] in
            if negb (decoded2 =? 1) then
              (zero, t3 ++ logged cfg msg_decode_uptime)
            else
              (sub kernelUpTimeInSeconds
                   (div (of_Z startTime) (of_Z (sysconf_SC_CLK_TCK os))),
               t3)
        end
  end.

(** The Apple branch. *)
Definition outcome_APPLE (cfg : Config) (os : OS) : double * Trace :=
  let '(status, task_info) := proc_pidinfo os (getpid os) in
  if status <=? 0 then
    (zero, [Call_getpid; Call_proc_pidinfo] ++ logged cfg msg_proc_pidinfo)
  else
    let currentTime :=
      match gettimeofday os with
      | Some tv => tv
      | None => {| tv_sec := 0; tv_usec := 0 |}
      end in
    (add (of_Z (wrap_signed 64
                  (tv_sec currentTime
                   - wrap_signed 64 (pbi_start_tvsec task_info))))
         (div (of_Z (wrap_signed 32
                       (tv_usec currentTime
                        - wrap_signed 32 (pbi_start_tvusec task_info))))
              (of_Z 1000000)),
     [Call_getpid; Call_proc_pidinfo; Call_gettimeofday]).

(** ** Detected failures *)

(** The creation-time probe as the code judges it: [Some msg] when the branch
    takes the early exit that logs [msg]. *)
Definition creation_failure (cfg : Config) (os : OS) : option string :=
  match platform cfg with
  | Windows =>
      if fst (GetProcessTimes os) =? 0 then Some msg_GetProcessTimes else None
  | Linux =>
      match fopen os stat_path with
      | None => Some msg_open_stat
      | Some f =>
          if negb (fst (fscanf_stat os f) =? 1) then Some msg_decode_stat
          else None
      end
  | Apple =>
      if fst (proc_pidinfo os (getpid os)) <=? 0 then Some msg_proc_pidinfo
      else None
  | Unsupported => None
  end.

(** The current-time probe as the code judges it.  Only the Linux branch
    looks at the outcome of that probe. *)
Definition current_failure (cfg : Config) (os : OS) : option string :=
  match platform cfg with
  | Linux =>
      match fopen os uptime_path with
      | None => Some msg_open_uptime
      | Some f =>
          if negb (fst (fscanf_lf os f) =? 1) then Some msg_decode_uptime
          else None
      end
  | _ => None
  end.

(** ** Sample configurations and environments *)

Definition cfg_of (win lin mac dont custom : bool) : Config :=
  {| _WIN32 := win; linux := false; __linux__ := lin; __LINUX__ := false;
     __APPLE__ := mac; MACOSX := false; __MACOSX__ := false;
     GTSPS_DONT_LOG_ERRORS := dont; GTSPS_LOG_ERROR_defined := custom |}.

Definition cfg_windows : Config := cfg_of true false false false false.
Definition cfg_linux : Config := cfg_of false true false false false.
Definition cfg_apple : Config := cfg_of false false true false false.
Definition cfg_other : Config := cfg_of false false false false false.


Definition sample_fopen (path : string) : option FILE :=
  if String.eqb path stat_path then Some 3
  else if String.eqb path uptime_path then Some 4
  else None.

Definition sample_os : OS :=
  {| GetProcessTimes :=
       (1, {| dwLowDateTime := 100000000; dwHighDateTime := 0 |});
     GetSystemTimeAsFileTime :=
       {| dwLowDateTime := 150000000; dwHighDateTime := 0 |};
     fopen := sample_fopen;
     fscanf_stat := fun _ => (1, 500);
     fscanf_lf := fun _ => (1, of_Z 10);
     fclose := fun _ => 0;
     sysconf_SC_CLK_TCK := 100;
     getpid := 4242;
     proc_pidinfo :=
       fun _ => (136, {| pbi_start_tvsec := 1700000000;
                         pbi_start_tvusec := 250000 |});
     gettimeofday := Some {| tv_sec := 1700000005; tv_usec := 750000 |} |}.

(** An environment whose clocks run backwards: on every platform the
    creation time is after the current time. *)
Definition reversed_os : OS :=
  {| GetProcessTimes :=
       (1, {| dwLowDateTime := 150000000; dwHighDateTime := 0 |});
     GetSystemTimeAsFileTime :=
       {| dwLowDateTime := 100000000; dwHighDateTime := 0 |};
     fopen := sample_fopen;
     fscanf_stat := fun _ => (1, 500);
     fscanf_lf := fun _ => (1, of_Z 10);
     fclose := fun _ => 0;
     sysconf_SC_CLK_TCK := 10;
     getpid := 4242;
     proc_pidinfo :=
       fun _ => (136, {| pbi_start_tvsec := 1700000005;
                         pbi_start_tvusec := 750000 |});
     gettimeofday := Some {| tv_sec := 1700000000; tv_usec := 250000 |} |}.

(** [sample_os] with one answer replaced. *)
Definition with_GetProcessTimes (r : Z * FILETIME) (os : OS) : OS :=
  {| GetProcessTimes := r;
     GetSystemTimeAsFileTime := GetSystemTimeAsFileTime os;
     fopen := fopen os; fscanf_stat := fscanf_stat os;
     fscanf_lf := fscanf_lf os; fclose := fclose os;
     sysconf_SC_CLK_TCK := sysconf_SC_CLK_TCK os; getpid := getpid os;
     proc_pidinfo := proc_pidinfo os; gettimeofday := gettimeofday os |}.

Definition with_fscanf_stat (r : Z * Z) (os : OS) : OS :=
  {| GetProcessTimes := GetProcessTimes os;
     GetSystemTimeAsFileTime := GetSystemTimeAsFileTime os;
     fopen := fopen os; fscanf_stat := fun _ => r;
     fscanf_lf := fscanf_lf os; fclose := fclose os;
     sysconf_SC_CLK_TCK := sysconf_SC_CLK_TCK os; getpid := getpid os;
     proc_pidinfo := proc_pidinfo os; gettimeofday := gettimeofday os |}.

Definition with_fscanf_lf (r : Z * double) (os : OS) : OS :=
  {| GetProcessTimes := GetProcessTimes os;
     GetSystemTimeAsFileTime := GetSystemTimeAsFileTime os;
     fopen := fopen os; fscanf_stat := fscanf_stat os;
     fscanf_lf := fun _ => r; fclose := fclose os;
     sysconf_SC_CLK_TCK := sysconf_SC_CLK_TCK os; getpid := getpid os;
     proc_pidinfo := proc_pidinfo os; gettimeofday := gettimeofday os |}.

Definition with_sysconf (clk : Z) (os : OS) : OS :=
  {| GetProcessTimes := GetProcessTimes os;
     GetSystemTimeAsFileTime := GetSystemTimeAsFileTime os;
     fopen := fopen os; fscanf_stat := fscanf_stat os;
     fscanf_lf := fscanf_lf os; fclose := fclose os;
     sysconf_SC_CLK_TCK := clk; getpid := getpid os;
     proc_pidinfo := proc_pidinfo os; gettimeofday := gettimeofday os |}.

Definition with_proc_pidinfo (r : Z * proc_bsdinfo) (os : OS) : OS :=
  {| GetProcessTimes := GetProcessTimes os;
     GetSystemTimeAsFileTime := GetSystemTimeAsFileTime os;
     fopen := fopen os; fscanf_stat := fscanf_stat os;
     fscanf_lf := fscanf_lf os; fclose := fclose os;
     sysconf_SC_CLK_TCK := sysconf_SC_CLK_TCK os; getpid := getpid os;
     proc_pidinfo := fun _ => r; gettimeofday := gettimeofday os |}.

Definition with_gettimeofday (r : option timeval) (os : OS) : OS :=
  {| GetProcessTimes := GetProcessTimes os;
     GetSystemTimeAsFileTime := GetSystemTimeAsFileTime os;
     fopen := fopen os; fscanf_stat := fscanf_stat os;
     fscanf_lf := fscanf_lf os; fclose := fclose os;
     sysconf_SC_CLK_TCK := sysconf_SC_CLK_TCK os; getpid := getpid os;
     proc_pidinfo := proc_pidinfo os; gettimeofday := r |}.

(** The [FILETIME] that holds a tick count. *)
Definition FILETIME_of_ticks (q : Z) : FILETIME :=
  {| dwLowDateTime := q mod 2 ^ 32; dwHighDateTime := q / 2 ^ 32 |}.

Definition with_GetSystemTimeAsFileTime (r : FILETIME) (os : OS) : OS :=
  {| GetProcessTimes := GetProcessTimes os;
     GetSystemTimeAsFileTime := r;
     fopen := fopen os; fscanf_stat := fscanf_stat os;
     fscanf_lf := fscanf_lf os; fclose := fclose os;
     sysconf_SC_CLK_TCK := sysconf_SC_CLK_TCK os; getpid := getpid os;
     proc_pidinfo := proc_pidinfo os; gettimeofday := gettimeofday os |}.

(** ** The sampled times *)

(** Windows: seconds from a count of 100-nanosecond ticks. *)
Definition seconds_of_ticks (q : Z) : double := div (of_Z q) (of_Z 10000000).

(** Windows: the two [FILETIME]s as 64-bit tick counts. *)
Definition creation_ticks (os : OS) : Z :=
  let creationTime := snd (GetProcessTimes os) in
  QuadPart {| LowPart := dwLowDateTime creationTime;
              HighPart := dwHighDateTime creationTime |}.

Definition current_ticks (os : OS) : Z :=
  let systemTime := GetSystemTimeAsFileTime os in
  QuadPart {| LowPart := dwLowDateTime systemTime;
              HighPart := dwHighDateTime systemTime |}.

(** Linux: the two [double]s the branch subtracts. *)
Definition processStartTimeInSeconds (os : OS) : double :=
  match fopen os stat_path with
  | Some f =>
      div (of_Z (snd (fscanf_stat os f))) (of_Z (sysconf_SC_CLK_TCK os))
  | None => zero
  end.

Definition kernelUpTimeInSeconds (os : OS) : double :=
  match fopen os uptime_path with
  | Some f => snd (fscanf_lf os f)
  | None => zero
  end.

(** Apple: the start time as [proc_pidinfo] reports it and the current time
    as the buffer of [gettimeofday] holds it. *)
Definition start_timeval (os : OS) : timeval :=
  let task_info := snd (proc_pidinfo os (getpid os)) in
  {| tv_sec := pbi_start_tvsec task_info;
     tv_usec := pbi_start_tvusec task_info |}.

Definition current_timeval (os : OS) : timeval :=
  match gettimeofday os with
  | Some tv => tv
  | None => {| tv_sec := 0; tv_usec := 0 |}
  end.

(** A time of day: seconds that fit [time_t], microseconds below a million. *)
Definition normal_timeval (tv : timeval) : bool :=
  (0 <=? tv_sec tv) && (tv_sec tv <? 2 ^ 63) &&
  (0 <=? tv_usec tv) && (tv_usec tv <? 1000000).

Definition microseconds (tv : timeval) : Z := tv_sec tv * 1000000 + tv_usec tv.

(** Both probes delivered a sample. *)
Definition probes_succeed (cfg : Config) (os : OS) : bool :=
  match creation_failure cfg os, current_failure cfg os with
  | None, None =>
      match platform cfg, gettimeofday os with
      | Apple, None => false
      | _, _ => true
      end
  | _, _ => false
  end.

(** The sampled current time is not before the sampled creation time, in
    the clock domain of the platform: tick counts on Windows, finite seconds
    since boot on Linux, times of day on Apple. *)
Definition current_not_before_creation (cfg : Config) (os : OS) : bool :=
  match platform cfg with
  | Windows => creation_ticks os <=? current_ticks os
  | Linux =>
      valid (kernelUpTimeInSeconds os) &&
      is_finite (kernelUpTimeInSeconds os) &&
      is_finite (processStartTimeInSeconds os) &&
      leb (processStartTimeInSeconds os) (kernelUpTimeInSeconds os)
  | Apple =>
      normal_timeval (start_timeval os) && normal_timeval (current_timeval os) &&
      (microseconds (start_timeval os) <=? microseconds (current_timeval os))
  | Unsupported => true
  end.

(** The sampled current time is before the sampled creation time, in the
    clock domain of the platform: tick counts on Windows, finite seconds
    since boot on Linux, times of day on Apple. *)
Definition current_before_creation (cfg : Config) (os : OS) : bool :=
  match platform cfg with
  | Windows => current_ticks os <? creation_ticks os
  | Linux =>
      valid (kernelUpTimeInSeconds os) &&
      is_finite (kernelUpTimeInSeconds os) &&
      is_finite (processStartTimeInSeconds os) &&
      ltb (kernelUpTimeInSeconds os) (processStartTimeInSeconds os)
  | Apple =>
      normal_timeval (start_timeval os) && normal_timeval (current_timeval os) &&
      (microseconds (current_timeval os) <? microseconds (start_timeval os))
  | Unsupported => false
  end.

(** The difference each branch forms, with no test on its sign. *)
Definition difference (cfg : Config) (os : OS) : double :=
  match platform cfg with
  | Windows =>
      sub (seconds_of_ticks (current_ticks os))
          (seconds_of_ticks (creation_ticks os))
  | Linux => sub (kernelUpTimeInSeconds os) (processStartTimeInSeconds os)
  | Apple =>
      add (of_Z (wrap_signed 64
                   (tv_sec (current_timeval os)
                    - wrap_signed 64 (tv_sec (start_timeval os)))))
          (div (of_Z (wrap_signed 32
                        (tv_usec (current_timeval os)
                         - wrap_signed 32 (tv_usec (start_timeval os)))))
               (of_Z 1000000))
  | Unsupported => zero
  end.

(** The two samples are the same [double] once the branch has converted
    them to seconds.  Only the Windows branch converts both samples before
    it subtracts. *)
Definition converted_to_same_seconds (cfg : Config) (os : OS) : bool :=
  match platform cfg with
  | Windows =>
      eqb (seconds_of_ticks (current_ticks os))
          (seconds_of_ticks (creation_ticks os))
  | _ => false
  end.

(** A Windows environment of the present date whose current tick count is
    one below the creation tick count. *)
Definition neighbouring_os : OS :=
  with_GetProcessTimes (1, FILETIME_of_ticks 133000000000000001)
    (with_GetSystemTimeAsFileTime
       (FILETIME_of_ticks 133000000000000000) sample_os).

(** ** Further observations on runs *)

(** The failure a run stops at, as the code judges it: that of the
    creation-time probe, else that of the current-time probe. *)
Definition detected_failure (cfg : Config) (os : OS) : option string :=
  match creation_failure cfg os with
  | Some msg => Some msg
  | None => current_failure cfg os
  end.

(** The calls of a trace, its diagnostics left out. *)
Definition calls_of (t : Trace) : Trace := filter is_call t.

(** [fscanf] and [fclose] are applied to a stream that is open, and [fopen]
    is called while no stream is open. *)
Fixpoint streams_used_properly (held : list FILE) (t : Trace) : bool :=
  match t with
  | [] => true
  | Call_fopen _ (Some f) :: t' =>
      match held with
      | [] => streams_used_properly [f] t'
      | _ :: _ => false
      end
  | Call_fopen _ None :: t' =>
      match held with
      | [] => streams_used_properly held t'
      | _ :: _ => false
      end
  | Call_fscanf f :: t' =>
      existsb (Z.eqb f) held && streams_used_properly held t'
  | Call_fclose f :: t' =>
      existsb (Z.eqb f) held && streams_used_properly (remove_first f held) t'
  | _ :: t' => streams_used_properly held t'
  end.

(** The two samples are the same time. *)
Definition samples_coincide (cfg : Config) (os : OS) : Prop :=
  match platform cfg with
  | Windows => creation_ticks os = current_ticks os
  | Linux =>
      is_finite (kernelUpTimeInSeconds os) = true /\
      processStartTimeInSeconds os = kernelUpTimeInSeconds os
  | Apple =>
      normal_timeval (start_timeval os) = true /\
      start_timeval os = current_timeval os
  | Unsupported => True
  end.

(** The values the Linux branch works on. *)
Definition startTime_ticks (os : OS) : Z :=
  match fopen os stat_path with
  | Some f => snd (fscanf_stat os f)
  | None => 0
  end.

(** [uint64_t] and [long] values. *)
Definition is_uint64 (z : Z) : bool := (0 <=? z) && (z <? 2 ^ 64).
Definition is_long (z : Z) : bool := (- 2 ^ 63 <=? z) && (z <? 2 ^ 63).

(** An uptime of at most [2^64] seconds in magnitude. *)
Definition plausible_uptime (up : double) : bool :=
  valid up && leb (SFabs up) (of_Z (2 ^ 64)).

(** ** The scan of [/proc/self/stat] *)

(** [isspace] in the C locale. *)
Definition isspace (c : ascii) : bool :=
  Ascii.eqb c " " || Ascii.eqb c "009" || Ascii.eqb c "010" ||
  Ascii.eqb c "011" || Ascii.eqb c "012" || Ascii.eqb c "013".

Definition isdigit (c : ascii) : bool :=
  (48 <=? Z.of_N (N_of_ascii c)) && (Z.of_N (N_of_ascii c) <=? 57).

Definition digit_value (c : ascii) : Z := Z.of_N (N_of_ascii c) - 48.

(** The directives of a format string, as far as this format uses them. *)
Inductive directive : Type :=
| D_space
| D_char (c : ascii)
| D_skip_string
| D_size_t
| D_unsupported.

Fixpoint parse_format (fmt : string) : list directive :=
  match fmt with
  | EmptyString => []
  | String "%" (String "*" (String "s" fmt')) => D_skip_string :: parse_format fmt'
  | String "%" (String "z" (String "u" fmt')) => D_size_t :: parse_format fmt'
  | String "%" fmt' => D_unsupported :: parse_format fmt'
  | String c fmt' =>
      (if isspace c then D_space else D_char c) :: parse_format fmt'
  end.

(** Input up to the first character that is not white space. *)
Fixpoint skip_space (s : string) : string :=
  match s with
  | EmptyString => EmptyString
  | String c s' => if isspace c then skip_space s' else s
  end.

Fixpoint skip_nonspace (s : string) : string :=
  match s with
  | EmptyString => EmptyString
  | String c s' => if isspace c then s else skip_nonspace s'
  end.

(** [%*s]: white space is skipped, then a non-empty run of characters that
    are not white space is read and dropped. *)
Definition conv_skip_string (s : string) : option string :=
  match skip_space s with
  | EmptyString => None
  | String _ s' => Some (skip_nonspace s')
  end.

Fixpoint read_digits (acc : Z) (s : string) : Z * string :=
  match s with
  | EmptyString => (acc, s)
  | String c s' =>
      if isdigit c then read_digits (10 * acc + digit_value c) s' else (acc, s)
  end.

Definition unsigned_digits (s : string) : option (Z * string) :=
  match s with
  | String c _ => if isdigit c then Some (read_digits 0 s) else None
  | EmptyString => None
  end.

(** [%zu]: white space is skipped, then an optional sign and a non-empty run
    of decimal digits are read; a minus sign negates in [size_t], as
    [strtoul] does.  The C standard leaves open what is stored for digits
    whose value does not fit [size_t]: the properties below ask for a value
    that fits. *)
Definition conv_size_t (s : string) : option (Z * string) :=
  match skip_space s with
  | String "+" s' => unsigned_digits s'
  | String "-" s' =>
      match unsigned_digits s' with
      | Some (v, r) => Some (wrap_unsigned 64 (- v), r)
      | None => None
      end
  | s' => unsigned_digits s'
  end.

(** A call with one receiving argument: [Some v] when the call returns 1,
    having stored [v]; [None] when it returns anything else (0 or [EOF]). *)
Fixpoint scan (ds : list directive) (input : string) : option Z :=
  match ds with
  | [] => None
  | D_space :: ds' => scan ds' (skip_space input)
  | D_char c :: ds' =>
      match input with
      | String d input' => if Ascii.eqb c d then scan ds' input' else None
      | EmptyString => None
      end
  | D_skip_string :: ds' =>
      match conv_skip_string input with
      | Some input' => scan ds' input'
      | None => None
      end
  | D_size_t :: _ =>
      match conv_size_t input with
      | Some (v, _) => Some v
      | None => None
      end
  | D_unsupported :: _ => None
  end.

(** The format of the call, its two adjacent literals joined. *)
Definition stat_format : string :=
  "%*s (%*s %*s %*s %*s %*s %*s %*s %*s %*s %*s "
  ++ "%*s %*s %*s %*s %*s %*s %*s %*s %*s %*s %zu".

Definition scan_stat (contents : string) : option Z :=
  scan (parse_format stat_format) contents.

(** *** Texts of [/proc/self/stat] *)
Fixpoint no_space (s : string) : bool :=
  match s with
  | EmptyString => true
  | String c s' => negb (isspace c) && no_space s'
  end.

Definition is_token (s : string) : bool :=
  match s with
  | EmptyString => false
  | _ => no_space s
  end.

Fixpoint all_digits (s : string) : bool :=
  match s with
  | EmptyString => true
  | String c s' => isdigit c && all_digits s'
  end.

Definition is_number (s : string) : bool :=
  match s with
  | EmptyString => false
  | _ => all_digits s
  end.

Definition starts_with_digit (s : string) : bool :=
  match s with
  | String c _ => isdigit c
  | EmptyString => false
  end.

Fixpoint decimal_from (acc : Z) (s : string) : Z :=
  match s with
  | EmptyString => acc
  | String c s' => decimal_from (10 * acc + digit_value c) s'
  end.

Definition decimal_value (s : string) : Z := decimal_from 0 s.

(** Fields, each followed by one space. *)
Fixpoint fields_text (fields : list string) : string :=
  match fields with
  | [] => EmptyString
  | f :: fields' => f ++ " " ++ fields_text fields'
  end.

Definition stat_text (pid comm : string) (fields : list string)
    (starttime rest : string) : string :=
  pid ++ " (" ++ comm ++ ") " ++ fields_text fields ++ starttime ++ rest.

(** [n] times [%*s] and white space, then the directives [ds]. *)
Fixpoint skip_fields (n : nat) (ds : list directive) : list directive :=
  match n with
  | O => ds
  | S n' => D_skip_string :: D_space :: skip_fields n' ds
  end.
(** The environment answers the scan of [/proc/self/stat] as the C library
    does on the text [text]. *)
Definition reads_stat (os : OS) (text : string) : Prop :=
  forall f, fopen os stat_path = Some f ->
    match scan_stat text with
    | Some v => fscanf_stat os f = (1, v)
    | None => fst (fscanf_stat os f) <> 1
    end.

(** [os] with [/proc/self/stat] holding [text]. *)
Definition with_stat_text (text : string) (os : OS) : OS :=
  with_fscanf_stat
    match scan_stat text with
    | Some v => (1, v)
    | None => (0, 0)
    end os.

(** A status line as the kernel writes it, and one of a process whose name
    holds a space. *)
Definition sample_fields : list string :=
  ["R"%string; "4000"%string; "4242"%string; "4000"%string; "34816"%string;
   "4242"%string; "4194304"%string; "90"%string; "0"%string; "0"%string;
   "0"%string; "0"%string; "0"%string; "0"%string; "0"%string; "20"%string;
   "0"%string; "1"%string].

Definition sample_stat_rest : string :=
  " 5763072 230 18446744073709551615" ++ newline.

Definition sample_stat : string :=
  stat_text "4242" "cat" (sample_fields ++ ["0"%string]) "500" sample_stat_rest.

Definition sample_stat_space : string :=
  stat_text "4242" "Web Content" (sample_fields ++ ["0"%string]) "500"
    sample_stat_rest.

(** The status line of a process whose name starts with its only space. *)
Definition sample_stat_leading_space : string :=
  stat_text "4242" " Content" (sample_fields ++ ["0"%string]) "500"
    sample_stat_rest.

(** * Properties of binary64 arithmetic *)

(** ** Powers of two *)

Lemma emin_eq : emin = -1074.
Proof. reflexivity. Qed.

Lemma fexp_eq d : fexp d = Z.max (d - 53) (-1074).
Proof. reflexivity. Qed.

Lemma bpow_gt_0 e : (0 < bpow e)%R.
Proof. apply powerRZ_lt. lra. Qed.

Lemma bpow_add e1 e2 : bpow (e1 + e2) = (bpow e1 * bpow e2)%R.
Proof. apply powerRZ_add. lra. Qed.

Lemma bpow_0 : bpow 0 = 1%R.
Proof. reflexivity. Qed.

Lemma bpow_1 : bpow 1 = 2%R.
Proof. unfold bpow. simpl. lra. Qed.

Lemma bpow_opp e : (bpow e * bpow (- e) = 1)%R.
Proof. rewrite <- bpow_add, Z.add_opp_diag_r. reflexivity. Qed.

Lemma bpow_IZR k : 0 <= k -> bpow k = IZR (2 ^ k).
Proof.
  intros Hk. unfold bpow. destruct k as [|p|p]; [reflexivity| |lia].
  rewrite <- Zpower_pos_powerRZ. reflexivity.
Qed.

Lemma bpow_ge_1 k : 0 <= k -> (1 <= bpow k)%R.
Proof.
  intros Hk. rewrite bpow_IZR by assumption. apply IZR_le.
  assert (0 < 2 ^ k) by (apply Z.pow_pos_nonneg; lia). lia.
Qed.

Lemma bpow_le e1 e2 : e1 <= e2 -> (bpow e1 <= bpow e2)%R.
Proof.
  intros H. replace e2 with (e1 + (e2 - e1)) by lia. rewrite bpow_add.
  assert (H1 := bpow_ge_1 (e2 - e1) ltac:(lia)).
  assert (H0 := bpow_gt_0 e1). nra.
Qed.

Lemma bpow_lt e1 e2 : e1 < e2 -> (bpow e1 < bpow e2)%R.
Proof.
  intros H. replace e2 with (e1 + 1 + (e2 - e1 - 1)) by lia.
  rewrite !bpow_add, bpow_1.
  assert (H1 := bpow_ge_1 (e2 - e1 - 1) ltac:(lia)).
  assert (H0 := bpow_gt_0 e1). nra.
Qed.

Lemma bpow_lt_inv e1 e2 : (bpow e1 < bpow e2)%R -> e1 < e2.
Proof.
  intros H. destruct (Z_lt_le_dec e1 e2) as [|Hle]; [assumption|].
  apply bpow_le in Hle. lra.
Qed.

Lemma F2R_0 e : F2R 0 e = 0%R.
Proof. unfold F2R. lra. Qed.

Lemma F2R_shift m e k : 0 <= k -> F2R (m * 2 ^ k) (e - k) = F2R m e.
Proof.
  intros Hk. unfold F2R. rewrite mult_IZR, <- bpow_IZR by assumption.
  replace e with ((e - k) + k) at 2 by lia. rewrite bpow_add. ring.
Qed.

(** ** The number of binary digits *)

Lemma digits2_pos_bounds m :
  2 ^ (Zpos (digits2_pos m) - 1) <= Zpos m < 2 ^ Zpos (digits2_pos m).
Proof.
  induction m as [p IH|p IH|]; simpl digits2_pos.
  - rewrite Pos2Z.inj_succ. replace (Z.succ (Zpos (digits2_pos p)) - 1) with (Z.succ (Zpos (digits2_pos p) - 1)) by lia.
    rewrite !Z.pow_succ_r by lia. lia.
  - rewrite Pos2Z.inj_succ. replace (Z.succ (Zpos (digits2_pos p)) - 1) with (Z.succ (Zpos (digits2_pos p) - 1)) by lia.
    rewrite !Z.pow_succ_r by lia. lia.
  - simpl. lia.
Qed.

Lemma Zdigits2_bounds m : 0 < m ->
  2 ^ (Zdigits2 m - 1) <= m < 2 ^ Zdigits2 m.
Proof.
  destruct m as [|p|p]; try lia. intros _. apply digits2_pos_bounds.
Qed.

Lemma Zdigits2_pos m : 0 < m -> 0 < Zdigits2 m.
Proof. destruct m; simpl; lia. Qed.

Lemma Zdigits2_unique m k : 0 < m -> 2 ^ (k - 1) <= m < 2 ^ k -> Zdigits2 m = k.
Proof.
  intros Hm [H1 H2]. destruct (Zdigits2_bounds m Hm) as [H3 H4].
  assert (Hd := Zdigits2_pos m Hm).
  assert (0 < k).
  { destruct (Z_lt_le_dec 0 k); [assumption|].
    assert (2 ^ k <= 2 ^ 0) by (apply Z.pow_le_mono_r; lia). simpl in *. lia. }
  assert (k - 1 < Zdigits2 m).
  { apply (Z.pow_lt_mono_r_iff 2); lia. }
  assert (Zdigits2 m - 1 < k).
  { apply (Z.pow_lt_mono_r_iff 2); lia. }
  lia.
Qed.

Lemma Zdigits2_le m k : 0 <= k -> 0 <= m < 2 ^ k -> Zdigits2 m <= k.
Proof.
  intros Hk [H0 H]. destruct (Z.eq_dec m 0) as [->|]; [simpl; lia|].
  destruct (Zdigits2_bounds m ltac:(lia)) as [H3 H4].
  assert (Zdigits2 m - 1 < k); [|lia].
  apply (Z.pow_lt_mono_r_iff 2); lia.
Qed.

Lemma Zdigits2_ge m k : 2 ^ (k - 1) <= m -> 0 < m -> k <= Zdigits2 m.
Proof.
  intros H Hm. destruct (Zdigits2_bounds m Hm) as [H3 H4].
  assert (Hd := Zdigits2_pos m Hm).
  destruct (Z_lt_le_dec (k - 1) 0); [lia|].
  assert (k - 1 < Zdigits2 m); [|lia].
  apply (Z.pow_lt_mono_r_iff 2); lia.
Qed.

(** ** Locations and the right shift *)

Lemma locate_bounds X m l : locate X m l -> (IZR m <= X < IZR m + 1)%R.
Proof. destruct l as [|[| |]]; simpl; lra. Qed.

Lemma loc_of_shr_record_of_loc m l :
  loc_of_shr_record (shr_record_of_loc m l) = l.
Proof. now destruct l as [|[| |]]. Qed.

Lemma shr_m_shr_record_of_loc m l : shr_m (shr_record_of_loc m l) = m.
Proof. now destruct l as [|[| |]]. Qed.

Lemma shr_1_locate X mrs :
  0 <= shr_m mrs ->
  locate X (shr_m mrs) (loc_of_shr_record mrs) ->
  0 <= shr_m (shr_1 mrs) /\
  locate (X * / 2) (shr_m (shr_1 mrs)) (loc_of_shr_record (shr_1 mrs)).
Proof.
  destruct mrs as [m r s]. simpl shr_m.
  destruct m as [|[p|p|]|p]; intros Hm; try lia;
    destruct r, s; cbn [shr_1 shr_m loc_of_shr_record locate orb];
    try rewrite (Pos2Z.inj_xI p); try rewrite (Pos2Z.inj_xO p);
    rewrite ?plus_IZR, ?mult_IZR;
    intros H; (split; [lia|lra]).
Qed.

Lemma iter_pos_count {A} (f : A -> A) (I : Z -> A -> Prop) :
  (forall k a, I k a -> I (k + 1) (f a)) ->
  forall p k a, I k a -> I (k + Zpos p) (SpecFloat.iter_pos f p a).
Proof.
  intros Hstep. induction p as [p IH|p IH|]; intros k a Ha; simpl.
  - replace (k + Zpos p~1) with (k + 1 + Zpos p + Zpos p) by lia.
    apply IH, IH, Hstep, Ha.
  - replace (k + Zpos p~0) with (k + Zpos p + Zpos p) by lia.
    apply IH, IH, Ha.
  - apply Hstep, Ha.
Qed.

Lemma Loc_scale x m e l k :
  Loc x m (e + k) l <-> locate (x * bpow (- e) * bpow (- k)) m l.
Proof.
  unfold Loc. replace (- (e + k)) with (- e + - k) by lia.
  rewrite bpow_add, Rmult_assoc. reflexivity.
Qed.

Lemma shr_spec x m e l n :
  0 <= m -> Loc x m e l ->
  let '(mrs, e') := shr (shr_record_of_loc m l) e n in
  e' = e + Z.max n 0 /\ 0 <= shr_m mrs /\
  Loc x (shr_m mrs) e' (loc_of_shr_record mrs).
Proof.
  intros Hm HL. unfold shr. destruct n as [|p|p].
  - rewrite shr_m_shr_record_of_loc, loc_of_shr_record_of_loc.
    split; [lia|]. now split.
  - split; [lia|].
    pose (I := fun (k : Z) (a : shr_record) =>
                 0 <= shr_m a /\ Loc x (shr_m a) (e + k) (loc_of_shr_record a)).
    assert (H : I (0 + Zpos p) (SpecFloat.iter_pos shr_1 p (shr_record_of_loc m l))).
    { apply iter_pos_count.
      - intros k a [Ha1 Ha2]. unfold I.
        replace (e + (k + 1)) with ((e + k) + 1) by lia.
        rewrite Loc_scale. replace (bpow (- (1))) with (/ 2)%R.
        + apply shr_1_locate; assumption.
        + change (- (1)) with (- 1). unfold bpow. simpl. lra.
      - unfold I. rewrite shr_m_shr_record_of_loc, loc_of_shr_record_of_loc.
        rewrite Z.add_0_r. now split. }
    exact H.
  - rewrite shr_m_shr_record_of_loc, loc_of_shr_record_of_loc.
    split; [lia|]. now split.
Qed.

(** ** Rounding is monotone *)

Ltac fexp_lia :=
  rewrite ?fexp_eq, ?emin_eq in *; unfold prec, emax in *; lia.

Lemma rne_bounds m l : m <= round_nearest_even m l <= m + 1.
Proof.
  destruct l as [|[| |]]; simpl; try lia. destruct (Z.even m); lia.
Qed.

Lemma rne_mono_same X Y m1 l1 m2 l2 :
  locate X m1 l1 -> locate Y m2 l2 -> (X <= Y)%R ->
  round_nearest_even m1 l1 <= round_nearest_even m2 l2.
Proof.
  intros H1 H2 HXY.
  assert (B1 := locate_bounds _ _ _ H1). assert (B2 := locate_bounds _ _ _ H2).
  assert (Hm : m1 < m2 + 1).
  { apply lt_IZR. rewrite plus_IZR. lra. }
  destruct (Z.eq_dec m1 m2) as [->|Hne].
  - destruct l1 as [|[| |]], l2 as [|[| |]]; simpl in *;
      destruct (Z.even m2); first [lia | exfalso; lra].
  - assert (R1 := rne_bounds m1 l1). assert (R2 := rne_bounds m2 l2). lia.
Qed.

Lemma scaled_lt_bpow x e t :
  (x < bpow t)%R -> e <= t -> (x * bpow (- e) < IZR (2 ^ (t - e)))%R.
Proof.
  intros Hx He. rewrite <- bpow_IZR by lia.
  replace (t - e) with (t + - e) by lia. rewrite bpow_add.
  apply Rmult_lt_compat_r; [apply bpow_gt_0|assumption].
Qed.

Lemma scaled_ge_bpow x e t :
  (bpow t <= x)%R -> e <= t -> (IZR (2 ^ (t - e)) <= x * bpow (- e))%R.
Proof.
  intros Hx He. rewrite <- bpow_IZR by lia.
  replace (t - e) with (t + - e) by lia. rewrite bpow_add.
  apply Rmult_le_compat_r; [apply Rlt_le, bpow_gt_0|assumption].
Qed.

Lemma F2R_pow2 k e : 0 <= k -> F2R (2 ^ k) e = bpow (k + e).
Proof.
  intros Hk. unfold F2R. rewrite <- bpow_IZR by assumption.
  now rewrite bpow_add.
Qed.

Lemma F2R_le m1 m2 e : m1 <= m2 -> (F2R m1 e <= F2R m2 e)%R.
Proof.
  intros H. unfold F2R. apply Rmult_le_compat_r.
  - apply Rlt_le, bpow_gt_0.
  - now apply IZR_le.
Qed.

Lemma F2R_lt m1 m2 e : m1 < m2 -> (F2R m1 e < F2R m2 e)%R.
Proof.
  intros H. unfold F2R. apply Rmult_lt_compat_r.
  - apply bpow_gt_0.
  - now apply IZR_lt.
Qed.

Lemma F2R_le_inv m1 m2 e : (F2R m1 e <= F2R m2 e)%R -> m1 <= m2.
Proof.
  intros H. destruct (Z_lt_le_dec m2 m1) as [Hlt|]; [|assumption].
  apply (F2R_lt _ _ e) in Hlt. lra.
Qed.

Lemma F2R_lt_inv m1 m2 e : (F2R m1 e < F2R m2 e)%R -> m1 < m2.
Proof.
  intros H. destruct (Z_lt_le_dec m1 m2) as [|Hle]; [assumption|].
  apply (F2R_le _ _ e) in Hle. lra.
Qed.

Lemma round_upper x m e l t :
  (x < bpow t)%R -> Loc x m e l -> e <= t ->
  (F2R (round_nearest_even m l) e <= bpow t)%R.
Proof.
  intros Hx HL He.
  assert (B := locate_bounds _ _ _ HL).
  assert (S := scaled_lt_bpow x e t Hx He).
  assert (Hm : m < 2 ^ (t - e)) by (apply lt_IZR; lra).
  assert (R1 := rne_bounds m l).
  replace (bpow t) with (bpow ((t - e) + e)) by (f_equal; lia).
  rewrite <- F2R_pow2 by lia. apply F2R_le. lia.
Qed.

Lemma round_lower x m e l t :
  (bpow t <= x)%R -> Loc x m e l -> e <= t ->
  (bpow t <= F2R (round_nearest_even m l) e)%R.
Proof.
  intros Hx HL He.
  assert (B := locate_bounds _ _ _ HL).
  assert (S := scaled_ge_bpow x e t Hx He).
  assert (Hm : 2 ^ (t - e) < m + 1).
  { apply lt_IZR. rewrite plus_IZR. lra. }
  assert (R1 := rne_bounds m l).
  replace (bpow t) with (bpow ((t - e) + e)) by (f_equal; lia).
  rewrite <- F2R_pow2 by lia. apply F2R_le. lia.
Qed.

Lemma RNE_mono x y rx ry :
  RNE x rx -> RNE y ry -> (x <= y)%R -> (rx <= ry)%R.
Proof.
  intros (Hx0 & dx & mx & lx & [Hx1 Hx2] & HLx & ->)
         (Hy0 & dy & my & ly & [Hy1 Hy2] & HLy & ->) Hxy.
  destruct (Z.eq_dec (fexp dx) (fexp dy)) as [He|Hne].
  - rewrite He in *. apply F2R_le.
    apply (rne_mono_same _ _ _ _ _ _ HLx HLy).
    apply Rmult_le_compat_r; [apply Rlt_le, bpow_gt_0|assumption].
  - assert (Hd : dx < dy).
    { destruct Hx2 as [Hx2|Hx2].
      - assert (dx - 1 < dy) by (apply bpow_lt_inv; lra).
        destruct (Z.eq_dec dx dy) as [->|]; [congruence|lia].
      - destruct Hy2 as [Hy2|Hy2]; [|exfalso; fexp_lia].
        destruct (Z_lt_le_dec dx dy); [assumption|]. exfalso. fexp_lia. }
    assert (Hlt : fexp dx < fexp dy) by fexp_lia.
    assert (Hy3 : (bpow (dy - 1) <= y)%R).
    { destruct Hy2; [assumption|exfalso; fexp_lia]. }
    apply Rle_trans with (bpow (dy - 1)).
    + apply (round_upper x); [|assumption|fexp_lia].
      apply Rlt_le_trans with (1 := Hx1). apply bpow_le. lia.
    + apply (round_lower y); [assumption|assumption|fexp_lia].
Qed.

Lemma RNE_unique x r1 r2 : RNE x r1 -> RNE x r2 -> r1 = r2.
Proof.
  intros H1 H2. apply Rle_antisym; eapply RNE_mono; eauto; lra.
Qed.

Lemma RNE_nonneg x r : RNE x r -> (0 <= r)%R.
Proof.
  intros (Hx0 & d & m & l & _ & HL & ->).
  assert (B := locate_bounds _ _ _ HL).
  assert (0 < x * bpow (- fexp d))%R.
  { apply Rmult_lt_0_compat; [assumption|apply bpow_gt_0]. }
  assert (0 < m + 1) by (apply lt_IZR; rewrite plus_IZR; lra).
  assert (R1 := rne_bounds m l).
  rewrite <- (F2R_0 (fexp d)). apply F2R_le. lia.
Qed.

(** ** The rounding algorithm *)

Lemma unscale x e : x = (x * bpow (- e) * bpow e)%R.
Proof.
  rewrite Rmult_assoc, (Rmult_comm (bpow (- e))), bpow_opp. ring.
Qed.

Lemma Loc_bounds x m e l : Loc x m e l -> (F2R m e <= x < F2R (m + 1) e)%R.
Proof.
  intros HL. apply locate_bounds in HL. unfold F2R.
  rewrite (unscale x e) at 1 2. rewrite plus_IZR.
  assert (H := bpow_gt_0 e). split.
  - apply Rmult_le_compat_r; lra.
  - apply Rmult_lt_compat_r; lra.
Qed.

Lemma mag_from_digits x m e l :
  0 < m -> Loc x m e l ->
  (bpow (Zdigits2 m + e - 1) <= x < bpow (Zdigits2 m + e))%R.
Proof.
  intros Hm HL. apply Loc_bounds in HL.
  destruct (Zdigits2_bounds m Hm) as [H1 H2].
  assert (Hd := Zdigits2_pos m Hm).
  split.
  - apply Rle_trans with (2 := proj1 HL).
    replace (Zdigits2 m + e - 1) with ((Zdigits2 m - 1) + e) by lia.
    rewrite <- F2R_pow2 by lia. now apply F2R_le.
  - apply Rlt_le_trans with (1 := proj2 HL).
    rewrite <- F2R_pow2 by lia. apply F2R_le. lia.
Qed.

Lemma shr_fexp_spec x m e l :
  0 <= m -> (0 < x)%R -> Loc x m e l -> e <= fexp (Zdigits2 m + e) ->
  let '(mrs, e1) := shr_fexp prec emax m e l in
  exists d, cexp_of x d /\ e1 = fexp d /\ 0 <= shr_m mrs /\
            Loc x (shr_m mrs) e1 (loc_of_shr_record mrs).
Proof.
  intros Hm Hx HL He. unfold shr_fexp.
  change (SpecFloat.fexp prec emax (Zdigits2 m + e)) with (fexp (Zdigits2 m + e)).
  assert (H := shr_spec x m e l (fexp (Zdigits2 m + e) - e) Hm HL).
  destruct (shr (shr_record_of_loc m l) e (fexp (Zdigits2 m + e) - e))
    as [mrs e1].
  destruct H as (-> & H1 & H2).
  replace (e + Z.max (fexp (Zdigits2 m + e) - e) 0)
    with (fexp (Zdigits2 m + e)) in * by lia.
  destruct (Z.eq_dec m 0) as [->|Hm0].
  - exists e. simpl Zdigits2 in *. rewrite Z.add_0_l in *.
    repeat split; try assumption.
    + apply Loc_bounds in HL. rewrite F2R_0 in HL. unfold F2R in HL.
      simpl in HL. lra.
    + right. fexp_lia.
  - exists (Zdigits2 m + e).
    destruct (mag_from_digits x m e l ltac:(lia) HL) as [M1 M2].
    repeat split; try assumption. now left.
Qed.

Lemma rounded_mantissa_bounds x d m l :
  cexp_of x d -> Loc x m (fexp d) l -> 0 <= m ->
  0 <= round_nearest_even m l <= 2 ^ prec /\
  (2 ^ (prec - 1) <= round_nearest_even m l \/ fexp d = emin).
Proof.
  intros [Hc1 Hc2] HL Hm.
  assert (B := locate_bounds _ _ _ HL).
  assert (R1 := rne_bounds m l).
  split.
  - split; [lia|].
    assert (Hx : (x < bpow (fexp d + prec))%R).
    { apply Rlt_le_trans with (1 := Hc1). apply bpow_le. fexp_lia. }
    assert (S := scaled_lt_bpow x (fexp d) _ Hx ltac:(unfold prec; lia)).
    replace (fexp d + prec - fexp d) with prec in S by lia.
    assert (m < 2 ^ prec) by (apply lt_IZR; lra). lia.
  - destruct (Z.eq_dec (fexp d) emin) as [|Hne]; [now right|left].
    destruct Hc2 as [Hc2|Hc2]; [|exfalso; fexp_lia].
    assert (S := scaled_ge_bpow x (fexp d) _ Hc2 ltac:(fexp_lia)).
    replace (d - 1 - fexp d) with (prec - 1) in S by fexp_lia.
    assert (2 ^ (prec - 1) < m + 1); [|lia].
    apply lt_IZR. rewrite plus_IZR. lra.
Qed.

Lemma shr_nonpos mrs e n : n <= 0 -> shr mrs e n = (mrs, e).
Proof. destruct n; simpl; intros; [reflexivity|lia|reflexivity]. Qed.

Lemma renormalize m e :
  emin <= e -> 0 <= m <= 2 ^ prec -> (2 ^ (prec - 1) <= m \/ e = emin) ->
  let '(mrs, e') := shr_fexp prec emax m e loc_Exact in
  F2R (shr_m mrs) e' = F2R m e /\ 0 <= shr_m mrs < 2 ^ prec /\
  (shr_m mrs = 0 \/ fexp (Zdigits2 (shr_m mrs) + e') = e').
Proof.
  intros He Hm Hn. unfold shr_fexp.
  change (SpecFloat.fexp prec emax (Zdigits2 m + e)) with (fexp (Zdigits2 m + e)).
  destruct (Z.eq_dec m (2 ^ prec)) as [->|Hne].
  - change (Zdigits2 (2 ^ prec)) with 54.
    replace (fexp (54 + e) - e) with 1 by fexp_lia.
    cbn [shr_record_of_loc shr SpecFloat.iter_pos].
    change (shr_m (shr_1 {| shr_m := 2 ^ prec; shr_r := false; shr_s := false |}))
      with (2 ^ 52).
    split.
    + change (2 ^ prec) with (2 ^ 52 * 2 ^ 1).
      replace e with (e + 1 - 1) at 2 by lia. now rewrite F2R_shift.
    + split; [unfold prec; lia|]. right.
      change (Zdigits2 (2 ^ 52)) with 53. fexp_lia.
  - assert (Hd : Zdigits2 m <= prec).
    { apply Zdigits2_le; [unfold prec|]; lia. }
    rewrite shr_nonpos by fexp_lia. simpl shr_m.
    split; [reflexivity|]. split; [lia|].
    destruct (Z.eq_dec m 0) as [|Hm0]; [now left|right].
    destruct Hn as [Hn| ->]; [|fexp_lia].
    assert (prec <= Zdigits2 m) by (apply Zdigits2_ge; lia).
    fexp_lia.
Qed.

Lemma large_exponent_overflows p e :
  fexp (Zpos (digits2_pos p) + e) = e -> emax - prec < e ->
  (bpow emax <= F2R (Zpos p) e)%R.
Proof.
  intros Hc He.
  assert (Hd : Zpos (digits2_pos p) = prec) by fexp_lia.
  destruct (digits2_pos_bounds p) as [H1 _]. rewrite Hd in H1.
  apply Rle_trans with (F2R (2 ^ (prec - 1)) e); [|now apply F2R_le].
  rewrite F2R_pow2 by (unfold prec; lia). apply bpow_le. lia.
Qed.

Theorem binary_round_aux_correct s m e l x :
  0 <= m -> (0 < x)%R -> Loc x m e l -> e <= fexp (Zdigits2 m + e) ->
  exists r, RNE x r /\ Result s r (binary_round_aux prec emax s m e l).
Proof.
  intros Hm Hx HL He. unfold binary_round_aux.
  assert (H1 := shr_fexp_spec x m e l Hm Hx HL He).
  destruct (shr_fexp prec emax m e l) as [mrs1 e1].
  destruct H1 as (d & Hc & -> & Hm1 & HL1).
  exists (F2R (round_nearest_even (shr_m mrs1) (loc_of_shr_record mrs1)) (fexp d)).
  split.
  { split; [assumption|]. now exists d, (shr_m mrs1), (loc_of_shr_record mrs1). }
  destruct (rounded_mantissa_bounds x d _ _ Hc HL1 Hm1) as [B1 B2].
  assert (H3 := renormalize _ (fexp d) ltac:(fexp_lia) B1 B2).
  destruct (shr_fexp prec emax _ (fexp d) loc_Exact) as [mrs3 e3].
  destruct H3 as (<- & B3 & C3).
  destruct (shr_m mrs3) as [|p|p] eqn:E3.
  - split; [reflexivity|apply F2R_0].
  - destruct C3 as [C3|C3]; [discriminate|]. simpl Zdigits2 in C3.
    destruct (Z.leb_spec e3 (emax - prec)) as [Hle|Hgt].
    + split; [reflexivity|]. split; [reflexivity|].
      unfold valid_binary, SpecFloat.bounded, canonical_mantissa.
      change (SpecFloat.fexp prec emax (Zpos (digits2_pos p) + e3))
        with (fexp (Zpos (digits2_pos p) + e3)).
      rewrite C3, Z.eqb_refl. simpl. now apply Z.leb_le.
    + split; [reflexivity|]. now apply large_exponent_overflows.
  - lia.
Qed.

(** ** Alignment and [binary_round] *)

Lemma Zdigits2_shift m k : 0 < m -> 0 <= k -> Zdigits2 (m * 2 ^ k) = Zdigits2 m + k.
Proof.
  intros Hm Hk. destruct (Zdigits2_bounds m Hm) as [H1 H2].
  assert (Hd := Zdigits2_pos m Hm).
  assert (0 < 2 ^ k) by (apply Z.pow_pos_nonneg; lia).
  apply Zdigits2_unique; [nia|].
  replace (Zdigits2 m + k - 1) with ((Zdigits2 m - 1) + k) by lia.
  rewrite !Z.pow_add_r by lia. nia.
Qed.

Lemma shl_align_spec m e e' :
  let '(mz, ez) := shl_align m e e' in
  ez = Z.min e e' /\ Zpos mz = Zpos m * 2 ^ (e - ez).
Proof.
  unfold shl_align. destruct (e' - e) as [|d|d] eqn:E.
  - split; [lia|]. replace (e - e) with 0 by lia. simpl. lia.
  - split; [lia|]. replace (e - e) with 0 by lia. simpl. lia.
  - split; [lia|]. change (Pos.iter xO m d) with (shift_pos d m).
    rewrite shift_pos_correct. replace (e - e') with (Zpos d) by lia.
    change (Z.pow_pos 2 d) with (2 ^ Zpos d). lia.
Qed.

Lemma shl_align_F2R m e e' :
  F2R (Zpos (fst (shl_align m e e'))) (snd (shl_align m e e')) = F2R (Zpos m) e.
Proof.
  assert (H := shl_align_spec m e e'). destruct (shl_align m e e') as [mz ez].
  destruct H as [H1 H2]. simpl. rewrite H2.
  replace ez with (e - (e - ez)) at 2 by lia. apply F2R_shift. lia.
Qed.

Lemma Loc_exact m e : Loc (F2R m e) m e loc_Exact.
Proof.
  unfold Loc, F2R. simpl. rewrite Rmult_assoc, bpow_opp. ring.
Qed.

Lemma F2R_pos m e : 0 < m -> (0 < F2R m e)%R.
Proof.
  intros H. unfold F2R. apply Rmult_lt_0_compat; [now apply IZR_lt|apply bpow_gt_0].
Qed.

Lemma binary_round_correct s m e :
  exists r, RNE (F2R (Zpos m) e) r /\ Result s r (binary_round prec emax s m e).
Proof.
  unfold binary_round.
  change (SpecFloat.fexp prec emax (Zpos (digits2_pos m) + e))
    with (fexp (Zdigits2 (Zpos m) + e)).
  assert (H := shl_align_spec m e (fexp (Zdigits2 (Zpos m) + e))).
  assert (HF := shl_align_F2R m e (fexp (Zdigits2 (Zpos m) + e))).
  destruct (shl_align m e (fexp (Zdigits2 (Zpos m) + e))) as [mz ez].
  destruct H as [H1 H2]. simpl in HF. rewrite <- HF.
  apply binary_round_aux_correct.
  - lia.
  - now apply F2R_pos.
  - apply Loc_exact.
  - rewrite H2, Zdigits2_shift by lia.
    replace (Zdigits2 (Zpos m) + (e - ez) + ez) with (Zdigits2 (Zpos m) + e) by lia.
    lia.
Qed.

(** ** Rounding of signed reals *)

Lemma RNE_pos x r : RNE x r -> (0 < x)%R.
Proof. now intros [H _]. Qed.

Lemma Rnd_mono x y rx ry : Rnd x rx -> Rnd y ry -> (x <= y)%R -> (rx <= ry)%R.
Proof.
  intros [[-> ->]|[Hx|Hx]] [[-> ->]|[Hy|Hy]] Hxy;
    try (assert (Px := RNE_pos _ _ Hx)); try (assert (Py := RNE_pos _ _ Hy));
    try (assert (Nx := RNE_nonneg _ _ Hx)); try (assert (Ny := RNE_nonneg _ _ Hy));
    try lra.
  - apply (RNE_mono _ _ _ _ Hx Hy Hxy).
  - assert (H := RNE_mono _ _ _ _ Hy Hx ltac:(lra)). lra.
Qed.

Lemma Rnd_unique x r1 r2 : Rnd x r1 -> Rnd x r2 -> r1 = r2.
Proof.
  intros H1 H2. apply Rle_antisym; eapply Rnd_mono; eauto; lra.
Qed.

Lemma Rnd_opp x r : Rnd x r -> Rnd (- x) (- r).
Proof.
  intros [[-> ->]|[H|H]].
  - left. split; lra.
  - right. right. now rewrite !Ropp_involutive.
  - right. now left.
Qed.

Lemma F2R_opp m e : F2R (- m) e = (- F2R m e)%R.
Proof. unfold F2R. rewrite opp_IZR. ring. Qed.

Lemma Result_Rounded a r s z :
  RNE a r -> Result s r z -> Rounded (if s then - a else a)%R z.
Proof.
  intros HR HZ.
  assert (HS : Rnd (if s then - a else a)%R (if s then - r else r)%R).
  { destruct s; [apply Rnd_opp|]; right; now left. }
  destruct z as [s'|s'| |s' m e]; simpl in HZ.
  - destruct HZ as [-> ->]. split; [reflexivity|]. simpl.
    destruct s; [rewrite Ropp_0 in HS|]; exact HS.
  - destruct HZ as [-> Hr]. split; [reflexivity|]. simpl.
    exists (if s then - r else r)%R. split; [exact HS|]. destruct s; lra.
  - contradiction.
  - destruct HZ as (-> & -> & Hv). split; [exact Hv|]. simpl.
    destruct s; simpl;
      [change (Z.neg m) with (- Z.pos m); rewrite F2R_opp|]; exact HS.
Qed.

Lemma Rnd_0 : Rnd 0 0.
Proof. left. split; reflexivity. Qed.

Lemma binary_normalize_Rounded m e :
  Rounded (F2R m e) (binary_normalize prec emax m e false).
Proof.
  destruct m as [|p|p]; simpl binary_normalize.
  - rewrite F2R_0. split; [reflexivity|apply Rnd_0].
  - destruct (binary_round_correct false p e) as (r & H1 & H2).
    apply (Result_Rounded _ _ _ _ H1 H2).
  - destruct (binary_round_correct true p e) as (r & H1 & H2).
    change (Zneg p) with (- Zpos p). rewrite F2R_opp.
    apply (Result_Rounded _ _ _ _ H1 H2).
Qed.

(** ** Representable numbers round to themselves *)

Lemma valid_canonical s m e :
  valid_binary prec emax (S754_finite s m e) = true ->
  fexp (Zpos (digits2_pos m) + e) = e /\ e <= emax - prec.
Proof.
  unfold valid_binary, SpecFloat.bounded, canonical_mantissa.
  intros [H1 H2]%andb_prop. apply Z.eqb_eq in H1. apply Z.leb_le in H2.
  now split.
Qed.

Lemma RNE_repr m e :
  fexp (Zpos (digits2_pos m) + e) = e ->
  RNE (F2R (Zpos m) e) (F2R (Zpos m) e).
Proof.
  intros Hc. split; [now apply F2R_pos|].
  exists (Zdigits2 (Zpos m) + e), (Zpos m), loc_Exact.
  simpl Zdigits2. rewrite Hc. split; [|split; [apply Loc_exact|reflexivity]].
  destruct (mag_from_digits _ (Zpos m) e loc_Exact ltac:(lia) (Loc_exact _ _))
    as [M1 M2].
  split; [exact M2|now left].
Qed.

Lemma Rnd_B2R z : valid_binary prec emax z = true -> Rnd (B2R z) (B2R z).
Proof.
  destruct z as [s|s| |s m e]; try (intros _; apply Rnd_0).
  intros [Hc _]%valid_canonical. destruct s; simpl.
  - change (Z.neg m) with (- Z.pos m). rewrite F2R_opp.
    apply Rnd_opp. right. left. now apply RNE_repr.
  - right. left. now apply RNE_repr.
Qed.

Lemma Rounded_self z :
  valid_binary prec emax z = true -> is_finite z = true -> Rounded (B2R z) z.
Proof.
  intros Hv Hf. split; [exact Hv|].
  destruct z as [s|s| |s m e]; try discriminate.
  - apply Rnd_0.
  - now apply Rnd_B2R.
Qed.

(** ** The order of valid floats is the order of their values *)

Lemma canonical_lt m1 e1 m2 e2 :
  fexp (Zpos (digits2_pos m1) + e1) = e1 ->
  fexp (Zpos (digits2_pos m2) + e2) = e2 ->
  e1 < e2 -> (F2R (Zpos m1) e1 < F2R (Zpos m2) e2)%R.
Proof.
  intros C1 C2 He.
  destruct (mag_from_digits _ (Zpos m1) e1 loc_Exact ltac:(lia) (Loc_exact _ _))
    as [_ M1].
  destruct (mag_from_digits _ (Zpos m2) e2 loc_Exact ltac:(lia) (Loc_exact _ _))
    as [M2 _].
  simpl Zdigits2 in *.
  apply Rlt_le_trans with (1 := M1). apply Rle_trans with (2 := M2).
  apply bpow_le. fexp_lia.
Qed.

Lemma compare_cont_Eq m1 m2 : Pos.compare_cont Eq m1 m2 = (Zpos m1 ?= Zpos m2).
Proof. reflexivity. Qed.

Lemma ordered_pos m1 e1 m2 e2 :
  fexp (Zpos (digits2_pos m1) + e1) = e1 ->
  fexp (Zpos (digits2_pos m2) + e2) = e2 ->
  ordered (Some match e1 ?= e2 with
                | Lt => Lt
                | Gt => Gt
                | Eq => Pos.compare_cont Eq m1 m2
                end) (F2R (Zpos m1) e1) (F2R (Zpos m2) e2).
Proof.
  intros C1 C2. destruct (Z.compare_spec e1 e2) as [->|H|H]; simpl.
  - rewrite compare_cont_Eq.
    destruct (Z.compare_spec (Zpos m1) (Zpos m2)) as [E|E|E]; simpl.
    + now rewrite E.
    + now apply F2R_lt.
    + now apply F2R_lt.
  - now apply canonical_lt.
  - now apply canonical_lt.
Qed.

Lemma SFcompare_B2R x y :
  valid_binary prec emax x = true -> valid_binary prec emax y = true ->
  is_finite x = true -> is_finite y = true ->
  ordered (SFcompare x y) (B2R x) (B2R y).
Proof.
  intros Vx Vy Fx Fy.
  destruct x as [sx|sx| |sx mx ex]; try discriminate;
    destruct y as [sy|sy| |sy my ey]; try discriminate; simpl SFcompare.
  - reflexivity.
  - assert (P := F2R_pos (Zpos my) ey ltac:(lia)).
    destruct sy; simpl; [change (Z.neg my) with (- Z.pos my); rewrite F2R_opp|]; lra.
  - assert (P := F2R_pos (Zpos mx) ex ltac:(lia)).
    destruct sx; simpl; [change (Z.neg mx) with (- Z.pos mx); rewrite F2R_opp|]; lra.
  - apply valid_canonical in Vx, Vy. destruct Vx as [Cx _], Vy as [Cy _].
    assert (Px := F2R_pos (Zpos mx) ex ltac:(lia)).
    assert (Py := F2R_pos (Zpos my) ey ltac:(lia)).
    assert (O := ordered_pos mx ex my ey Cx Cy).
    unfold B2R.
    destruct sx, sy; cbn [cond_Zopp];
      try (change (Z.neg mx) with (- Z.pos mx));
      try (change (Z.neg my) with (- Z.pos my));
      rewrite ?F2R_opp; cbn [ordered]; try lra.
    + destruct (ex ?= ey); [destruct (Pos.compare_cont Eq mx my)| |];
        simpl in *; lra.
    + exact O.
Qed.

Lemma SFleb_B2R x y :
  valid_binary prec emax x = true -> valid_binary prec emax y = true ->
  is_finite x = true -> is_finite y = true ->
  (SFleb x y = true <-> (B2R x <= B2R y)%R).
Proof.
  intros Vx Vy Fx Fy. assert (O := SFcompare_B2R x y Vx Vy Fx Fy).
  unfold SFleb. destruct (SFcompare x y) as [[| |]|]; simpl in O;
    split; intros H; try reflexivity; try discriminate; try lra; contradiction.
Qed.

Lemma SFltb_B2R x y :
  valid_binary prec emax x = true -> valid_binary prec emax y = true ->
  is_finite x = true -> is_finite y = true ->
  (SFltb x y = true <-> (B2R x < B2R y)%R).
Proof.
  intros Vx Vy Fx Fy. assert (O := SFcompare_B2R x y Vx Vy Fx Fy).
  unfold SFltb. destruct (SFcompare x y) as [[| |]|]; simpl in O;
    split; intros H; try reflexivity; try discriminate; try lra; contradiction.
Qed.

(** ** Addition and subtraction *)

Lemma shl_align_F2R_le m e e' :
  e' <= e -> F2R (Zpos (fst (shl_align m e e'))) e' = F2R (Zpos m) e.
Proof.
  intros He. assert (H := shl_align_spec m e e').
  destruct (shl_align m e e') as [mz ez]. destruct H as [H1 H2]. simpl.
  rewrite H1, Z.min_r in H2 by lia. rewrite H2.
  replace e' with (e - (e - e')) at 2 by lia. apply F2R_shift. lia.
Qed.

Lemma F2R_cond_Zopp s m e :
  F2R (cond_Zopp s m) e = (if s then - F2R m e else F2R m e)%R.
Proof. destruct s; simpl; [apply F2R_opp|reflexivity]. Qed.

Lemma F2R_plus m1 m2 e : F2R (m1 + m2) e = (F2R m1 e + F2R m2 e)%R.
Proof. unfold F2R. rewrite plus_IZR. ring. Qed.

Lemma F2R_minus m1 m2 e : F2R (m1 - m2) e = (F2R m1 e - F2R m2 e)%R.
Proof. unfold F2R. rewrite minus_IZR. ring. Qed.

Lemma B2R_finite s m e :
  B2R (S754_finite s m e) = (if s then - F2R (Zpos m) e else F2R (Zpos m) e)%R.
Proof. unfold B2R. apply F2R_cond_Zopp. Qed.

Lemma Rounded_ext x y z : x = y -> Rounded x z -> Rounded y z.
Proof. now intros ->. Qed.

Lemma Rounded_opp_finite s m e :
  valid_binary prec emax (S754_finite s m e) = true ->
  Rounded (- B2R (S754_finite s m e)) (S754_finite (negb s) m e).
Proof.
  intros Hv. split; [exact Hv|].
  replace (B2R (S754_finite (negb s) m e)) with (- B2R (S754_finite s m e))%R.
  - apply Rnd_opp, Rnd_B2R, Hv.
  - rewrite !B2R_finite. destruct s; simpl; lra.
Qed.

Lemma SFsub_Rounded x y :
  valid_binary prec emax x = true -> valid_binary prec emax y = true ->
  is_finite x = true -> is_finite y = true ->
  Rounded (B2R x - B2R y) (SFsub prec emax x y).
Proof.
  intros Vx Vy Fx Fy.
  destruct x as [sx|sx| |sx mx ex]; try discriminate;
    destruct y as [sy|sy| |sy my ey]; try discriminate.
  - apply Rounded_ext with 0%R; [simpl; lra|].
    split; [now destruct sx, sy|]. destruct sx, sy; apply Rnd_0.
  - apply Rounded_ext with (- B2R (S754_finite sy my ey))%R; [simpl; lra|].
    now apply Rounded_opp_finite.
  - apply Rounded_ext with (B2R (S754_finite sx mx ex)); [simpl; lra|].
    now apply Rounded_self.
  - cbn [SFsub].
    eapply Rounded_ext; [|apply binary_normalize_Rounded].
    rewrite F2R_minus, !F2R_cond_Zopp, !shl_align_F2R_le, !B2R_finite by lia.
    reflexivity.
Qed.

Lemma SFadd_Rounded x y :
  valid_binary prec emax x = true -> valid_binary prec emax y = true ->
  is_finite x = true -> is_finite y = true ->
  Rounded (B2R x + B2R y) (SFadd prec emax x y).
Proof.
  intros Vx Vy Fx Fy.
  destruct x as [sx|sx| |sx mx ex]; try discriminate;
    destruct y as [sy|sy| |sy my ey]; try discriminate.
  - apply Rounded_ext with 0%R; [simpl; lra|].
    split; [now destruct sx, sy|]. destruct sx, sy; apply Rnd_0.
  - apply Rounded_ext with (B2R (S754_finite sy my ey)); [simpl; lra|].
    now apply Rounded_self.
  - apply Rounded_ext with (B2R (S754_finite sx mx ex)); [simpl; lra|].
    now apply Rounded_self.
  - cbn [SFadd].
    eapply Rounded_ext; [|apply binary_normalize_Rounded].
    rewrite F2R_plus, !F2R_cond_Zopp, !shl_align_F2R_le, !B2R_finite by lia.
    reflexivity.
Qed.

(** ** Signs of correctly rounded results *)

Lemma bpow_emax_pos : (0 < bpow emax)%R.
Proof. apply bpow_gt_0. Qed.

Lemma Rnd_sign_nonneg x r : Rnd x r -> (0 <= x)%R -> (0 <= r)%R.
Proof. intros H Hx. apply (Rnd_mono 0 x 0 r Rnd_0 H Hx). Qed.

Lemma Rnd_sign_nonpos x r : Rnd x r -> (x <= 0)%R -> (r <= 0)%R.
Proof. intros H Hx. apply (Rnd_mono x 0 r 0 H Rnd_0 Hx). Qed.

Lemma Rounded_nonneg x z :
  Rounded x z -> (0 <= x)%R -> SFleb (S754_zero false) z = true.
Proof.
  intros [Hv Hz] Hx. destruct z as [s|s| |s m e].
  - reflexivity.
  - destruct Hz as (r & Hr & Hs). assert (H := Rnd_sign_nonneg _ _ Hr Hx).
    assert (P := bpow_emax_pos). destruct s; [lra|reflexivity].
  - contradiction.
  - assert (H := Rnd_sign_nonneg _ _ Hz Hx). rewrite B2R_finite in H.
    assert (P := F2R_pos (Zpos m) e ltac:(lia)). destruct s; [lra|reflexivity].
Qed.

Lemma bpow_emin_repr : RNE (bpow emin) (bpow emin).
Proof.
  replace (bpow emin) with (F2R 1 emin) by (unfold F2R; lra).
  apply RNE_repr. reflexivity.
Qed.

Lemma Rounded_neg x z :
  Rounded x z -> (x <= - bpow emin)%R -> SFltb z (S754_zero false) = true.
Proof.
  intros [Hv Hz] Hx.
  assert (HB : Rnd (- bpow emin) (- bpow emin)).
  { right. right. rewrite Ropp_involutive. apply bpow_emin_repr. }
  assert (P := bpow_gt_0 emin).
  destruct z as [s|s| |s m e].
  - assert (H := Rnd_mono _ _ _ _ Hz HB Hx). lra.
  - destruct Hz as (r & Hr & Hs). assert (H := Rnd_mono _ _ _ _ Hr HB Hx).
    assert (P' := bpow_emax_pos). destruct s; [reflexivity|lra].
  - contradiction.
  - assert (H := Rnd_mono _ _ _ _ Hz HB Hx). rewrite B2R_finite in H.
    assert (P' := F2R_pos (Zpos m) e ltac:(lia)). destruct s; [reflexivity|lra].
Qed.

(** ** Division *)

Lemma bpow_neg e : bpow (- e) = (/ bpow e)%R.
Proof. unfold bpow. apply powerRZ_neg'. Qed.

Lemma ratio_half (k nb : Z) (c : comparison) :
  0 < nb -> (2 * k ?= nb) = c ->
  match c with
  | Lt => (IZR k / IZR nb < / 2)%R
  | Eq => (IZR k / IZR nb = / 2)%R
  | Gt => (/ 2 < IZR k / IZR nb)%R
  end.
Proof.
  intros Hnb Hc. assert (P : (0 < IZR nb)%R) by now apply IZR_lt.
  destruct (Z.compare_spec (2 * k) nb) as [E|E|E]; subst c.
  - rewrite <- E, mult_IZR. field. apply not_0_IZR. lia.
  - apply IZR_lt in E. rewrite mult_IZR in E.
    apply Rmult_lt_reg_r with (IZR nb); [assumption|].
    unfold Rdiv. rewrite Rmult_assoc, Rinv_l by lra. lra.
  - apply IZR_lt in E. rewrite mult_IZR in E.
    apply Rmult_lt_reg_r with (IZR nb); [assumption|].
    unfold Rdiv. rewrite Rmult_assoc, Rinv_l by lra. lra.
Qed.

Lemma new_location_spec nb k q :
  0 < nb -> 0 <= k < nb ->
  locate (IZR q + IZR k / IZR nb) q (new_location nb k).
Proof.
  intros Hnb Hk. assert (P : (0 < IZR nb)%R) by now apply IZR_lt.
  assert (Hlt1 : (IZR k / IZR nb < 1)%R).
  { apply Rmult_lt_reg_r with (IZR nb); [assumption|].
    unfold Rdiv. rewrite Rmult_assoc, Rinv_l by lra.
    assert (IZR k < IZR nb)%R by (apply IZR_lt; lia). lra. }
  assert (Hpos : k <> 0 -> (0 < IZR k / IZR nb)%R).
  { intros Hk0. apply Rdiv_lt_0_compat; [apply IZR_lt; lia|assumption]. }
  unfold new_location. destruct (Z.even nb) eqn:Ev.
  - unfold new_location_even. destruct (Z.eqb_spec k 0) as [->|Hk0].
    { simpl. unfold Rdiv. lra. }
    specialize (Hpos Hk0).
    assert (H := ratio_half k nb _ Hnb eq_refl).
    destruct (2 * k ?= nb); cbn [locate] in *; lra.
  - unfold new_location_odd. destruct (Z.eqb_spec k 0) as [->|Hk0].
    { simpl. unfold Rdiv. lra. }
    specialize (Hpos Hk0).
    assert (Hne : 2 * k <> nb).
    { intros <-. rewrite Z.even_mul in Ev. discriminate. }
    destruct (Z.compare_spec (2 * k + 1) nb) as [E|E|E].
    + assert (H := ratio_half k nb Lt Hnb ltac:(apply Z.compare_lt_iff; lia)).
      cbn [locate] in *; lra.
    + assert (H := ratio_half k nb Lt Hnb ltac:(apply Z.compare_lt_iff; lia)).
      cbn [locate] in *; lra.
    + assert (H := ratio_half k nb Gt Hnb ltac:(apply Z.compare_gt_iff; lia)).
      cbn [locate] in *; lra.
Qed.

Lemma div_quotient_digits m1 m2 s q r :
  0 < m1 -> 0 < m2 -> 0 <= s ->
  m1 * 2 ^ s = m2 * q + r -> 0 <= r < m2 ->
  0 < Zdigits2 m1 + s - Zdigits2 m2 ->
  Zdigits2 m1 + s - Zdigits2 m2 <= Zdigits2 q.
Proof.
  intros H1 H2 Hs Hq Hr Hk.
  destruct (Zdigits2_bounds m1 H1) as [A1 A2].
  destruct (Zdigits2_bounds m2 H2) as [B1 B2].
  assert (D1 := Zdigits2_pos m1 H1). assert (D2 := Zdigits2_pos m2 H2).
  set (k := Zdigits2 m1 + s - Zdigits2 m2 - 1) in *.
  assert (E : 2 ^ (Zdigits2 m1 - 1) * 2 ^ s = 2 ^ k * 2 ^ Zdigits2 m2).
  { rewrite <- !Z.pow_add_r by lia. f_equal. lia. }
  assert (P1 : 0 < 2 ^ s) by (apply Z.pow_pos_nonneg; lia).
  assert (P2 : 0 < 2 ^ k) by (apply Z.pow_pos_nonneg; lia).
  assert (Hq' : 2 ^ k <= q) by nia.
  apply Zdigits2_ge; [|lia].
  replace (Zdigits2 m1 + s - Zdigits2 m2 - 1) with k by lia. exact Hq'.
Qed.

Lemma SFdiv_core_binary_spec m1 e1 m2 e2 :
  0 < m1 -> 0 < m2 ->
  let '(q, e', l) := SFdiv_core_binary prec emax m1 e1 m2 e2 in
  0 <= q /\ Loc (F2R m1 e1 / F2R m2 e2) q e' l /\
  e' <= fexp (Zdigits2 q + e').
Proof.
  intros H1 H2. unfold SFdiv_core_binary.
  change (SpecFloat.fexp prec emax (Zdigits2 m1 + e1 - (Zdigits2 m2 + e2)))
    with (fexp (Zdigits2 m1 + e1 - (Zdigits2 m2 + e2))).
  set (D := Zdigits2 m1 + e1 - (Zdigits2 m2 + e2)).
  set (e' := Z.min (fexp D) (e1 - e2)).
  set (s := e1 - e2 - e').
  assert (Hs : 0 <= s) by (unfold s, e'; lia).
  set (m' := match s with
             | 0 => m1
             | Zpos _ => Z.shiftl m1 s
             | Zneg _ => 0
             end).
  assert (Hm' : m' = m1 * 2 ^ s).
  { unfold m'. destruct s as [|p|p] eqn:Es; [simpl; lia| |lia].
    apply Z.shiftl_mul_pow2. lia. }
  assert (Hdiv := Z_div_mod m' m2 ltac:(lia)).
  destruct (Z.div_eucl m' m2) as [q r]. destruct Hdiv as [Hq Hr].
  assert (P1 : 0 < 2 ^ s) by (apply Z.pow_pos_nonneg; lia).
  assert (Hq0 : 0 <= q) by nia.
  split; [exact Hq0|]. split.
  - unfold Loc.
    replace (F2R m1 e1 / F2R m2 e2 * bpow (- e'))%R
      with (IZR q + IZR r / IZR m2)%R; [now apply new_location_spec|].
    assert (Hm2 : IZR m2 <> 0%R) by (apply not_0_IZR; lia).
    assert (Hb := bpow_gt_0 e2).
    assert (E : (IZR q + IZR r / IZR m2 = IZR m' / IZR m2)%R).
    { rewrite Hq, plus_IZR, mult_IZR. field. exact Hm2. }
    rewrite E, Hm', mult_IZR, <- bpow_IZR by assumption.
    unfold F2R, s. replace (e1 - e2 - e') with (e1 + (- e2 + - e')) by lia.
    rewrite !bpow_add, (bpow_neg e2). field. split; lra.
  - destruct (Z_lt_le_dec e' D) as [Hlt|Hle].
    + assert (Hd : Zdigits2 m1 + s - Zdigits2 m2 <= Zdigits2 q).
      { apply (div_quotient_digits m1 m2 s q r); try assumption; [lia|].
        unfold s, D in *. lia. }
      assert (D <= Zdigits2 q + e') by (unfold s, D in *; lia).
      unfold e' in *. fexp_lia.
    + assert (e' <= emin) by (unfold e' in *; fexp_lia).
      fexp_lia.
Qed.

Lemma SFdiv_Rounded x sy my ey :
  is_finite x = true ->
  Rounded (B2R x / B2R (S754_finite sy my ey))
          (SFdiv prec emax x (S754_finite sy my ey)).
Proof.
  intros Fx. destruct x as [sx|sx| |sx mx ex]; try discriminate.
  - apply Rounded_ext with 0%R; [simpl; unfold Rdiv; lra|].
    split; [reflexivity|apply Rnd_0].
  - cbn [SFdiv].
    assert (H := SFdiv_core_binary_spec (Zpos mx) ex (Zpos my) ey
                   ltac:(lia) ltac:(lia)).
    destruct (SFdiv_core_binary prec emax (Zpos mx) ex (Zpos my) ey)
      as [[q e'] l].
    destruct H as (Hq & HL & He).
    assert (Px := F2R_pos (Zpos mx) ex ltac:(lia)).
    assert (Py := F2R_pos (Zpos my) ey ltac:(lia)).
    assert (Pq : (0 < F2R (Zpos mx) ex / F2R (Zpos my) ey)%R).
    { now apply Rdiv_lt_0_compat. }
    destruct (binary_round_aux_correct (xorb sx sy) q e' l _ Hq Pq HL He)
      as (r & Hr & HR).
    eapply Rounded_ext; [|apply (Result_Rounded _ _ _ _ Hr HR)].
    rewrite !B2R_finite. destruct sx, sy; simpl; field; lra.
Qed.

(** ** Conversion of integers, finiteness, bounds *)

Lemma F2R_e0 n : F2R n 0 = IZR n.
Proof. unfold F2R. rewrite bpow_0. ring. Qed.

Lemma of_Z_Rounded n : Rounded (IZR n) (of_Z n).
Proof. rewrite <- F2R_e0. apply binary_normalize_Rounded. Qed.

Lemma Rounded_Rnd x z :
  Rounded x z -> is_finite z = true -> Rnd x (B2R z).
Proof.
  intros [_ H] Hf. destruct z; try discriminate; exact H.
Qed.

Lemma Rounded_valid x z : Rounded x z -> valid z = true.
Proof. now intros [H _]. Qed.

Lemma Rnd_bpow k : emin + prec - 1 <= k -> Rnd (bpow k) (bpow k).
Proof.
  intros Hk. right. left.
  replace (bpow k) with (F2R (Zpos 4503599627370496) (k - 52)).
  - apply RNE_repr. change (digits2_pos 4503599627370496) with 53%positive.
    fexp_lia.
  - change (Zpos 4503599627370496) with (2 ^ 52).
    rewrite F2R_pow2 by lia. f_equal. lia.
Qed.

Lemma Rounded_finite x z k :
  Rounded x z -> (- bpow k <= x <= bpow k)%R ->
  emin + prec - 1 <= k < emax -> is_finite z = true.
Proof.
  intros [_ H] Hx Hk. destruct z as [s|s| |s m e]; try reflexivity;
    [|contradiction].
  destruct H as (r & Hr & Hs).
  assert (U := Rnd_mono _ _ _ _ Hr (Rnd_bpow k ltac:(lia)) ltac:(lra)).
  assert (L := Rnd_mono _ _ _ _ (Rnd_opp _ _ (Rnd_bpow k ltac:(lia))) Hr ltac:(lra)).
  assert (B := bpow_lt k emax ltac:(lia)).
  destruct s; lra.
Qed.

Lemma Rounded_le x z y w :
  Rounded x z -> Rounded y w -> is_finite z = true -> is_finite w = true ->
  (x <= y)%R -> (B2R z <= B2R w)%R.
Proof.
  intros Hz Hw Fz Fw Hxy.
  apply (Rnd_mono x y); [now apply Rounded_Rnd|now apply Rounded_Rnd|exact Hxy].
Qed.

Lemma RNE_small_int n : 0 < n < 2 ^ prec -> RNE (IZR n) (IZR n).
Proof.
  intros Hn. assert (Hd := Zdigits2_pos n ltac:(lia)).
  assert (Hd' : Zdigits2 n <= prec).
  { apply Zdigits2_le; [unfold prec|]; lia. }
  set (k := prec - Zdigits2 n).
  assert (P : 0 < 2 ^ k) by (apply Z.pow_pos_nonneg; lia).
  assert (Hm : 0 < n * 2 ^ k) by nia.
  replace (IZR n) with (F2R (Zpos (Z.to_pos (n * 2 ^ k))) (0 - k)).
  - apply RNE_repr.
    change (Zpos (digits2_pos (Z.to_pos (n * 2 ^ k))))
      with (Zdigits2 (Zpos (Z.to_pos (n * 2 ^ k)))).
    rewrite Z2Pos.id by assumption. rewrite Zdigits2_shift by lia.
    unfold k. fexp_lia.
  - rewrite Z2Pos.id by assumption. rewrite F2R_shift by lia. apply F2R_e0.
Qed.

Lemma Rnd_small_int n : - 2 ^ prec < n < 2 ^ prec -> Rnd (IZR n) (IZR n).
Proof.
  intros Hn. destruct (Z.lt_trichotomy n 0) as [H|[->|H]].
  - right. right. rewrite <- opp_IZR. apply RNE_small_int. lia.
  - apply Rnd_0.
  - right. left. apply RNE_small_int. lia.
Qed.

Lemma IZR_le_bpow n k : 0 <= k -> - 2 ^ k <= n <= 2 ^ k ->
  (- bpow k <= IZR n <= bpow k)%R.
Proof.
  intros Hk [H1 H2]. rewrite bpow_IZR by assumption.
  apply IZR_le in H1, H2. rewrite opp_IZR in H1. lra.
Qed.

Lemma of_Z_finite n : - 2 ^ 64 <= n <= 2 ^ 64 -> is_finite (of_Z n) = true.
Proof.
  intros Hn. apply (Rounded_finite (IZR n) _ 64 (of_Z_Rounded n)).
  - apply IZR_le_bpow; lia.
  - rewrite emin_eq. unfold prec, emax. lia.
Qed.

Lemma B2R_of_Z_small n : - 2 ^ prec < n < 2 ^ prec -> B2R (of_Z n) = IZR n.
Proof.
  intros Hn. apply (Rnd_unique (IZR n)).
  - apply Rounded_Rnd; [apply of_Z_Rounded|].
    apply of_Z_finite. unfold prec in Hn. lia.
  - now apply Rnd_small_int.
Qed.

Lemma SFdiv_valid x y : valid (SFdiv prec emax x y) = true.
Proof.
  destruct y as [sy|sy| |sy my ey];
    try (destruct x as [sx|sx| |sx mx ex]; reflexivity).
  destruct x as [sx|sx| |sx mx ex]; try reflexivity.
  apply (Rounded_valid _ _ (SFdiv_Rounded (S754_finite sx mx ex) sy my ey eq_refl)).
Qed.

Lemma of_Z_valid n : valid (of_Z n) = true.
Proof. apply (Rounded_valid _ _ (of_Z_Rounded n)). Qed.

(** Values of valid floats lie on the grid of the smallest subnormal, so
    that a negative sum or difference is at most minus that subnormal and does
    not round to zero. *)
Lemma B2R_grid z : valid z = true -> exists M, B2R z = F2R M emin.
Proof.
  destruct z as [s|s| |s m e]; try (exists 0; simpl; now rewrite F2R_0).
  intros [Hc _]%valid_canonical.
  assert (He : emin <= e) by fexp_lia.
  exists (cond_Zopp s (Zpos m) * 2 ^ (e - emin)). unfold B2R.
  replace emin with (e - (e - emin)) at 2 by lia.
  rewrite F2R_shift by lia. reflexivity.
Qed.

Lemma grid_negative M N : (F2R M emin + F2R N emin < 0)%R ->
  (F2R M emin + F2R N emin <= - bpow emin)%R.
Proof.
  rewrite <- F2R_plus. intros H.
  rewrite <- (F2R_0 emin) in H. apply F2R_lt_inv in H.
  replace (- bpow emin)%R with (F2R (- 1) emin) by (unfold F2R; lra).
  apply F2R_le. lia.
Qed.

Lemma sub_nonneg x y :
  valid x = true -> valid y = true -> is_finite x = true -> is_finite y = true ->
  (B2R y <= B2R x)%R -> SFleb zero (sub x y) = true.
Proof.
  intros Vx Vy Fx Fy H.
  apply (Rounded_nonneg (B2R x - B2R y)); [now apply SFsub_Rounded|lra].
Qed.

Lemma sub_negative x y :
  valid x = true -> valid y = true -> is_finite x = true -> is_finite y = true ->
  (B2R x < B2R y)%R -> SFltb (sub x y) zero = true.
Proof.
  intros Vx Vy Fx Fy H.
  apply (Rounded_neg (B2R x - B2R y)); [now apply SFsub_Rounded|].
  destruct (B2R_grid x Vx) as [M HM]. destruct (B2R_grid y Vy) as [N HN].
  rewrite HM, HN in *.
  replace (F2R M emin - F2R N emin)%R with (F2R M emin + F2R (- N) emin)%R
    by (rewrite F2R_opp; lra).
  apply grid_negative. rewrite F2R_opp. lra.
Qed.

Lemma add_nonneg x y :
  valid x = true -> valid y = true -> is_finite x = true -> is_finite y = true ->
  (0 <= B2R x + B2R y)%R -> SFleb zero (add x y) = true.
Proof.
  intros Vx Vy Fx Fy H.
  apply (Rounded_nonneg (B2R x + B2R y)); [now apply SFadd_Rounded|lra].
Qed.

Lemma add_negative x y :
  valid x = true -> valid y = true -> is_finite x = true -> is_finite y = true ->
  (B2R x + B2R y < 0)%R -> SFltb (add x y) zero = true.
Proof.
  intros Vx Vy Fx Fy H.
  apply (Rounded_neg (B2R x + B2R y)); [now apply SFadd_Rounded|].
  destruct (B2R_grid x Vx) as [M HM]. destruct (B2R_grid y Vy) as [N HN].
  rewrite HM, HN in *. now apply grid_negative.
Qed.

(** ** The arithmetic of the three branches *)

Lemma SFdiv_Rounded_value x y :
  is_finite x = true -> is_finite y = true -> B2R y <> 0%R ->
  Rounded (B2R x / B2R y) (div x y).
Proof.
  intros Fx Fy Hy. destruct y as [sy|sy| |sy my ey]; try discriminate.
  - now elim Hy.
  - now apply SFdiv_Rounded.
Qed.

Lemma of_Z_le k n :
  - 2 ^ 64 <= k -> k <= n -> n <= 2 ^ 64 ->
  (B2R (of_Z k) <= B2R (of_Z n))%R.
Proof.
  intros H1 H2 H3.
  apply (Rounded_le (IZR k) _ (IZR n)); try apply of_Z_Rounded;
    try (apply of_Z_finite; lia).
  now apply IZR_le.
Qed.

Lemma B2R_of_Z_0 : B2R (of_Z 0) = 0%R.
Proof. reflexivity. Qed.

Lemma of_Z_range n :
  0 <= n <= 2 ^ 64 -> (0 <= B2R (of_Z n) <= bpow 64)%R.
Proof.
  intros Hn. split.
  - rewrite <- B2R_of_Z_0. apply of_Z_le; lia.
  - apply (Rnd_mono (IZR n) (bpow 64)).
    + apply Rounded_Rnd; [apply of_Z_Rounded|apply of_Z_finite; lia].
    + apply Rnd_bpow. rewrite emin_eq. unfold prec. lia.
    + rewrite bpow_IZR by lia. apply IZR_le. lia.
Qed.

Lemma ticks_to_seconds n c :
  0 <= n <= 2 ^ 64 -> 1 <= c < 2 ^ prec ->
  Rounded (B2R (of_Z n) / IZR c) (div (of_Z n) (of_Z c)) /\
  is_finite (div (of_Z n) (of_Z c)) = true.
Proof.
  intros Hn Hc.
  assert (Ec : B2R (of_Z c) = IZR c) by (apply B2R_of_Z_small; lia).
  assert (Pc : (1 <= IZR c)%R) by (apply IZR_le; lia).
  assert (HR : Rounded (B2R (of_Z n) / IZR c) (div (of_Z n) (of_Z c))).
  { rewrite <- Ec. apply SFdiv_Rounded_value.
    - apply of_Z_finite; lia.
    - apply of_Z_finite. unfold prec in Hc. lia.
    - rewrite Ec. lra. }
  split; [exact HR|].
  apply (Rounded_finite _ _ 64 HR).
  - destruct (of_Z_range n Hn) as [L U].
    assert (0 <= B2R (of_Z n) / IZR c <= B2R (of_Z n))%R; [|lra].
    split.
    + apply Rmult_le_pos; [exact L|]. apply Rlt_le, Rinv_0_lt_compat. lra.
    + apply Rmult_le_reg_r with (IZR c); [lra|].
      unfold Rdiv. rewrite Rmult_assoc, Rinv_l by lra. nra.
  - rewrite emin_eq. unfold prec, emax. lia.
Qed.

Lemma seconds_monotone k n c :
  0 <= k -> k <= n -> n <= 2 ^ 64 -> 1 <= c < 2 ^ prec ->
  (B2R (div (of_Z k) (of_Z c)) <= B2R (div (of_Z n) (of_Z c)))%R.
Proof.
  intros Hk Hkn Hn Hc.
  destruct (ticks_to_seconds k c ltac:(lia) Hc) as [Rk Fk].
  destruct (ticks_to_seconds n c ltac:(lia) Hc) as [Rn Fn].
  apply (Rounded_le _ _ _ _ Rk Rn Fk Fn).
  assert (H := of_Z_le k n ltac:(lia) Hkn Hn).
  assert (Pc : (1 <= IZR c)%R) by (apply IZR_le; lia).
  unfold Rdiv. apply Rmult_le_compat_r; [|exact H].
  apply Rlt_le, Rinv_0_lt_compat. lra.
Qed.

Lemma ticks_difference_nonneg k n :
  0 <= k -> k <= n -> n < 2 ^ 64 ->
  SFleb zero (sub (div (of_Z n) (of_Z 10000000)) (div (of_Z k) (of_Z 10000000)))
  = true.
Proof.
  intros Hk Hkn Hn.
  assert (Hc : 1 <= 10000000 < 2 ^ prec) by (unfold prec; lia).
  destruct (ticks_to_seconds k _ ltac:(lia) Hc) as [Rk Fk].
  destruct (ticks_to_seconds n _ ltac:(lia) Hc) as [Rn Fn].
  apply sub_nonneg; try assumption; try apply SFdiv_valid.
  apply seconds_monotone; lia.
Qed.

Lemma ticks_difference_negative k n :
  0 <= k < 2 ^ 64 -> 0 <= n < 2 ^ 64 ->
  SFltb (div (of_Z n) (of_Z 10000000)) (div (of_Z k) (of_Z 10000000)) = true ->
  SFltb (sub (div (of_Z n) (of_Z 10000000)) (div (of_Z k) (of_Z 10000000))) zero
  = true.
Proof.
  intros Hk Hn Hlt.
  assert (Hc : 1 <= 10000000 < 2 ^ prec) by (unfold prec; lia).
  destruct (ticks_to_seconds k _ ltac:(lia) Hc) as [Rk Fk].
  destruct (ticks_to_seconds n _ ltac:(lia) Hc) as [Rn Fn].
  apply sub_negative; try assumption; try apply SFdiv_valid.
  apply SFltb_B2R; try assumption; apply SFdiv_valid.
Qed.

Lemma seconds_difference_nonneg up start :
  valid up = true -> valid start = true ->
  is_finite up = true -> is_finite start = true ->
  SFleb start up = true -> SFleb zero (sub up start) = true.
Proof.
  intros Vu Vs Fu Fs H. apply sub_nonneg; try assumption.
  now apply SFleb_B2R.
Qed.

Lemma seconds_difference_negative up start :
  valid up = true -> valid start = true ->
  is_finite up = true -> is_finite start = true ->
  SFltb up start = true -> SFltb (sub up start) zero = true.
Proof.
  intros Vu Vs Fu Fs H. apply sub_negative; try assumption.
  now apply SFltb_B2R.
Qed.

(** Microseconds over a million, rounded. *)
Lemma usec_quotient du :
  - 1000000 < du < 1000000 ->
  Rounded (IZR du / 1000000) (div (of_Z du) (of_Z 1000000)) /\
  is_finite (div (of_Z du) (of_Z 1000000)) = true.
Proof.
  intros Hd.
  assert (Ed : B2R (of_Z du) = IZR du) by (apply B2R_of_Z_small; unfold prec; lia).
  assert (Ec : B2R (of_Z 1000000) = 1000000%R)
    by (apply B2R_of_Z_small; unfold prec; lia).
  assert (HR : Rounded (IZR du / 1000000) (div (of_Z du) (of_Z 1000000))).
  { rewrite <- Ed, <- Ec. apply SFdiv_Rounded_value.
    - apply of_Z_finite; lia.
    - reflexivity.
    - rewrite Ec. lra. }
  split; [exact HR|].
  apply (Rounded_finite _ _ 0 HR).
  - rewrite bpow_0.
    assert (- 1000000 <= IZR du <= 1000000)%R.
    { split; apply IZR_le; lia. }
    lra.
  - rewrite emin_eq. unfold prec, emax. lia.
Qed.

Lemma Rnd_1 : Rnd 1 1.
Proof. rewrite <- bpow_0. apply Rnd_bpow. rewrite emin_eq. unfold prec. lia. Qed.

Lemma sub_self x : is_finite x = true -> sub x x = zero.
Proof.
  destruct x as [s|s| |s m e]; try discriminate; intros _.
  - now destruct s.
  - unfold sub. cbn [SFsub]. now rewrite Z.min_id, Z.sub_diag.
Qed.

(** Two valid finite numbers of the same positive value are the same
    number. *)
Lemma B2R_inj_pos x y :
  valid x = true -> valid y = true ->
  is_finite x = true -> is_finite y = true ->
  (0 < B2R x)%R -> B2R x = B2R y -> x = y.
Proof.
  intros Vx Vy Fx Fy P E.
  assert (O := SFcompare_B2R x y Vx Vy Fx Fy).
  destruct x as [sx|sx| |sx mx ex]; try discriminate; [simpl in P; lra|].
  destruct y as [sy|sy| |sy my ey]; try discriminate;
    [rewrite E in P; simpl in P; lra|].
  assert (Px := F2R_pos (Zpos mx) ex ltac:(lia)).
  assert (Py := F2R_pos (Zpos my) ey ltac:(lia)).
  rewrite E in P. rewrite !B2R_finite in *.
  destruct sx; [lra|]. destruct sy; [lra|].
  cbn [SFcompare] in O.
  destruct (Z.compare_spec ex ey) as [He|He|He]; cbn [ordered] in O; try lra.
  subst ey. rewrite compare_cont_Eq in O.
  destruct (Z.compare_spec (Zpos mx) (Zpos my)) as [Hm|Hm|Hm];
    cbn [ordered] in O; try lra.
  now injection Hm as ->.
Qed.

Lemma seconds_of_ticks_pos k :
  1 <= k < 2 ^ 64 -> (0 < B2R (div (of_Z k) (of_Z 10000000)))%R.
Proof.
  intros Hk.
  destruct (ticks_to_seconds k 10000000) as [HR HF];
    [lia|unfold prec; lia|].
  assert (Fk : is_finite (of_Z k) = true) by (apply of_Z_finite; lia).
  assert (H1 : (1 <= B2R (of_Z k))%R).
  { apply (Rnd_mono 1 (IZR k) _ _ Rnd_1
             (Rounded_Rnd _ _ (of_Z_Rounded k) Fk)).
    apply IZR_le. lia. }
  assert (Hb : (bpow (- (24)) <= B2R (of_Z k) / IZR 10000000)%R).
  { rewrite bpow_neg, bpow_IZR by lia. change (2 ^ 24) with 16777216. lra. }
  assert (L := Rnd_mono _ _ _ _
                 (Rnd_bpow (- (24)) ltac:(rewrite emin_eq; unfold prec; lia))
                 (Rounded_Rnd _ _ HR HF) Hb).
  assert (P := bpow_gt_0 (- (24))). lra.
Qed.

(** Tick counts in reversed order: the difference of their seconds is
    below zero, or [+0.0] when both convert to the same [double]. *)
Lemma ticks_difference_reversed k n :
  0 <= n -> n < k -> k < 2 ^ 64 ->
  if SFeqb (div (of_Z n) (of_Z 10000000)) (div (of_Z k) (of_Z 10000000))
  then sub (div (of_Z n) (of_Z 10000000)) (div (of_Z k) (of_Z 10000000)) = zero
  else SFltb (sub (div (of_Z n) (of_Z 10000000))
                  (div (of_Z k) (of_Z 10000000))) zero = true.
Proof.
  intros Hn Hnk Hk.
  set (x := div (of_Z n) (of_Z 10000000)).
  set (y := div (of_Z k) (of_Z 10000000)).
  assert (Fn : is_finite x = true)
    by (apply (ticks_to_seconds n 10000000); [lia|unfold prec; lia]).
  assert (Fk : is_finite y = true)
    by (apply (ticks_to_seconds k 10000000); [lia|unfold prec; lia]).
  assert (Vn : valid x = true) by apply SFdiv_valid.
  assert (Vk : valid y = true) by apply SFdiv_valid.
  assert (M : (B2R x <= B2R y)%R)
    by (apply seconds_monotone; [lia|lia|lia|unfold prec; lia]).
  assert (P : (0 < B2R y)%R) by (apply seconds_of_ticks_pos; lia).
  assert (O : ordered (SFcompare x y) (B2R x) (B2R y))
    by (apply SFcompare_B2R; assumption).
  unfold SFeqb. destruct (SFcompare x y) as [[| |]|]; cbn [ordered] in O.
  - assert (Pn : (0 < B2R x)%R) by lra.
    rewrite (B2R_inj_pos x y Vn Vk Fn Fk Pn O).
    now apply sub_self.
  - now apply sub_negative.
  - lra.
  - contradiction.
Qed.

Lemma timeval_difference_nonneg ds du :
  - 2 ^ 63 < ds < 2 ^ 63 -> - 1000000 < du < 1000000 ->
  0 <= ds * 1000000 + du ->
  SFleb zero (add (of_Z ds) (div (of_Z du) (of_Z 1000000))) = true.
Proof.
  intros Hs Hu H.
  destruct (usec_quotient du Hu) as [Rq Fq].
  assert (Fa : is_finite (of_Z ds) = true) by (apply of_Z_finite; lia).
  apply add_nonneg; try assumption;
    [apply of_Z_valid|apply SFdiv_valid|].
  assert (Ra := Rounded_Rnd _ _ (of_Z_Rounded ds) Fa).
  assert (Rq' := Rounded_Rnd _ _ Rq Fq).
  assert (Hdu : (- 1000000 < IZR du < 1000000)%R).
  { split; apply IZR_lt; lia. }
  destruct (Z.eq_dec ds 0) as [->|Hne].
  - rewrite B2R_of_Z_0.
    assert (0 <= IZR du)%R by (apply IZR_le; lia).
    assert (0 <= B2R (div (of_Z du) (of_Z 1000000)))%R; [|lra].
    apply (Rnd_sign_nonneg _ _ Rq'). unfold Rdiv. nra.
  - assert (1 <= ds) by lia.
    assert (1 <= B2R (of_Z ds))%R.
    { apply (Rnd_mono 1 (IZR ds) _ _ Rnd_1 Ra). apply IZR_le. lia. }
    assert (- 1 <= B2R (div (of_Z du) (of_Z 1000000)))%R; [|lra].
    apply (Rnd_mono (- 1) (IZR du / 1000000) _ _ (Rnd_opp _ _ Rnd_1) Rq'). lra.
Qed.

Lemma largest_usec_quotient_below_one :
  (B2R (div (of_Z 999999) (of_Z 1000000)) < 1)%R.
Proof.
  replace 1%R with (B2R (of_Z 1)).
  - apply SFltb_B2R; vm_compute; reflexivity.
  - apply (B2R_of_Z_small 1). unfold prec. lia.
Qed.

Lemma bpow_emin_small : (bpow emin <= / 1000000)%R.
Proof.
  apply Rle_trans with (bpow (- 20)).
  - apply bpow_le. rewrite emin_eq. lia.
  - replace (-20) with (Z.opp 20) by reflexivity.
    rewrite bpow_neg, bpow_IZR by lia.
    apply Rinv_le_contravar; [lra|]. change (2 ^ 20) with 1048576. lra.
Qed.

Lemma timeval_difference_negative ds du :
  - 2 ^ 63 < ds < 2 ^ 63 -> - 1000000 < du < 1000000 ->
  ds * 1000000 + du < 0 ->
  SFltb (add (of_Z ds) (div (of_Z du) (of_Z 1000000))) zero = true.
Proof.
  intros Hs Hu H.
  destruct (usec_quotient du Hu) as [Rq Fq].
  assert (Fa : is_finite (of_Z ds) = true) by (apply of_Z_finite; lia).
  apply add_negative; try assumption;
    [apply of_Z_valid|apply SFdiv_valid|].
  assert (Ra := Rounded_Rnd _ _ (of_Z_Rounded ds) Fa).
  assert (Rq' := Rounded_Rnd _ _ Rq Fq).
  destruct (Z.eq_dec ds 0) as [->|Hne].
  - rewrite B2R_of_Z_0.
    assert (IZR du <= - 1)%R by (apply IZR_le; lia).
    assert (HB : Rnd (- bpow emin) (- bpow emin)).
    { apply Rnd_opp. right. left. apply bpow_emin_repr. }
    assert (S := bpow_emin_small). assert (P := bpow_gt_0 emin).
    assert (B2R (div (of_Z du) (of_Z 1000000)) <= - bpow emin)%R; [|lra].
    apply (Rnd_mono _ _ _ _ Rq' HB). lra.
  - assert (ds <= - 1) by lia.
    assert (B2R (of_Z ds) <= - 1)%R.
    { apply (Rnd_mono (IZR ds) (- 1) _ _ Ra (Rnd_opp _ _ Rnd_1)).
      apply (IZR_le ds (- 1)). lia. }
    destruct (usec_quotient 999999 ltac:(lia)) as [Rw Fw].
    assert (B2R (div (of_Z du) (of_Z 1000000))
            <= B2R (div (of_Z 999999) (of_Z 1000000)))%R.
    { apply (Rounded_le _ _ _ _ Rq Rw Fq Fw).
      assert (IZR du <= 999999)%R by (apply IZR_le; lia). lra. }
    assert (L := largest_usec_quotient_below_one). lra.
Qed.

(** * Properties of the function *)

(** ** The function, path by path *)

Lemma run_GTSPS_LOG_ERROR cfg str (t : Trace) :
  GTSPS_LOG_ERROR cfg str t = (Next tt, t ++ logged cfg str).
Proof.
  unfold GTSPS_LOG_ERROR, logged.
  destruct (GTSPS_DONT_LOG_ERRORS cfg); [unfold ret; now rewrite app_nil_r|].
  now destruct (GTSPS_LOG_ERROR_defined cfg).
Qed.

Lemma diagnostics_app t1 t2 :
  diagnostics (t1 ++ t2) = diagnostics t1 ++ diagnostics t2.
Proof.
  induction t1 as [|e t1 IH]; [reflexivity|].
  destruct e; simpl; now rewrite ?IH.
Qed.

Lemma diagnostics_logged cfg str :
  diagnostics (logged cfg str) =
  if GTSPS_DONT_LOG_ERRORS cfg then [] else [str].
Proof.
  unfold logged. destruct (GTSPS_DONT_LOG_ERRORS cfg); [reflexivity|].
  now destruct (GTSPS_LOG_ERROR_defined cfg).
Qed.

Lemma logged_no_call cfg str : existsb is_call (logged cfg str) = false.
Proof.
  unfold logged. destruct (GTSPS_DONT_LOG_ERRORS cfg); [reflexivity|].
  now destruct (GTSPS_LOG_ERROR_defined cfg).
Qed.

Lemma open_after_logged cfg str held :
  open_after held (logged cfg str) = held.
Proof.
  unfold logged. destruct (GTSPS_DONT_LOG_ERRORS cfg); [reflexivity|].
  now destruct (GTSPS_LOG_ERROR_defined cfg).
Qed.

Lemma open_after_app held t1 t2 :
  open_after held (t1 ++ t2) = open_after (open_after held t1) t2.
Proof.
  revert held. induction t1 as [|e t1 IH]; intros held; [reflexivity|].
  destruct e; simpl; try apply IH. destruct result; apply IH.
Qed.

Ltac step_body :=
  cbv [run body body_WIN32 body_linux body_APPLE body_unsupported bind ret
       return_ emit c_GetCurrentProcess c_GetProcessTimes
       c_GetSystemTimeAsFileTime c_fopen c_fscanf_stat c_fscanf_lf c_fclose
       c_sysconf c_getpid c_proc_pidinfo c_gettimeofday negb];
  rewrite ?run_GTSPS_LOG_ERROR; cbn [app].

Lemma run_WIN32 cfg os : run (body_WIN32 cfg os) = outcome_WIN32 cfg os.
Proof.
  unfold outcome_WIN32. step_body.
  destruct (GetProcessTimes os) as [ok creationTime].
  destruct (ok =? 0); step_body; reflexivity.
Qed.

Lemma run_linux cfg os : run (body_linux cfg os) = outcome_linux cfg os.
Proof.
  unfold outcome_linux, stat_path, uptime_path. step_body.
  destruct (fopen os "/proc/self/stat") as [f1|]; step_body; [|reflexivity].
  destruct (fscanf_stat os f1) as [decoded1 startTime].
  destruct (decoded1 =? 1); step_body; [|reflexivity].
  destruct (fopen os "/proc/uptime") as [f2|]; step_body; [|reflexivity].
  destruct (fscanf_lf os f2) as [decoded2 up].
  destruct (decoded2 =? 1); step_body; reflexivity.
Qed.

Lemma run_APPLE cfg os : run (body_APPLE cfg os) = outcome_APPLE cfg os.
Proof.
  unfold outcome_APPLE. step_body.
  destruct (proc_pidinfo os (getpid os)) as [status task_info].
  destruct (status <=? 0); step_body; reflexivity.
Qed.

Lemma GetTimeSinceProcessStart_eq cfg os :
  GetTimeSinceProcessStart cfg os =
  match platform cfg with
  | Windows => outcome_WIN32 cfg os
  | Linux => outcome_linux cfg os
  | Apple => outcome_APPLE cfg os
  | Unsupported => (zero, [])
  end.
Proof.
  unfold GetTimeSinceProcessStart, body.
  destruct (platform cfg);
    [apply run_WIN32 | apply run_linux | apply run_APPLE | reflexivity].
Qed.

(** ** Sanity checks of the embedding on concrete runs *)

Example run_windows_sample :
  GetTimeSinceProcessStart cfg_windows sample_os =
  (of_Z 5, [Call_GetCurrentProcess; Call_GetProcessTimes;
            Call_GetSystemTimeAsFileTime]).
Proof. vm_compute. reflexivity. Qed.

Example run_linux_sample :
  GetTimeSinceProcessStart cfg_linux sample_os =
  (of_Z 5, [Call_fopen stat_path (Some 3); Call_fscanf 3; Call_fclose 3;
            Call_sysconf;
            Call_fopen uptime_path (Some 4); Call_fscanf 4; Call_fclose 4]).
Proof. vm_compute. reflexivity. Qed.

(** 5.5 seconds: eleven halves. *)
Example run_apple_sample :
  GetTimeSinceProcessStart cfg_apple sample_os =
  (div (of_Z 11) (of_Z 2),
   [Call_getpid; Call_proc_pidinfo; Call_gettimeofday]).
Proof. vm_compute. reflexivity. Qed.

Example run_linux_malformed_stat :
  GetTimeSinceProcessStart cfg_linux (with_fscanf_stat (0, 0) sample_os) =
  (zero, [Call_fopen stat_path (Some 3); Call_fscanf 3; Call_fclose 3;
          Log_stderr msg_decode_stat]).
Proof. vm_compute. reflexivity. Qed.


(** ** Exit paths that the code checks *)

Lemma remove_first_head f l : remove_first f (f :: l) = l.
Proof. simpl. now rewrite Z.eqb_refl. Qed.

Lemma platform_unsupported cfg :
  platform cfg = Unsupported <->
  _WIN32 cfg = false /\ linux cfg = false /\ __linux__ cfg = false /\
  __LINUX__ cfg = false /\ __APPLE__ cfg = false /\ MACOSX cfg = false /\
  __MACOSX__ cfg = false.
Proof.
  unfold platform.
  destruct (_WIN32 cfg), (linux cfg), (__linux__ cfg), (__LINUX__ cfg),
    (__APPLE__ cfg), (MACOSX cfg), (__MACOSX__ cfg); simpl;
    split; intros H; try discriminate; try tauto;
    repeat match goal with H : _ /\ _ |- _ => destruct H end; discriminate.
Qed.

(** A failure of the creation-time probe that the code detects ends the call
    with [0.0], the matching diagnostic last in the trace. *)
Lemma creation_failure_outcome cfg os msg :
  creation_failure cfg os = Some msg ->
  exists calls,
    GetTimeSinceProcessStart cfg os = (zero, calls ++ logged cfg msg) /\
    forallb is_call calls = true /\
    existsb current_time_probe calls = false.
Proof.
  rewrite GetTimeSinceProcessStart_eq. unfold creation_failure.
  destruct (platform cfg); [| | |discriminate].
  - unfold outcome_WIN32. destruct (GetProcessTimes os) as [ok ct]; simpl.
    destruct (ok =? 0); [|discriminate]. intros [= <-].
    now exists [Call_GetCurrentProcess; Call_GetProcessTimes].
  - unfold outcome_linux. destruct (fopen os stat_path) as [f1|].
    + destruct (fscanf_stat os f1) as [d1 st]; simpl.
      destruct (d1 =? 1); [discriminate|]. intros [= <-].
      now exists [Call_fopen stat_path (Some f1); Call_fscanf f1; Call_fclose f1].
    + intros [= <-]. now exists [Call_fopen stat_path None].
  - unfold outcome_APPLE. destruct (proc_pidinfo os (getpid os)) as [st ti]; simpl.
    destruct (st <=? 0); [|discriminate]. intros [= <-].
    now exists [Call_getpid; Call_proc_pidinfo].
Qed.

(** The same for the one current-time probe whose outcome the code looks at,
    the uptime file of the Linux branch. *)
Lemma current_failure_outcome cfg os msg :
  creation_failure cfg os = None ->
  current_failure cfg os = Some msg ->
  exists calls,
    GetTimeSinceProcessStart cfg os = (zero, calls ++ logged cfg msg) /\
    forallb is_call calls = true.
Proof.
  rewrite GetTimeSinceProcessStart_eq. unfold creation_failure, current_failure.
  destruct (platform cfg); try discriminate.
  unfold outcome_linux. destruct (fopen os stat_path) as [f1|]; [|discriminate].
  destruct (fscanf_stat os f1) as [d1 st]; simpl.
  destruct (d1 =? 1); [|discriminate]. simpl. intros _.
  destruct (fopen os uptime_path) as [f2|].
  - destruct (fscanf_lf os f2) as [d2 up]; simpl.
    destruct (d2 =? 1); [discriminate|]. intros [= <-]. simpl.
    now exists [Call_fopen stat_path (Some f1); Call_fscanf f1; Call_fclose f1;
                Call_sysconf; Call_fopen uptime_path (Some f2); Call_fscanf f2;
                Call_fclose f2].
  - intros [= <-]. simpl.
    now exists [Call_fopen stat_path (Some f1); Call_fscanf f1; Call_fclose f1;
                Call_sysconf; Call_fopen uptime_path None].
Qed.

Lemma diagnostics_calls calls :
  forallb is_call calls = true -> diagnostics calls = [].
Proof.
  induction calls as [|e t IH]; [reflexivity|].
  simpl. intros [He Ht]%andb_prop. destruct e; try discriminate; auto.
Qed.

(** Every failure the code detects yields [0.0] and exactly one diagnostic,
    none when logging is compiled out. *)
Lemma detected_failure_one_diagnostic cfg os msg :
  creation_failure cfg os = Some msg \/
  (creation_failure cfg os = None /\ current_failure cfg os = Some msg) ->
  fst (GetTimeSinceProcessStart cfg os) = zero /\
  diagnostics (snd (GetTimeSinceProcessStart cfg os)) =
    (if GTSPS_DONT_LOG_ERRORS cfg then [] else [msg]).
Proof.
  intros [H|[H1 H2]].
  - destruct (creation_failure_outcome _ _ _ H) as (calls & -> & Hc & _).
    simpl. now rewrite diagnostics_app, diagnostics_calls, diagnostics_logged.
  - destruct (current_failure_outcome _ _ _ H1 H2) as (calls & -> & Hc).
    simpl. now rewrite diagnostics_app, diagnostics_calls, diagnostics_logged.
Qed.

(** ** Runs in which both probes deliver *)

Lemma lor_below_pow2 a b n :
  0 < n -> 0 <= a < 2 ^ n -> 0 <= b < 2 ^ n -> 0 <= Z.lor a b < 2 ^ n.
Proof.
  intros Hn Ha Hb.
  assert (H0 : 0 <= Z.lor a b) by (apply Z.lor_nonneg; lia).
  split; [exact H0|].
  destruct (Z.eq_dec (Z.lor a b) 0) as [->|Hne].
  { apply Z.pow_pos_nonneg; lia. }
  apply Z.log2_lt_pow2; [lia|].
  rewrite Z.log2_lor by lia.
  assert (La : Z.log2 a < n).
  { destruct (Z.eq_dec a 0) as [->|]; [simpl; lia|].
    apply Z.log2_lt_pow2; lia. }
  assert (Lb : Z.log2 b < n).
  { destruct (Z.eq_dec b 0) as [->|]; [simpl; lia|].
    apply Z.log2_lt_pow2; lia. }
  lia.
Qed.

Lemma QuadPart_range c : 0 <= QuadPart c < 2 ^ 64.
Proof.
  unfold QuadPart, wrap_unsigned.
  assert (Hh := Z.mod_pos_bound (HighPart c) (2 ^ 32) ltac:(lia)).
  assert (Hl := Z.mod_pos_bound (LowPart c) (2 ^ 32) ltac:(lia)).
  apply lor_below_pow2; [lia| |lia].
  rewrite Z.shiftl_mul_pow2 by lia.
  change (2 ^ 64) with (2 ^ 32 * 2 ^ 32). nia.
Qed.

Lemma wrap_signed_64 z : - 2 ^ 63 <= z < 2 ^ 63 -> wrap_signed 64 z = z.
Proof.
  intros H. unfold wrap_signed.
  change (2 ^ (64 - 1)) with (2 ^ 63).
  change (2 ^ 64) with (2 * 2 ^ 63).
  rewrite Z.mod_small; lia.
Qed.

Lemma wrap_signed_32 z : - 2 ^ 31 <= z < 2 ^ 31 -> wrap_signed 32 z = z.
Proof.
  intros H. unfold wrap_signed.
  change (2 ^ (32 - 1)) with (2 ^ 31).
  change (2 ^ 32) with (2 * 2 ^ 31).
  rewrite Z.mod_small; lia.
Qed.

Lemma normal_timeval_spec tv :
  normal_timeval tv = true ->
  0 <= tv_sec tv < 2 ^ 63 /\ 0 <= tv_usec tv < 1000000.
Proof.
  unfold normal_timeval.
  intros [[[H1 H2]%andb_prop H3]%andb_prop H4]%andb_prop.
  apply Z.leb_le in H1, H3. apply Z.ltb_lt in H2, H4. lia.
Qed.

Lemma processStartTimeInSeconds_valid os :
  valid (processStartTimeInSeconds os) = true.
Proof.
  unfold processStartTimeInSeconds.
  destruct (fopen os stat_path); [apply SFdiv_valid|reflexivity].
Qed.

(** When both probes deliver, the function returns the difference of the
    branch and logs nothing. *)
Lemma success_outcome cfg os :
  probes_succeed cfg os = true ->
  fst (GetTimeSinceProcessStart cfg os) = difference cfg os /\
  diagnostics (snd (GetTimeSinceProcessStart cfg os)) = [].
Proof.
  rewrite GetTimeSinceProcessStart_eq.
  unfold probes_succeed, creation_failure, current_failure, difference.
  destruct (platform cfg).
  - unfold outcome_WIN32, creation_ticks, current_ticks, seconds_of_ticks.
    destruct (GetProcessTimes os) as [ok ct]; simpl.
    destruct (ok =? 0); [discriminate|]. intros _. now split.
  - unfold outcome_linux, processStartTimeInSeconds, kernelUpTimeInSeconds.
    destruct (fopen os stat_path) as [f1|]; [|discriminate].
    destruct (fscanf_stat os f1) as [d1 st]; simpl.
    destruct (d1 =? 1); [|discriminate]. simpl.
    destruct (fopen os uptime_path) as [f2|]; [|discriminate].
    destruct (fscanf_lf os f2) as [d2 up]; simpl.
    destruct (d2 =? 1); [|discriminate]. intros _. now split.
  - unfold outcome_APPLE, start_timeval, current_timeval.
    destruct (proc_pidinfo os (getpid os)) as [st ti]; simpl.
    destruct (st <=? 0); [discriminate|].
    destruct (gettimeofday os); [|discriminate]. intros _. now split.
  - intros _. now split.
Qed.

(** ** The claims *)

(** C1 (the defect).  On the Apple branch the result of [gettimeofday] is
    thrown away: when that call fails, the buffer keeps its zero
    initialisation, the function returns minus the start time
    (here -1700000000.25 seconds) instead of [0.0], and nothing is logged. *)
Theorem C1_gettimeofday_failure_unreported :
  let os := with_gettimeofday None sample_os in
  gettimeofday os = None /\
  GetTimeSinceProcessStart cfg_apple os =
    (div (of_Z (-6800000001)) (of_Z 4),
     [Call_getpid; Call_proc_pidinfo; Call_gettimeofday]) /\
  eqb (fst (GetTimeSinceProcessStart cfg_apple os)) zero = false /\
  diagnostics (snd (GetTimeSinceProcessStart cfg_apple os)) = [].
Proof. vm_compute. repeat split. Qed.

(** C2.  When the creation-time probe fails, the function returns [0.0]; the
    trace is a sequence of calls, none of them a current-time probe, followed
    by what [GTSPS_LOG_ERROR] emits for the message of that failure. *)
Theorem C2_creation_failure_skips_current_probe cfg os msg :
  creation_failure cfg os = Some msg ->
  fst (GetTimeSinceProcessStart cfg os) = zero /\
  existsb current_time_probe (snd (GetTimeSinceProcessStart cfg os)) = false /\
  exists calls,
    snd (GetTimeSinceProcessStart cfg os) = calls ++ logged cfg msg /\
    forallb is_call calls = true.
Proof.
  intros H. destruct (creation_failure_outcome _ _ _ H) as (calls & -> & Hc & Hp).
  simpl. split; [reflexivity|]. split; [|now exists calls].
  rewrite existsb_app, Hp. simpl.
  unfold logged. destruct (GTSPS_DONT_LOG_ERRORS cfg); [reflexivity|].
  now destruct (GTSPS_LOG_ERROR_defined cfg).
Qed.

Lemma C2_witness :
  creation_failure cfg_linux (with_fscanf_stat (0, 0) sample_os)
    = Some msg_decode_stat /\
  fst (GetTimeSinceProcessStart cfg_linux (with_fscanf_stat (0, 0) sample_os))
    = zero.
Proof.
  split; [reflexivity|].
  apply (C2_creation_failure_skips_current_probe
           cfg_linux (with_fscanf_stat (0, 0) sample_os) msg_decode_stat).
  reflexivity.
Defined.



(** C4.  Windows branch: a creation time of 100000000 and a current time of
    150000000 hundred-nanosecond ticks give exactly 5.0 seconds. *)
Theorem C4_windows_scenario cfg os ok creationTime :
  platform cfg = Windows ->
  GetProcessTimes os = (ok, creationTime) ->
  ok <> 0 ->
  QuadPart {| LowPart := dwLowDateTime creationTime;
              HighPart := dwHighDateTime creationTime |} = 100000000 ->
  QuadPart {| LowPart := dwLowDateTime (GetSystemTimeAsFileTime os);
              HighPart := dwHighDateTime (GetSystemTimeAsFileTime os) |}
    = 150000000 ->
  fst (GetTimeSinceProcessStart cfg os) = of_Z 5.
Proof.
  intros Hp H1 Hok Hc Hn.
  rewrite GetTimeSinceProcessStart_eq, Hp. unfold outcome_WIN32.
  rewrite H1. apply Z.eqb_neq in Hok. rewrite Hok, Hc, Hn.
  vm_compute. reflexivity.
Qed.

Lemma C4_witness : fst (GetTimeSinceProcessStart cfg_windows sample_os) = of_Z 5.
Proof.
  apply (C4_windows_scenario cfg_windows sample_os 1
           {| dwLowDateTime := 100000000; dwHighDateTime := 0 |});
    try reflexivity.
  discriminate.
Defined.

(** C5.  When both probes deliver and the sampled current time is not before
    the sampled creation time (tick counts on Windows, finite seconds on
    Linux, times of day on Apple, where seconds and microseconds are
    differenced separately), the returned value is greater than or equal to
    [0.0]. *)
Theorem C5_result_nonnegative cfg os :
  probes_succeed cfg os = true ->
  current_not_before_creation cfg os = true ->
  leb zero (fst (GetTimeSinceProcessStart cfg os)) = true.
Proof.
  intros Hs Hc. destruct (success_outcome cfg os Hs) as [-> _].
  unfold difference, current_not_before_creation in *.
  destruct (platform cfg).
  - apply Z.leb_le in Hc.
    assert (R1 := QuadPart_range
                    {| LowPart := dwLowDateTime (snd (GetProcessTimes os));
                       HighPart := dwHighDateTime (snd (GetProcessTimes os)) |}).
    assert (R2 := QuadPart_range
                    {| LowPart := dwLowDateTime (GetSystemTimeAsFileTime os);
                       HighPart := dwHighDateTime (GetSystemTimeAsFileTime os) |}).
    unfold creation_ticks, current_ticks in *.
    apply ticks_difference_nonneg; lia.
  - apply andb_prop in Hc. destruct Hc as [Hc H4].
    apply andb_prop in Hc. destruct Hc as [Hc H3].
    apply andb_prop in Hc. destruct Hc as [H1 H2].
    apply seconds_difference_nonneg; try assumption.
    apply processStartTimeInSeconds_valid.
  - apply andb_prop in Hc. destruct Hc as [Hc H3].
    apply andb_prop in Hc. destruct Hc as [H1 H2].
    apply normal_timeval_spec in H1, H2. apply Z.leb_le in H3.
    unfold microseconds in H3.
    rewrite (wrap_signed_64 (tv_sec (start_timeval os))) by lia.
    rewrite (wrap_signed_32 (tv_usec (start_timeval os))) by lia.
    rewrite wrap_signed_64, wrap_signed_32 by lia.
    apply timeval_difference_nonneg; lia.
  - reflexivity.
Qed.

Lemma C5_witness :
  leb zero (fst (GetTimeSinceProcessStart cfg_windows sample_os)) = true /\
  leb zero (fst (GetTimeSinceProcessStart cfg_linux sample_os)) = true /\
  leb zero (fst (GetTimeSinceProcessStart cfg_apple sample_os)) = true.
Proof.
  split; [|split].
  - apply (C5_result_nonnegative cfg_windows sample_os); reflexivity.
  - apply (C5_result_nonnegative cfg_linux sample_os); reflexivity.
  - apply (C5_result_nonnegative cfg_apple sample_os); reflexivity.
Defined.

(** The Linux hypothesis of finite samples cannot be dropped: a tick
    constant of zero makes the start time an infinity, and against an
    infinite uptime the difference is not a number. *)
Example infinite_samples_give_nan :
  let os := with_sysconf 0 (with_fscanf_lf (1, S754_infinity false) sample_os) in
  leb (processStartTimeInSeconds os) (kernelUpTimeInSeconds os) = true /\
  fst (GetTimeSinceProcessStart cfg_linux os) = S754_nan.
Proof. vm_compute. split; reflexivity. Qed.

(** C6.  When none of the platform macros is defined, the function returns
    [0.0] with an empty trace: no call is made and nothing is logged. *)
Theorem C6_unsupported_platform cfg os :
  _WIN32 cfg = false ->
  linux cfg = false -> __linux__ cfg = false -> __LINUX__ cfg = false ->
  __APPLE__ cfg = false -> MACOSX cfg = false -> __MACOSX__ cfg = false ->
  GetTimeSinceProcessStart cfg os = (zero, []).
Proof.
  intros. rewrite GetTimeSinceProcessStart_eq.
  replace (platform cfg) with Unsupported; [reflexivity|].
  symmetry. apply platform_unsupported. tauto.
Qed.

Lemma C6_witness : GetTimeSinceProcessStart cfg_other sample_os = (zero, []).
Proof.
  apply (C6_unsupported_platform cfg_other sample_os); reflexivity.
Defined.

(** C7.  Apple branch: the function takes the failure exit (no call of
    [gettimeofday]) exactly when [proc_pidinfo] returns a status that is zero
    or negative; it then returns [0.0] and its trace ends with what
    [GTSPS_LOG_ERROR] emits for the [proc_pidinfo] message. *)
Theorem C7_apple_nonpositive_status cfg os :
  platform cfg = Apple ->
  let status := fst (proc_pidinfo os (getpid os)) in
  let out := GetTimeSinceProcessStart cfg os in
  (status <= 0 <-> existsb current_time_probe (snd out) = false) /\
  (status <= 0 ->
   out = (zero, [Call_getpid; Call_proc_pidinfo] ++ logged cfg msg_proc_pidinfo)) /\
  (0 < status -> diagnostics (snd out) = []).
Proof.
  intros Hp status out. subst status out.
  rewrite GetTimeSinceProcessStart_eq, Hp. unfold outcome_APPLE.
  destruct (proc_pidinfo os (getpid os)) as [st ti]; simpl fst.
  destruct (Z.leb_spec st 0) as [Hle|Hgt].
  - split; [split; [intros _|intros _; exact Hle]|split; [reflexivity|lia]].
    simpl. unfold logged. destruct (GTSPS_DONT_LOG_ERRORS cfg); [reflexivity|].
    now destruct (GTSPS_LOG_ERROR_defined cfg).
  - split; [split; [lia|discriminate]|split; [lia|reflexivity]].
Qed.

Lemma C7_witness :
  GetTimeSinceProcessStart cfg_apple
    (with_proc_pidinfo (0, {| pbi_start_tvsec := 0; pbi_start_tvusec := 0 |})
       sample_os)
  = (zero, [Call_getpid; Call_proc_pidinfo; Log_stderr msg_proc_pidinfo]).
Proof.
  apply (C7_apple_nonpositive_status cfg_apple
           (with_proc_pidinfo
              (0, {| pbi_start_tvsec := 0; pbi_start_tvusec := 0 |})
              sample_os)); [reflexivity|].
  simpl. lia.
Defined.

(** C8.  Whatever the configuration and the environment, no stream opened by
    the function is still open when it returns. *)
Theorem C8_no_stream_left_open cfg os :
  open_files (snd (GetTimeSinceProcessStart cfg os)) = [].
Proof.
  rewrite GetTimeSinceProcessStart_eq. unfold open_files.
  destruct (platform cfg); [| | |reflexivity].
  - unfold outcome_WIN32. destruct (GetProcessTimes os) as [ok ct].
    destruct (ok =? 0); [|reflexivity].
    simpl. apply open_after_logged.
  - unfold outcome_linux. destruct (fopen os stat_path) as [f1|].
    2:{ simpl. apply open_after_logged. }
    destruct (fscanf_stat os f1) as [d1 st].
    destruct (negb (d1 =? 1)).
    { simpl. rewrite Z.eqb_refl. apply open_after_logged. }
    destruct (fopen os uptime_path) as [f2|].
    2:{ simpl. rewrite Z.eqb_refl. apply open_after_logged. }
    destruct (fscanf_lf os f2) as [d2 up].
    destruct (negb (d2 =? 1)); simpl; rewrite !Z.eqb_refl;
      [apply open_after_logged|reflexivity].
  - unfold outcome_APPLE. destruct (proc_pidinfo os (getpid os)) as [s ti].
    destruct (s <=? 0); [|reflexivity].
    simpl. apply open_after_logged.
Qed.

(** C9.  Linux branch: whatever [sysconf(_SC_CLK_TCK)] returns, zero and
    negative values included, once both files decode the function returns
    the uptime minus the start ticks divided by that value, and logs
    nothing. *)
Theorem C9_ticks_per_second_unvalidated cfg os f1 f2 startTime uptime clk :
  platform cfg = Linux ->
  fopen os stat_path = Some f1 ->
  fscanf_stat os f1 = (1, startTime) ->
  fopen os uptime_path = Some f2 ->
  fscanf_lf os f2 = (1, uptime) ->
  sysconf_SC_CLK_TCK os = clk ->
  fst (GetTimeSinceProcessStart cfg os)
    = sub uptime (div (of_Z startTime) (of_Z clk)) /\
  diagnostics (snd (GetTimeSinceProcessStart cfg os)) = [].
Proof.
  intros Hp H1 H2 H3 H4 H5.
  rewrite GetTimeSinceProcessStart_eq, Hp. unfold outcome_linux.
  rewrite H1, H2, H3, H4, H5. simpl. split; reflexivity.
Qed.

(** With a constant of zero the division yields an infinity, and the
    function returns minus infinity. *)
Lemma C9_witness :
  fst (GetTimeSinceProcessStart cfg_linux (with_sysconf 0 sample_os))
    = S754_infinity true /\
  diagnostics (snd (GetTimeSinceProcessStart cfg_linux (with_sysconf 0 sample_os)))
    = [].
Proof.
  apply (C9_ticks_per_second_unvalidated cfg_linux (with_sysconf 0 sample_os)
           3 4 500 (of_Z 10) 0); reflexivity.
Defined.

(** With the error value -1 of [sysconf], the start time is added instead of
    subtracted: 10.0 - (500 / -1.0) = 510.0. *)
Example ticks_per_second_minus_one :
  GetTimeSinceProcessStart cfg_linux (with_sysconf (-1) sample_os)
  = (of_Z 510,
     [Call_fopen stat_path (Some 3); Call_fscanf 3; Call_fclose 3; Call_sysconf;
      Call_fopen uptime_path (Some 4); Call_fscanf 4; Call_fclose 4]).
Proof. vm_compute. reflexivity. Qed.

(** C10, as amended.  When both probes deliver and the sampled current
    time is before the sampled creation time, the function returns the
    difference of the branch as it is and logs nothing: the value is below
    [0.0], except on Windows when the two tick counts convert to the same
    [double], where it is [+0.0]. *)
Theorem C10_reversed_difference_returned cfg os :
  probes_succeed cfg os = true ->
  current_before_creation cfg os = true ->
  fst (GetTimeSinceProcessStart cfg os) = difference cfg os /\
  diagnostics (snd (GetTimeSinceProcessStart cfg os)) = [] /\
  if converted_to_same_seconds cfg os
  then fst (GetTimeSinceProcessStart cfg os) = zero
  else ltb (fst (GetTimeSinceProcessStart cfg os)) zero = true.
Proof.
  intros Hs Hc. destruct (success_outcome cfg os Hs) as [E D].
  split; [exact E|]. split; [exact D|]. rewrite E. clear E D Hs.
  unfold difference, current_before_creation, converted_to_same_seconds in *.
  destruct (platform cfg).
  - assert (R1 := QuadPart_range
                    {| LowPart := dwLowDateTime (snd (GetProcessTimes os));
                       HighPart := dwHighDateTime (snd (GetProcessTimes os)) |}).
    assert (R2 := QuadPart_range
                    {| LowPart := dwLowDateTime (GetSystemTimeAsFileTime os);
                       HighPart := dwHighDateTime (GetSystemTimeAsFileTime os) |}).
    apply Z.ltb_lt in Hc.
    unfold creation_ticks, current_ticks, seconds_of_ticks in *.
    apply ticks_difference_reversed; lia.
  - apply andb_prop in Hc. destruct Hc as [Hc H4].
    apply andb_prop in Hc. destruct Hc as [Hc H3].
    apply andb_prop in Hc. destruct Hc as [H1 H2].
    apply seconds_difference_negative; try assumption.
    apply processStartTimeInSeconds_valid.
  - apply andb_prop in Hc. destruct Hc as [Hc H3].
    apply andb_prop in Hc. destruct Hc as [H1 H2].
    apply normal_timeval_spec in H1, H2. apply Z.ltb_lt in H3.
    unfold microseconds in H3.
    rewrite (wrap_signed_64 (tv_sec (start_timeval os))) by lia.
    rewrite (wrap_signed_32 (tv_usec (start_timeval os))) by lia.
    rewrite wrap_signed_64, wrap_signed_32 by lia.
    apply timeval_difference_negative; lia.
  - discriminate.
Qed.

(** In [reversed_os] the creation time is 5 seconds after the current time
    on Windows, 40 seconds on Linux and 5.5 seconds on Apple; in
    [neighbouring_os] it is one tick after it. *)
Lemma C10_witness :
  (fst (GetTimeSinceProcessStart cfg_windows reversed_os) = of_Z (-5) /\
   ltb (fst (GetTimeSinceProcessStart cfg_windows reversed_os)) zero = true) /\
  (fst (GetTimeSinceProcessStart cfg_linux reversed_os) = of_Z (-40) /\
   ltb (fst (GetTimeSinceProcessStart cfg_linux reversed_os)) zero = true) /\
  (fst (GetTimeSinceProcessStart cfg_apple reversed_os)
     = div (of_Z (-11)) (of_Z 2) /\
   ltb (fst (GetTimeSinceProcessStart cfg_apple reversed_os)) zero = true) /\
  fst (GetTimeSinceProcessStart cfg_windows neighbouring_os) = zero.
Proof.
  split; [|split; [|split]].
  - destruct (C10_reversed_difference_returned cfg_windows reversed_os
                eq_refl eq_refl) as (E & _ & N).
    split; [exact E|exact N].
  - destruct (C10_reversed_difference_returned cfg_linux reversed_os
                eq_refl eq_refl) as (E & _ & N).
    split; [exact E|exact N].
  - destruct (C10_reversed_difference_returned cfg_apple reversed_os
                eq_refl eq_refl) as (E & _ & N).
    split; [exact E|exact N].
  - destruct (C10_reversed_difference_returned cfg_windows neighbouring_os
                eq_refl eq_refl) as (_ & _ & Z).
    exact Z.
Defined.

(** C10 as it is worded fails on Windows.  Tick counts of the present date
    are above [2^53], where neighbouring counts convert to the same
    [double]: both probes deliver, the current tick count is below the
    creation tick count, and the value returned is [+0.0], which is not
    below [0.0]. *)
Lemma C10_counterexample :
  probes_succeed cfg_windows neighbouring_os = true /\
  current_ticks neighbouring_os < creation_ticks neighbouring_os /\
  current_before_creation cfg_windows neighbouring_os = true /\
  fst (GetTimeSinceProcessStart cfg_windows neighbouring_os) = zero /\
  ltb (fst (GetTimeSinceProcessStart cfg_windows neighbouring_os)) zero = false /\
  diagnostics (snd (GetTimeSinceProcessStart cfg_windows neighbouring_os)) = [].
Proof. vm_compute. repeat split. Qed.

(** * Further properties of the function *)

(** ** Diagnostics and calls *)

Lemma calls_of_app t1 t2 : calls_of (t1 ++ t2) = calls_of t1 ++ calls_of t2.
Proof. apply filter_app. Qed.


(** X1.  A diagnostic is logged exactly when the code detects a failure, it
    is then the only one and the message of that failure, and the value
    returned is [0.0]; a run without a detected failure logs nothing. *)
Theorem X1_diagnostic_iff_detected_failure cfg os :
  diagnostics (snd (GetTimeSinceProcessStart cfg os)) =
    match detected_failure cfg os with
    | Some msg => if GTSPS_DONT_LOG_ERRORS cfg then [] else [msg]
    | None => []
    end /\
  (detected_failure cfg os <> None ->
   fst (GetTimeSinceProcessStart cfg os) = zero).
Proof.
  unfold detected_failure.
  destruct (creation_failure cfg os) as [msg|] eqn:Ec.
  - destruct (creation_failure_outcome _ _ _ Ec) as (calls & -> & Hc & _).
    simpl. split; [|reflexivity].
    now rewrite diagnostics_app, diagnostics_calls, diagnostics_logged.
  - destruct (current_failure cfg os) as [msg|] eqn:Eu.
    + destruct (current_failure_outcome _ _ _ Ec Eu) as (calls & -> & Hc).
      simpl. split; [|reflexivity].
      now rewrite diagnostics_app, diagnostics_calls, diagnostics_logged.
    + split; [|congruence].
      revert Ec Eu. rewrite GetTimeSinceProcessStart_eq.
      unfold creation_failure, current_failure.
      destruct (platform cfg); [| | |reflexivity].
      * unfold outcome_WIN32. destruct (GetProcessTimes os) as [ok ct]; simpl.
        now destruct (ok =? 0).
      * unfold outcome_linux.
        destruct (fopen os stat_path) as [f1|]; [|discriminate].
        destruct (fscanf_stat os f1) as [d1 st]; simpl.
        destruct (d1 =? 1); [|discriminate]. simpl. intros _.
        destruct (fopen os uptime_path) as [f2|]; [|discriminate].
        destruct (fscanf_lf os f2) as [d2 up]; simpl.
        now destruct (d2 =? 1).
      * unfold outcome_APPLE.
        destruct (proc_pidinfo os (getpid os)) as [st ti]; simpl.
        now destruct (st <=? 0).
Qed.



(** ** Streams *)

Lemma streams_used_properly_logged cfg str held :
  streams_used_properly held (logged cfg str) = true.
Proof.
  unfold logged. destruct (GTSPS_DONT_LOG_ERRORS cfg); [reflexivity|].
  now destruct (GTSPS_LOG_ERROR_defined cfg).
Qed.

(** X3.  Whatever the configuration and the environment, the function reads
    and closes only a stream that is open at that moment, so it never reads
    after closing and never closes twice, and it never holds two streams at
    once. *)
Theorem X3_streams_used_properly cfg os :
  streams_used_properly [] (snd (GetTimeSinceProcessStart cfg os)) = true.
Proof.
  rewrite GetTimeSinceProcessStart_eq.
  destruct (platform cfg); [| | |reflexivity].
  - unfold outcome_WIN32. destruct (GetProcessTimes os) as [ok ct].
    destruct (ok =? 0); [|reflexivity].
    simpl. apply streams_used_properly_logged.
  - unfold outcome_linux. destruct (fopen os stat_path) as [f1|].
    2:{ simpl. apply streams_used_properly_logged. }
    destruct (fscanf_stat os f1) as [d1 st].
    destruct (negb (d1 =? 1)).
    { simpl. rewrite !Z.eqb_refl. simpl. apply streams_used_properly_logged. }
    destruct (fopen os uptime_path) as [f2|].
    2:{ simpl. rewrite !Z.eqb_refl. simpl. apply streams_used_properly_logged. }
    destruct (fscanf_lf os f2) as [d2 up].
    destruct (negb (d2 =? 1)); simpl; rewrite !Z.eqb_refl; simpl;
      [apply streams_used_properly_logged|reflexivity].
  - unfold outcome_APPLE. destruct (proc_pidinfo os (getpid os)) as [s ti].
    destruct (s <=? 0); [|reflexivity].
    simpl. apply streams_used_properly_logged.
Qed.

(** ** Coinciding samples *)

(** X4.  When both probes deliver and the two samples are the same time, the
    function returns [+0.0] and logs nothing: the value of the error exits
    is also a value of successful runs. *)
Theorem X4_coinciding_samples_give_zero cfg os :
  probes_succeed cfg os = true ->
  samples_coincide cfg os ->
  fst (GetTimeSinceProcessStart cfg os) = zero /\
  diagnostics (snd (GetTimeSinceProcessStart cfg os)) = [].
Proof.
  intros Hs Hc. destruct (success_outcome cfg os Hs) as [-> D].
  split; [|exact D]. clear D Hs.
  unfold difference, samples_coincide in *. destruct (platform cfg).
  - rewrite Hc. apply sub_self.
    apply ticks_to_seconds; [|unfold prec; lia].
    assert (R := QuadPart_range
                   {| LowPart := dwLowDateTime (GetSystemTimeAsFileTime os);
                      HighPart := dwHighDateTime (GetSystemTimeAsFileTime os) |}).
    unfold current_ticks. lia.
  - destruct Hc as [Hf ->]. now apply sub_self.
  - destruct Hc as [Hn <-]. apply normal_timeval_spec in Hn.
    rewrite (wrap_signed_64 (tv_sec (start_timeval os))) by lia.
    rewrite (wrap_signed_32 (tv_usec (start_timeval os))) by lia.
    rewrite !Z.sub_diag. reflexivity.
  - reflexivity.
Qed.

Lemma X4_witness :
  fst (GetTimeSinceProcessStart cfg_windows
         (with_GetSystemTimeAsFileTime
            {| dwLowDateTime := 100000000; dwHighDateTime := 0 |} sample_os))
  = zero.
Proof.
  apply (X4_coinciding_samples_give_zero cfg_windows
           (with_GetSystemTimeAsFileTime
              {| dwLowDateTime := 100000000; dwHighDateTime := 0 |} sample_os));
    reflexivity.
Defined.

(** ** Finite results *)

Lemma Rounded_bound x z k :
  Rounded x z -> (- bpow k <= x <= bpow k)%R ->
  emin + prec - 1 <= k < emax ->
  is_finite z = true /\ (- bpow k <= B2R z <= bpow k)%R.
Proof.
  intros HR Hx Hk.
  assert (Hf := Rounded_finite x z k HR Hx Hk).
  split; [exact Hf|].
  assert (Hr := Rounded_Rnd x z HR Hf).
  split.
  - apply (Rnd_mono (- bpow k) x); [|exact Hr|lra].
    apply Rnd_opp, Rnd_bpow. lia.
  - apply (Rnd_mono x (bpow k)); [exact Hr| |lra].
    apply Rnd_bpow. lia.
Qed.

Lemma bpow_double k : (bpow k + bpow k = bpow (k + 1))%R.
Proof. rewrite bpow_add, bpow_1. ring. Qed.

Lemma sub_bounded x y k :
  valid x = true -> valid y = true -> is_finite x = true -> is_finite y = true ->
  (- bpow k <= B2R x <= bpow k)%R -> (- bpow k <= B2R y <= bpow k)%R ->
  emin + prec - 1 <= k -> k + 1 < emax ->
  is_finite (sub x y) = true.
Proof.
  intros Vx Vy Fx Fy Bx By Hk1 Hk2.
  apply (Rounded_bound (B2R x - B2R y) (sub x y) (k + 1)).
  - now apply SFsub_Rounded.
  - rewrite <- bpow_double. lra.
  - lia.
Qed.

Lemma seconds_of_ticks_range q :
  0 <= q < 2 ^ 64 ->
  valid (seconds_of_ticks q) = true /\
  is_finite (seconds_of_ticks q) = true /\
  (0 <= B2R (seconds_of_ticks q) <= bpow 64)%R.
Proof.
  intros Hq. unfold seconds_of_ticks.
  destruct (ticks_to_seconds q 10000000 ltac:(lia) ltac:(unfold prec; lia))
    as [HR Hf].
  split; [apply SFdiv_valid|]. split; [exact Hf|].
  destruct (of_Z_range q ltac:(lia)) as [L U].
  assert (Hx : (0 <= B2R (of_Z q) / 10000000 <= bpow 64)%R) by lra.
  split.
  - apply (Rnd_sign_nonneg _ _ (Rounded_Rnd _ _ HR Hf)). lra.
  - apply (Rounded_bound _ _ 64 HR).
    + assert (P := bpow_gt_0 64). lra.
    + rewrite emin_eq. unfold prec, emax. lia.
Qed.

Lemma exponent_64_low : emin + prec - 1 <= 64.
Proof. rewrite emin_eq. unfold prec. lia. Qed.

Lemma exponent_64_high : 64 + 1 < emax.
Proof. unfold emax. lia. Qed.

(** X5.  On Windows the value returned is always a finite number: whatever
    the two [FILETIME]s hold, it is neither an infinity nor a NaN. *)
Theorem X5_windows_result_finite cfg os :
  platform cfg = Windows ->
  is_finite (fst (GetTimeSinceProcessStart cfg os)) = true.
Proof.
  intros Hp. rewrite GetTimeSinceProcessStart_eq, Hp. unfold outcome_WIN32.
  destruct (GetProcessTimes os) as [ok ct].
  destruct (ok =? 0); [reflexivity|]. cbn [fst].
  repeat match goal with
         | |- context [div (of_Z ?q) (of_Z 10000000)] =>
             change (div (of_Z q) (of_Z 10000000)) with (seconds_of_ticks q)
         end.
  destruct (seconds_of_ticks_range _
              (QuadPart_range {| LowPart := dwLowDateTime ct;
                                 HighPart := dwHighDateTime ct |}))
    as (V1 & F1 & B1).
  destruct (seconds_of_ticks_range _
              (QuadPart_range
                 {| LowPart := dwLowDateTime (GetSystemTimeAsFileTime os);
                    HighPart := dwHighDateTime (GetSystemTimeAsFileTime os) |}))
    as (V2 & F2 & B2).
  assert (P := bpow_gt_0 64).
  apply (sub_bounded _ _ 64); try assumption; try lra;
    [apply exponent_64_low|apply exponent_64_high].
Qed.

Lemma X5_witness :
  is_finite (fst (GetTimeSinceProcessStart cfg_windows reversed_os)) = true.
Proof.
  apply (X5_windows_result_finite cfg_windows reversed_os). reflexivity.
Defined.

(** X8.  On Windows, with the creation time fixed, a later current time
    never gives a smaller result: the value returned is monotone in the
    current tick count. *)
Theorem X8_windows_monotone_in_current_time cfg os1 os2 :
  platform cfg = Windows ->
  GetProcessTimes os1 = GetProcessTimes os2 ->
  fst (GetProcessTimes os1) <> 0 ->
  current_ticks os1 <= current_ticks os2 ->
  leb (fst (GetTimeSinceProcessStart cfg os1))
      (fst (GetTimeSinceProcessStart cfg os2)) = true.
Proof.
  intros Hp HG Hok Hle.
  rewrite !GetTimeSinceProcessStart_eq, Hp. unfold outcome_WIN32.
  rewrite <- HG. destruct (GetProcessTimes os1) as [ok ct]. simpl in Hok.
  apply Z.eqb_neq in Hok. rewrite Hok. cbn [fst].
  repeat match goal with
         | |- context [div (of_Z ?q) (of_Z 10000000)] =>
             change (div (of_Z q) (of_Z 10000000)) with (seconds_of_ticks q)
         end.
  unfold current_ticks in Hle.
  set (k := QuadPart {| LowPart := dwLowDateTime ct;
                        HighPart := dwHighDateTime ct |}).
  set (n1 := QuadPart
               {| LowPart := dwLowDateTime (GetSystemTimeAsFileTime os1);
                  HighPart := dwHighDateTime (GetSystemTimeAsFileTime os1) |})
    in *.
  set (n2 := QuadPart
               {| LowPart := dwLowDateTime (GetSystemTimeAsFileTime os2);
                  HighPart := dwHighDateTime (GetSystemTimeAsFileTime os2) |})
    in *.
  assert (Rk : 0 <= k < 2 ^ 64) by apply QuadPart_range.
  assert (R1 : 0 <= n1 < 2 ^ 64) by apply QuadPart_range.
  assert (R2 : 0 <= n2 < 2 ^ 64) by apply QuadPart_range.
  destruct (seconds_of_ticks_range k Rk) as (Vk & Fk & Bk).
  destruct (seconds_of_ticks_range n1 R1) as (V1 & F1 & B1).
  destruct (seconds_of_ticks_range n2 R2) as (V2 & F2 & B2).
  assert (P := bpow_gt_0 64).
  assert (S1 := SFsub_Rounded _ _ V1 Vk F1 Fk).
  assert (S2 := SFsub_Rounded _ _ V2 Vk F2 Fk).
  assert (G1 : is_finite (sub (seconds_of_ticks n1) (seconds_of_ticks k)) = true).
  { apply (sub_bounded _ _ 64); try assumption; try lra;
      [apply exponent_64_low|apply exponent_64_high]. }
  assert (G2 : is_finite (sub (seconds_of_ticks n2) (seconds_of_ticks k)) = true).
  { apply (sub_bounded _ _ 64); try assumption; try lra;
      [apply exponent_64_low|apply exponent_64_high]. }
  apply SFleb_B2R; try assumption;
    try (eapply Rounded_valid; eassumption).
  apply (Rounded_le _ _ _ _ S1 S2 G1 G2).
  assert (M := seconds_monotone n1 n2 10000000 ltac:(lia) Hle ltac:(lia)
                 ltac:(unfold prec; lia)).
  unfold seconds_of_ticks. lra.
Qed.

Lemma X8_witness :
  leb (fst (GetTimeSinceProcessStart cfg_windows reversed_os))
      (fst (GetTimeSinceProcessStart cfg_windows
              (with_GetProcessTimes (GetProcessTimes reversed_os) sample_os)))
  = true.
Proof.
  apply (X8_windows_monotone_in_current_time cfg_windows reversed_os
           (with_GetProcessTimes (GetProcessTimes reversed_os) sample_os));
    try reflexivity.
  - discriminate.
  - vm_compute. discriminate.
Defined.

Lemma wrap_signed_64_range z : - 2 ^ 63 <= wrap_signed 64 z < 2 ^ 63.
Proof.
  unfold wrap_signed. change (2 ^ (64 - 1)) with (2 ^ 63).
  assert (H := Z.mod_pos_bound (z + 2 ^ 63) (2 ^ 64) ltac:(lia)).
  change (2 ^ 64) with (2 * 2 ^ 63) in *. lia.
Qed.

Lemma wrap_signed_32_range z : - 2 ^ 31 <= wrap_signed 32 z < 2 ^ 31.
Proof.
  unfold wrap_signed. change (2 ^ (32 - 1)) with (2 ^ 31).
  assert (H := Z.mod_pos_bound (z + 2 ^ 31) (2 ^ 32) ltac:(lia)).
  change (2 ^ 32) with (2 * 2 ^ 31) in *. lia.
Qed.

Lemma of_Z_bounded n k :
  0 <= k <= 64 -> - 2 ^ k <= n <= 2 ^ k ->
  valid (of_Z n) = true /\ is_finite (of_Z n) = true /\
  (- bpow k <= B2R (of_Z n) <= bpow k)%R.
Proof.
  intros Hk Hn. split; [apply of_Z_valid|].
  apply (Rounded_bound (IZR n) (of_Z n) k (of_Z_Rounded n)).
  - apply IZR_le_bpow; lia.
  - rewrite emin_eq. unfold prec, emax. lia.
Qed.

Lemma usec_quotient_bounded du :
  - 2 ^ 31 <= du <= 2 ^ 31 ->
  valid (div (of_Z du) (of_Z 1000000)) = true /\
  is_finite (div (of_Z du) (of_Z 1000000)) = true /\
  (- bpow 31 <= B2R (div (of_Z du) (of_Z 1000000)) <= bpow 31)%R.
Proof.
  intros Hd. split; [apply SFdiv_valid|].
  assert (Ed : B2R (of_Z du) = IZR du) by (apply B2R_of_Z_small; unfold prec; lia).
  assert (Ec : B2R (of_Z 1000000) = 1000000%R)
    by (apply B2R_of_Z_small; unfold prec; lia).
  apply (Rounded_bound (IZR du / 1000000)).
  - rewrite <- Ed, <- Ec. apply SFdiv_Rounded_value.
    + apply of_Z_finite; lia.
    + reflexivity.
    + rewrite Ec. lra.
  - destruct (IZR_le_bpow du 31 ltac:(lia) Hd) as [L U].
    assert (P := bpow_gt_0 31). lra.
  - rewrite emin_eq. unfold prec, emax. lia.
Qed.

Lemma add_bounded x y k :
  valid x = true -> valid y = true -> is_finite x = true -> is_finite y = true ->
  (- bpow k <= B2R x <= bpow k)%R -> (- bpow k <= B2R y <= bpow k)%R ->
  emin + prec - 1 <= k -> k + 1 < emax ->
  is_finite (add x y) = true.
Proof.
  intros Vx Vy Fx Fy Bx By Hk1 Hk2.
  apply (Rounded_bound (B2R x + B2R y) (add x y) (k + 1)).
  - now apply SFadd_Rounded.
  - rewrite <- bpow_double. lra.
  - lia.
Qed.

(** X6.  On Apple the value returned is always a finite number, whatever
    [proc_pidinfo] and [gettimeofday] deliver, a failed [gettimeofday]
    included. *)
Theorem X6_apple_result_finite cfg os :
  platform cfg = Apple ->
  is_finite (fst (GetTimeSinceProcessStart cfg os)) = true.
Proof.
  intros Hp. rewrite GetTimeSinceProcessStart_eq, Hp. unfold outcome_APPLE.
  destruct (proc_pidinfo os (getpid os)) as [st ti].
  destruct (st <=? 0); [reflexivity|]. cbn [fst].
  set (ds := wrap_signed 64 _). set (du := wrap_signed 32 _).
  assert (Rs : - 2 ^ 63 <= ds < 2 ^ 63) by apply wrap_signed_64_range.
  assert (Ru : - 2 ^ 31 <= du < 2 ^ 31) by apply wrap_signed_32_range.
  destruct (of_Z_bounded ds 63 ltac:(lia) ltac:(lia)) as (V1 & F1 & B1).
  destruct (usec_quotient_bounded du ltac:(lia)) as (V2 & F2 & B2).
  assert (M := bpow_le 31 63 ltac:(lia)).
  apply (add_bounded _ _ 63); try assumption; try lra.
  - rewrite emin_eq. unfold prec. lia.
  - unfold emax. lia.
Qed.

Lemma X6_witness :
  is_finite (fst (GetTimeSinceProcessStart cfg_apple
                    (with_gettimeofday None sample_os))) = true.
Proof.
  apply (X6_apple_result_finite cfg_apple (with_gettimeofday None sample_os)).
  reflexivity.
Defined.

(** ** The Linux tick constant *)

Lemma Rdiv_bound a c :
  (0 <= a)%R -> (1 <= c \/ c <= - 1)%R -> (- a <= a / c <= a)%R.
Proof.
  intros Ha [Hc|Hc].
  - assert (0 < / c <= 1)%R.
    { split; [apply Rinv_0_lt_compat; lra|].
      rewrite <- Rinv_1. apply Rinv_le_contravar; lra. }
    unfold Rdiv. nra.
  - assert (0 < / (- c) <= 1)%R.
    { split; [apply Rinv_0_lt_compat; lra|].
      rewrite <- Rinv_1. apply Rinv_le_contravar; lra. }
    replace (a / c)%R with (- (a * / (- c)))%R by (field; lra). nra.
Qed.

Lemma of_Z_away_from_zero n :
  n <> 0 -> - 2 ^ 64 <= n <= 2 ^ 64 ->
  (1 <= B2R (of_Z n) \/ B2R (of_Z n) <= - 1)%R.
Proof.
  intros Hn Hr.
  assert (Hf : is_finite (of_Z n) = true) by (apply of_Z_finite; lia).
  assert (Ra := Rounded_Rnd _ _ (of_Z_Rounded n) Hf).
  destruct (Z_lt_le_dec 0 n) as [Hp|Hp].
  - left. apply (Rnd_mono 1 (IZR n) _ _ Rnd_1 Ra). apply IZR_le. lia.
  - right. apply (Rnd_mono (IZR n) (- 1) _ _ Ra (Rnd_opp _ _ Rnd_1)).
    apply (IZR_le n (- 1)). lia.
Qed.

Lemma start_seconds_bounded st clk :
  0 <= st < 2 ^ 64 -> - 2 ^ 63 <= clk < 2 ^ 63 -> clk <> 0 ->
  valid (div (of_Z st) (of_Z clk)) = true /\
  is_finite (div (of_Z st) (of_Z clk)) = true /\
  (- bpow 64 <= B2R (div (of_Z st) (of_Z clk)) <= bpow 64)%R /\
  Rounded (B2R (of_Z st) / B2R (of_Z clk)) (div (of_Z st) (of_Z clk)).
Proof.
  intros Hs Hc Hne. split; [apply SFdiv_valid|].
  destruct (of_Z_range st ltac:(lia)) as [L U].
  assert (A := of_Z_away_from_zero clk Hne ltac:(lia)).
  assert (HR : Rounded (B2R (of_Z st) / B2R (of_Z clk))
                       (div (of_Z st) (of_Z clk))).
  { apply SFdiv_Rounded_value; try (apply of_Z_finite; lia).
    destruct A; lra. }
  assert (D := Rdiv_bound _ _ L A).
  destruct (Rounded_bound _ _ 64 HR ltac:(lra)
              ltac:(rewrite emin_eq; unfold prec, emax; lia)) as [Hf Hb].
  split; [exact Hf|]. split; [exact Hb|exact HR].
Qed.

Lemma plausible_uptime_spec up :
  plausible_uptime up = true ->
  valid up = true /\ is_finite up = true /\
  (- bpow 64 <= B2R up <= bpow 64)%R.
Proof.
  unfold plausible_uptime. intros [Hv Hl]%andb_prop.
  split; [exact Hv|].
  destruct up as [s|s| |s m e].
  - split; [reflexivity|]. simpl. assert (P := bpow_gt_0 64). lra.
  - vm_compute in Hl. discriminate.
  - vm_compute in Hl. discriminate.
  - split; [reflexivity|].
    assert (Hb : (B2R (S754_finite false m e) <= B2R (of_Z (2 ^ 64)))%R).
    { apply SFleb_B2R; try reflexivity; [exact Hv|exact Hl]. }
    destruct (of_Z_range (2 ^ 64) ltac:(lia)) as [_ U].
    assert (P := F2R_pos (Zpos m) e ltac:(lia)).
    rewrite B2R_finite in *. destruct s; lra.
Qed.

Lemma linux_success_opens_stat cfg os :
  platform cfg = Linux -> probes_succeed cfg os = true ->
  exists f, fopen os stat_path = Some f.
Proof.
  intros Hp Hs. unfold probes_succeed, creation_failure in Hs.
  rewrite Hp in Hs.
  destruct (fopen os stat_path) as [f|]; [now exists f|discriminate].
Qed.

Lemma zero_tick_constant_not_finite st up :
  0 <= st < 2 ^ 64 -> is_finite up = true ->
  is_finite (sub up (div (of_Z st) (of_Z 0))) = false.
Proof.
  intros Hs Hu.
  assert (Hf : is_finite (of_Z st) = true) by (apply of_Z_finite; lia).
  change (of_Z 0) with (S754_zero false).
  destruct (of_Z st) as [s|s| |s m e]; try discriminate;
    destruct up as [su|su| |su mu eu]; try discriminate; reflexivity.
Qed.

(** X7.  On Linux, for a start tick count that fits [uint64_t], a tick
    constant that fits [long] and an uptime of at most [2^64] seconds in
    magnitude, the value returned is a finite number exactly when the tick
    constant is not zero; with a constant of zero it is an infinity or a
    NaN, and nothing is logged. *)
Theorem X7_linux_finite_iff_tick_constant_nonzero cfg os :
  platform cfg = Linux ->
  probes_succeed cfg os = true ->
  is_uint64 (startTime_ticks os) = true ->
  is_long (sysconf_SC_CLK_TCK os) = true ->
  plausible_uptime (kernelUpTimeInSeconds os) = true ->
  (is_finite (fst (GetTimeSinceProcessStart cfg os)) = true
   <-> sysconf_SC_CLK_TCK os <> 0) /\
  diagnostics (snd (GetTimeSinceProcessStart cfg os)) = [].
Proof.
  intros Hp Hs Ht Hc Hu.
  destruct (success_outcome cfg os Hs) as [-> D]. split; [|exact D].
  unfold difference. rewrite Hp.
  unfold is_uint64 in Ht. apply andb_prop in Ht. destruct Ht as [T1 T2].
  apply Z.leb_le in T1. apply Z.ltb_lt in T2.
  unfold is_long in Hc. apply andb_prop in Hc. destruct Hc as [C1 C2].
  apply Z.leb_le in C1. apply Z.ltb_lt in C2.
  destruct (plausible_uptime_spec _ Hu) as (Vu & Fu & Bu).
  destruct (linux_success_opens_stat cfg os Hp Hs) as [f Ef].
  unfold processStartTimeInSeconds, startTime_ticks in *. rewrite Ef in *.
  destruct (Z.eq_dec (sysconf_SC_CLK_TCK os) 0) as [E|E].
  - rewrite E. rewrite zero_tick_constant_not_finite by (assumption || lia).
    split; [discriminate|congruence].
  - split; [intros _; exact E|intros _].
    destruct (start_seconds_bounded _ _ (conj T1 T2) (conj C1 C2) E)
      as (Vs & Fs & Bs & _).
    apply (sub_bounded _ _ 64); try assumption;
      [apply exponent_64_low|apply exponent_64_high].
Qed.

Lemma X7_witness :
  is_finite (fst (GetTimeSinceProcessStart cfg_linux (with_sysconf 0 sample_os)))
    = true
  <-> sysconf_SC_CLK_TCK (with_sysconf 0 sample_os) <> 0.
Proof.
  apply (X7_linux_finite_iff_tick_constant_nonzero cfg_linux
           (with_sysconf 0 sample_os)); reflexivity.
Defined.

(** ** The result against the uptime *)

Lemma valid_finite_below_emax x :
  valid x = true -> is_finite x = true ->
  (- bpow emax < B2R x < bpow emax)%R.
Proof.
  intros Hv Hf. assert (P := bpow_gt_0 emax).
  destruct x as [s|s| |s m e]; try discriminate; [simpl; lra|].
  apply valid_canonical in Hv. destruct Hv as [Hc He].
  destruct (digits2_pos_bounds m) as [_ Hm].
  assert (Hd : Zpos (digits2_pos m) <= prec) by fexp_lia.
  assert (Hlt : (F2R (Zpos m) e < bpow emax)%R).
  { apply Rlt_le_trans with (F2R (2 ^ Zpos (digits2_pos m)) e).
    - now apply F2R_lt.
    - rewrite F2R_pow2 by lia. apply bpow_le. lia. }
  assert (Q := F2R_pos (Zpos m) e ltac:(lia)).
  rewrite B2R_finite. destruct s; lra.
Qed.

Lemma sub_le_left x y :
  valid x = true -> valid y = true -> is_finite x = true -> is_finite y = true ->
  (0 <= B2R y)%R -> leb (sub x y) x = true.
Proof.
  intros Vx Vy Fx Fy Hy.
  assert (HR : Rounded (B2R x - B2R y) (sub x y)) by now apply SFsub_Rounded.
  assert (Hx := Rnd_B2R x Vx).
  assert (Bx := valid_finite_below_emax x Vx Fx).
  destruct (sub x y) as [s|s| |s m e].
  - apply SFleb_B2R; try assumption; try reflexivity.
    destruct HR as [_ HR]. cbn [B2R].
    apply (Rnd_mono _ _ _ _ HR Hx). lra.
  - destruct HR as [_ (r & Hr & Hs)].
    assert (H := Rnd_mono _ _ _ _ Hr Hx ltac:(lra)).
    destruct s; [|lra].
    destruct x as [sx|sx| |sx mx ex]; try discriminate; reflexivity.
  - destruct HR as [_ []].
  - destruct HR as [Vr HR].
    apply SFleb_B2R; try assumption; try reflexivity.
    apply (Rnd_mono _ _ _ _ HR Hx). lra.
Qed.

(** X9.  On Linux, with a positive tick constant, the value returned never
    exceeds the kernel uptime that was read. *)
Theorem X9_linux_result_at_most_uptime cfg os :
  platform cfg = Linux ->
  probes_succeed cfg os = true ->
  is_uint64 (startTime_ticks os) = true ->
  is_long (sysconf_SC_CLK_TCK os) = true ->
  0 < sysconf_SC_CLK_TCK os ->
  valid (kernelUpTimeInSeconds os) = true ->
  is_finite (kernelUpTimeInSeconds os) = true ->
  leb (fst (GetTimeSinceProcessStart cfg os)) (kernelUpTimeInSeconds os) = true.
Proof.
  intros Hp Hs Ht Hc Hpos Vu Fu.
  destruct (success_outcome cfg os Hs) as [-> _].
  unfold difference. rewrite Hp.
  unfold is_uint64 in Ht. apply andb_prop in Ht. destruct Ht as [T1 T2].
  apply Z.leb_le in T1. apply Z.ltb_lt in T2.
  unfold is_long in Hc. apply andb_prop in Hc. destruct Hc as [C1 C2].
  apply Z.leb_le in C1. apply Z.ltb_lt in C2.
  destruct (linux_success_opens_stat cfg os Hp Hs) as [f Ef].
  unfold processStartTimeInSeconds, startTime_ticks in *. rewrite Ef in *.
  destruct (start_seconds_bounded _ _ (conj T1 T2) (conj C1 C2) ltac:(lia))
    as (Vs & Fs & _ & HR).
  apply sub_le_left; try assumption.
  apply (Rnd_sign_nonneg _ _ (Rounded_Rnd _ _ HR Fs)).
  destruct (of_Z_range (snd (fscanf_stat os f)) ltac:(lia)) as [L _].
  assert (A : (1 <= B2R (of_Z (sysconf_SC_CLK_TCK os)))%R).
  { assert (Hf : is_finite (of_Z (sysconf_SC_CLK_TCK os)) = true)
      by (apply of_Z_finite; lia).
    apply (Rnd_mono 1 (IZR (sysconf_SC_CLK_TCK os)) _ _ Rnd_1
             (Rounded_Rnd _ _ (of_Z_Rounded _) Hf)).
    apply IZR_le. lia. }
  apply Rmult_le_pos; [exact L|]. apply Rlt_le, Rinv_0_lt_compat. lra.
Qed.

Lemma X9_witness :
  leb (fst (GetTimeSinceProcessStart cfg_linux sample_os))
      (kernelUpTimeInSeconds sample_os) = true.
Proof.
  apply (X9_linux_result_at_most_uptime cfg_linux sample_os);
    try reflexivity.
Defined.

(** ** The scan of [/proc/self/stat] *)

Lemma parse_stat_format :
  parse_format stat_format =
  D_skip_string :: D_space :: D_char "(" :: skip_fields 20 [D_size_t].
Proof. reflexivity. Qed.

Lemma string_app_assoc (a b c : string) :
  ((a ++ b) ++ c = a ++ (b ++ c))%string.
Proof. induction a as [|x a IH]; simpl; [reflexivity|now rewrite IH]. Qed.

Lemma string_app_nil_r (a : string) : (a ++ "" = a)%string.
Proof. induction a as [|x a IH]; simpl; [reflexivity|now rewrite IH]. Qed.

Lemma digit_not_space c : isdigit c = true -> isspace c = false.
Proof.
  destruct c as [[|] [|] [|] [|] [|] [|] [|] [|]]; intros H;
    try (vm_compute in H; discriminate H); reflexivity.
Qed.

Lemma conv_size_t_digit c r :
  isdigit c = true ->
  conv_size_t (String c r) = Some (read_digits 0 (String c r)).
Proof.
  destruct c as [[|] [|] [|] [|] [|] [|] [|] [|]]; intros H;
    try (vm_compute in H; discriminate H); reflexivity.
Qed.

Lemma skip_space_idem s : skip_space (skip_space s) = skip_space s.
Proof.
  induction s as [|c s IH]; [reflexivity|]. simpl.
  destruct (isspace c) eqn:E; [exact IH|]. simpl. now rewrite E.
Qed.

Lemma skip_space_token u r :
  is_token u = true -> skip_space (u ++ r) = (u ++ r)%string.
Proof.
  destruct u as [|c u]; [discriminate|]. simpl.
  intros [H _]%andb_prop. apply negb_true_iff in H. now rewrite H.
Qed.

Lemma skip_nonspace_app u r :
  no_space u = true -> skip_nonspace (u ++ String " " r) = String " " r.
Proof.
  induction u as [|c u IH]; [reflexivity|]. simpl.
  intros [H Hu]%andb_prop. apply negb_true_iff in H. rewrite H. now apply IH.
Qed.

Lemma conv_skip_string_token u r :
  is_token u = true ->
  conv_skip_string (u ++ String " " r) = Some (String " " r).
Proof.
  intros Hu. unfold conv_skip_string. rewrite skip_space_token by assumption.
  destruct u as [|c u]; [discriminate|]. simpl in *.
  apply andb_prop in Hu. destruct Hu as [_ Hu]. now rewrite skip_nonspace_app.
Qed.

Lemma conv_skip_string_skip_space s :
  conv_skip_string (skip_space s) = conv_skip_string s.
Proof. unfold conv_skip_string. now rewrite skip_space_idem. Qed.

Lemma conv_size_t_skip_space s :
  conv_size_t (skip_space s) = conv_size_t s.
Proof. unfold conv_size_t. now rewrite skip_space_idem. Qed.

Lemma scan_skip_space n s :
  scan (skip_fields n [D_size_t]) (skip_space s)
  = scan (skip_fields n [D_size_t]) s.
Proof.
  destruct n as [|n]; simpl.
  - now rewrite conv_size_t_skip_space.
  - now rewrite conv_skip_string_skip_space.
Qed.

Lemma skip_fields_add a b ds :
  skip_fields (a + b) ds = skip_fields a (skip_fields b ds).
Proof. induction a as [|a IH]; simpl; [reflexivity|now rewrite IH]. Qed.

(** Each [%*s] consumes one field, the white space after it included. *)
Lemma scan_fields us k r :
  forallb is_token us = true ->
  scan (skip_fields (List.length us + k) [D_size_t]) (fields_text us ++ r)
  = scan (skip_fields k [D_size_t]) r.
Proof.
  induction us as [|u us IH]; intros H; [reflexivity|].
  simpl in H. apply andb_prop in H. destruct H as [Hu Hus].
  cbn [List.length Nat.add skip_fields fields_text scan].
  rewrite !string_app_assoc. cbn [String.append].
  rewrite conv_skip_string_token by assumption.
  cbn [scan skip_space]. change (isspace " ") with true. cbn iota.
  rewrite scan_skip_space. now apply IH.
Qed.

Lemma read_digits_app d acc r :
  all_digits d = true -> starts_with_digit r = false ->
  read_digits acc (d ++ r) = (decimal_from acc d, r).
Proof.
  revert acc. induction d as [|c d IH]; intros acc Hd Hr.
  - simpl. destruct r as [|c r]; [reflexivity|]. simpl in *. now rewrite Hr.
  - simpl in *. apply andb_prop in Hd. destruct Hd as [Hc Hd].
    rewrite Hc. now apply IH.
Qed.

Lemma scan_number d r :
  is_number d = true -> starts_with_digit r = false ->
  scan [D_size_t] (d ++ r) = Some (decimal_value d).
Proof.
  intros Hd Hr. destruct d as [|c d]; [discriminate|].
  assert (Hc : isdigit c = true).
  { simpl in Hd. now apply andb_prop in Hd. }
  cbn [scan String.append]. rewrite conv_size_t_digit by assumption.
  change (String c (d ++ r)) with (String c d ++ r)%string.
  now rewrite read_digits_app.
Qed.

Lemma scan_nothing k : scan (skip_fields k [D_size_t]) "" = None.
Proof. now destruct k. Qed.

Lemma scan_after_pid pid r :
  is_token pid = true ->
  scan_stat (pid ++ " (" ++ r) = scan (skip_fields 20 [D_size_t]) r.
Proof.
  intros Hp. unfold scan_stat. rewrite parse_stat_format.
  cbn [scan String.append]. rewrite conv_skip_string_token by assumption.
  reflexivity.
Qed.

Lemma is_token_comm comm : no_space comm = true -> is_token (comm ++ ")") = true.
Proof.
  intros H. assert (N : no_space (comm ++ ")") = true).
  { induction comm as [|c comm IH]; [reflexivity|]. simpl in *.
    apply andb_prop in H. destruct H as [Hc H]. rewrite Hc. now apply IH. }
  destruct comm; [reflexivity|exact N].
Qed.

Lemma fields_text_app l1 l2 :
  fields_text (l1 ++ l2) = (fields_text l1 ++ fields_text l2)%string.
Proof.
  induction l1 as [|f l1 IH]; [reflexivity|]. simpl.
  now rewrite IH, !string_app_assoc.
Qed.

Lemma scan_stat_text pid comm fields starttime rest :
  is_token pid = true -> no_space comm = true ->
  forallb is_token fields = true -> List.length fields = 19%nat ->
  is_number starttime = true -> starts_with_digit rest = false ->
  scan_stat (stat_text pid comm fields starttime rest)
  = Some (decimal_value starttime).
Proof.
  intros Hp Hc Hf Hl Hn Hr. unfold stat_text.
  rewrite scan_after_pid by assumption.
  replace (comm ++ ") " ++ fields_text fields ++ starttime ++ rest)%string
    with (fields_text ((comm ++ ")") :: fields) ++ (starttime ++ rest))%string.
  - change 20%nat with (S 19 + 0)%nat. rewrite <- Hl.
    change (S (List.length fields)) with (List.length ((comm ++ ")")%string :: fields)).
    rewrite scan_fields.
    + now apply scan_number.
    + simpl. now rewrite is_token_comm.
  - cbn [fields_text]. rewrite !string_app_assoc. reflexivity.
Qed.

Lemma scan_stat_text_space pid a b fields field21 starttime rest :
  is_token pid = true -> is_token a = true -> no_space b = true ->
  forallb is_token fields = true -> List.length fields = 18%nat ->
  is_number field21 = true ->
  scan_stat (stat_text pid (a ++ " " ++ b) (fields ++ [field21]) starttime rest)
  = Some (decimal_value field21).
Proof.
  intros Hp Ha Hb Hf Hl Hn. unfold stat_text.
  rewrite scan_after_pid by assumption.
  replace ((a ++ " " ++ b) ++ ") " ++ fields_text (fields ++ [field21])
             ++ starttime ++ rest)%string
    with (fields_text (a :: (b ++ ")") :: fields)
          ++ (field21 ++ " " ++ starttime ++ rest))%string.
  - change 20%nat with (S (S 18) + 0)%nat. rewrite <- Hl.
    change (S (S (List.length fields)))
      with (List.length (a :: (b ++ ")")%string :: fields)).
    rewrite scan_fields.
    + now apply scan_number.
    + simpl. now rewrite Ha, is_token_comm.
  - rewrite fields_text_app. cbn [fields_text].
    rewrite !string_app_assoc. reflexivity.
Qed.

Lemma scan_stat_text_leading_space pid b fields starttime rest :
  is_token pid = true -> no_space b = true ->
  forallb is_token fields = true -> List.length fields = 19%nat ->
  is_number starttime = true -> starts_with_digit rest = false ->
  scan_stat (stat_text pid (" " ++ b) fields starttime rest)
  = Some (decimal_value starttime).
Proof.
  intros Hp Hb Hf Hl Hn Hr.
  rewrite <- (scan_stat_text pid b fields starttime rest) by assumption.
  unfold stat_text. rewrite !scan_after_pid by assumption. reflexivity.
Qed.

Lemma all_digits_no_space s : all_digits s = true -> no_space s = true.
Proof.
  induction s as [|c s IH]; [reflexivity|]. simpl.
  intros [Hc Hs]%andb_prop. now rewrite (digit_not_space c Hc), IH.
Qed.

Lemma is_number_token s : is_number s = true -> is_token s = true.
Proof.
  destruct s as [|c s]; [discriminate|]. apply all_digits_no_space.
Qed.

Lemma scan_stat_truncated pid fields :
  is_token pid = true -> forallb is_token fields = true ->
  (List.length fields <= 20)%nat ->
  scan_stat (pid ++ " (" ++ fields_text fields) = None.
Proof.
  intros Hp Hf Hl. rewrite scan_after_pid by assumption.
  replace 20%nat with (List.length fields + (20 - List.length fields))%nat by lia.
  rewrite <- (string_app_nil_r (fields_text fields)).
  rewrite scan_fields by assumption. apply scan_nothing.
Qed.

(** ** The Linux branch on the text of [/proc/self/stat] *)

Lemma linux_decoded_run cfg os f1 f2 v up :
  platform cfg = Linux ->
  fopen os stat_path = Some f1 -> fscanf_stat os f1 = (1, v) ->
  fopen os uptime_path = Some f2 -> fscanf_lf os f2 = (1, up) ->
  fst (GetTimeSinceProcessStart cfg os)
    = sub up (div (of_Z v) (of_Z (sysconf_SC_CLK_TCK os))) /\
  diagnostics (snd (GetTimeSinceProcessStart cfg os)) = [].
Proof.
  intros Hp H1 H2 H3 H4.
  rewrite GetTimeSinceProcessStart_eq, Hp. unfold outcome_linux.
  rewrite H1, H2, H3, H4. simpl. now split.
Qed.

Lemma sub_zero_r up : sub up zero = up.
Proof. destruct up as [[|]|[|]| |s m e]; reflexivity. Qed.

Lemma zero_ticks_zero_seconds clk :
  0 < clk < 2 ^ 63 -> div (of_Z 0) (of_Z clk) = zero.
Proof.
  intros Hc.
  assert (Hf : is_finite (of_Z clk) = true) by (apply of_Z_finite; lia).
  assert (H1 : (1 <= B2R (of_Z clk))%R).
  { apply (Rnd_mono 1 (IZR clk) _ _ Rnd_1
             (Rounded_Rnd _ _ (of_Z_Rounded clk) Hf)).
    apply IZR_le. lia. }
  change (of_Z 0) with (S754_zero false).
  destruct (of_Z clk) as [s|s| |s m e]; try discriminate.
  - simpl in H1. lra.
  - rewrite B2R_finite in H1.
    assert (P := F2R_pos (Zpos m) e ltac:(lia)).
    destruct s; [lra|reflexivity].
Qed.

(** X10.  On Linux, for a status line whose command name holds no white
    space and whose 22nd field fits [uint64_t], the start time the function
    uses is the 22nd field of the line: it returns the uptime minus that
    field divided by the tick constant, and logs nothing. *)
Theorem X10_linux_uses_field_22 cfg os f1 f2 up pid comm fields starttime rest :
  platform cfg = Linux ->
  fopen os stat_path = Some f1 ->
  reads_stat os (stat_text pid comm fields starttime rest) ->
  is_token pid = true -> no_space comm = true ->
  forallb is_token fields = true -> List.length fields = 19%nat ->
  is_number starttime = true -> starts_with_digit rest = false ->
  is_uint64 (decimal_value starttime) = true ->
  fopen os uptime_path = Some f2 -> fscanf_lf os f2 = (1, up) ->
  fst (GetTimeSinceProcessStart cfg os)
    = sub up (div (of_Z (decimal_value starttime))
                  (of_Z (sysconf_SC_CLK_TCK os))) /\
  diagnostics (snd (GetTimeSinceProcessStart cfg os)) = [].
Proof.
  intros Hp H1 Hr Hpid Hc Hf Hl Hn Hrest _ H3 H4.
  specialize (Hr f1 H1). rewrite scan_stat_text in Hr by assumption.
  exact (linux_decoded_run cfg os f1 f2 _ up Hp H1 Hr H3 H4).
Qed.

Lemma X10_witness :
  fst (GetTimeSinceProcessStart cfg_linux (with_stat_text sample_stat sample_os))
  = of_Z 5.
Proof.
  apply (X10_linux_uses_field_22 cfg_linux
           (with_stat_text sample_stat sample_os) 3 4 (of_Z 10)
           "4242" "cat" (sample_fields ++ ["0"%string]) "500" sample_stat_rest);
    try reflexivity.
  intros f _. reflexivity.
Defined.

(** X11.  On Linux, for a status line whose command name is two parts
    without white space separated by one space, and whose 21st and 22nd
    fields are numbers that fit [uint64_t]: when the first part is not
    empty, every field moves by one place and the function takes the 21st
    field of the line for the start time; when it is empty, the space is
    the first character of the name, the scan skips it, and the function
    takes the 22nd field as it does for a name without a space.  Nothing is
    logged either way. *)
Theorem X11_linux_one_space_in_name
    cfg os f1 f2 up pid a b fields field21 starttime rest :
  platform cfg = Linux ->
  fopen os stat_path = Some f1 ->
  reads_stat os
    (stat_text pid (a ++ " " ++ b) (fields ++ [field21]) starttime rest) ->
  is_token pid = true -> no_space a = true -> no_space b = true ->
  forallb is_token fields = true -> List.length fields = 18%nat ->
  is_number field21 = true -> is_uint64 (decimal_value field21) = true ->
  is_number starttime = true -> is_uint64 (decimal_value starttime) = true ->
  starts_with_digit rest = false ->
  fopen os uptime_path = Some f2 -> fscanf_lf os f2 = (1, up) ->
  fst (GetTimeSinceProcessStart cfg os)
    = sub up (div (of_Z (decimal_value
                           match a with
                           | EmptyString => starttime
                           | String _ _ => field21
                           end))
                  (of_Z (sysconf_SC_CLK_TCK os))) /\
  diagnostics (snd (GetTimeSinceProcessStart cfg os)) = [].
Proof.
  intros Hp H1 Hr Hpid Ha Hb Hf Hl Hn _ Hs _ Hrest H3 H4.
  specialize (Hr f1 H1).
  destruct a as [|c a].
  - change (EmptyString ++ " " ++ b)%string with (" " ++ b)%string in Hr.
    rewrite scan_stat_text_leading_space in Hr; try assumption.
    + exact (linux_decoded_run cfg os f1 f2 _ up Hp H1 Hr H3 H4).
    + rewrite forallb_app, Hf. simpl. now rewrite is_number_token.
    + rewrite length_app, Hl. reflexivity.
  - rewrite scan_stat_text_space in Hr by assumption.
    exact (linux_decoded_run cfg os f1 f2 _ up Hp H1 Hr H3 H4).
Qed.

(** The name [Web Content] gives the uptime, 10 seconds, since field 21 is
    0; the name [ Content] gives 10 - 500/100 = 5 seconds. *)
Lemma X11_witness :
  fst (GetTimeSinceProcessStart cfg_linux
         (with_stat_text sample_stat_space sample_os))
  = of_Z 10 /\
  fst (GetTimeSinceProcessStart cfg_linux
         (with_stat_text sample_stat_leading_space sample_os))
  = of_Z 5.
Proof.
  split.
  - apply (X11_linux_one_space_in_name cfg_linux
             (with_stat_text sample_stat_space sample_os) 3 4 (of_Z 10)
             "4242" "Web" "Content" sample_fields "0" "500" sample_stat_rest);
      try reflexivity.
    intros f _. reflexivity.
  - apply (X11_linux_one_space_in_name cfg_linux
             (with_stat_text sample_stat_leading_space sample_os) 3 4 (of_Z 10)
             "4242" "" "Content" sample_fields "0" "500" sample_stat_rest);
      try reflexivity.
    intros f _. reflexivity.
Defined.

(** X12.  On Linux, a status line that ends before its 22nd field makes the
    function close the stream, log the decode failure and return [0.0]. *)
Theorem X12_linux_truncated_stat cfg os f1 pid fields :
  platform cfg = Linux ->
  fopen os stat_path = Some f1 ->
  reads_stat os (pid ++ " (" ++ fields_text fields) ->
  is_token pid = true -> forallb is_token fields = true ->
  (List.length fields <= 20)%nat ->
  GetTimeSinceProcessStart cfg os
  = (zero, [Call_fopen stat_path (Some f1); Call_fscanf f1; Call_fclose f1]
             ++ logged cfg msg_decode_stat).
Proof.
  intros Hp H1 Hr Hpid Hf Hl.
  specialize (Hr f1 H1). rewrite scan_stat_truncated in Hr by assumption.
  rewrite GetTimeSinceProcessStart_eq, Hp. unfold outcome_linux.
  rewrite H1. destruct (fscanf_stat os f1) as [d st]. simpl in Hr.
  apply Z.eqb_neq in Hr. rewrite Hr. reflexivity.
Qed.

Lemma X12_witness :
  GetTimeSinceProcessStart cfg_linux
    (with_stat_text ("4242" ++ " (" ++ fields_text sample_fields) sample_os)
  = (zero, [Call_fopen stat_path (Some 3); Call_fscanf 3; Call_fclose 3;
            Log_stderr msg_decode_stat]).
Proof.
  apply (X12_linux_truncated_stat cfg_linux
           (with_stat_text ("4242" ++ " (" ++ fields_text sample_fields)
              sample_os) 3 "4242" sample_fields);
    try reflexivity.
  - intros f _. vm_compute. discriminate.
  - simpl. lia.
Defined.

(** X13.  On Linux, for a process whose command name is a non-empty part
    without white space, one space, and a part without white space, and
    whose 21st field is [0], as the kernel writes it, the function returns
    the kernel uptime itself for every positive tick constant: the start
    time of the process plays no part.  (A name whose only space is its
    first character is not such a name.) *)
Theorem X13_linux_space_in_name_returns_uptime
    cfg os f1 f2 up pid a b fields starttime rest :
  platform cfg = Linux ->
  fopen os stat_path = Some f1 ->
  reads_stat os
    (stat_text pid (a ++ " " ++ b) (fields ++ ["0"%string]) starttime rest) ->
  is_token pid = true -> is_token a = true -> no_space b = true ->
  forallb is_token fields = true -> List.length fields = 18%nat ->
  0 < sysconf_SC_CLK_TCK os < 2 ^ 63 ->
  fopen os uptime_path = Some f2 -> fscanf_lf os f2 = (1, up) ->
  fst (GetTimeSinceProcessStart cfg os) = up.
Proof.
  intros Hp H1 Hr Hpid Ha Hb Hf Hl Hc H3 H4.
  specialize (Hr f1 H1).
  rewrite scan_stat_text_space in Hr by (assumption || reflexivity).
  destruct (linux_decoded_run cfg os f1 f2 _ up Hp H1 Hr H3 H4) as [-> _].
  change (decimal_value "0") with 0.
  now rewrite zero_ticks_zero_seconds, sub_zero_r.
Qed.

Lemma X13_witness :
  fst (GetTimeSinceProcessStart cfg_linux
         (with_stat_text sample_stat_space sample_os))
  = kernelUpTimeInSeconds sample_os.
Proof.
  apply (X13_linux_space_in_name_returns_uptime cfg_linux
           (with_stat_text sample_stat_space sample_os) 3 4 (of_Z 10)
           "4242" "Web" "Content" sample_fields "500" sample_stat_rest);
    try reflexivity.
  - intros f _. reflexivity.
  - vm_compute. split; reflexivity.
Defined.
